(** * ArcticCare API: gamification core (points, levels, streaks, badges, ranking)

    A shallow embedding of the route handlers of the ArcticCare API that
    implement the reward logic, and the properties of them that the
    specification states.

    Modelling conventions.
    - The relational store behind [prisma] is a record of tables, each table a
      list of rows in storage order.  Generated columns that no handler reads
      back (row ids of [user_badges] and [contributions], [updatedAt]) and
      profile columns (email, password, avatar, role) are left out.
    - Integers ([points], [level], streak counters) are [Z]; JavaScript
      [Math.floor (a / b)] on integers is [Z.div] (rounds down), [a % b] is
      [Z.rem] (sign of the dividend).
    - A [Date] is its time value, a number of milliseconds, in [Z]; the clock
      ([new Date()]) is a parameter [now] of each handler that reads it.
    - A JavaScript number is an IEEE 754 binary64 value: the level progress
      and the percentile are computed with the correctly rounded operations of
      [PrimFloat] and printed by [toFixed(1)] from the exact value of the
      result, and a sum of two integers is rounded to 53 significant bits.
      The hours since the last activity are only compared with 48, which the
      exact quotient decides.
    - A handler is a state-passing computation over the store that may send its
      reply early ([return res.status(..).json(..)]) or throw (a rejected
      [prisma] call), the [catch] block turning a throw into a 500 reply.
    - The [authenticate] middleware is not part of the handlers: a handler
      below is what runs once the caller is authenticated. *)

From Stdlib Require Import ZArith List Ascii String QArith Qabs Qminmax Lia Bool.
From Stdlib Require Import Permutation Sorted DecimalString.
From Stdlib Require PrimFloat SpecFloat FloatOps FloatClass.
Import ListNotations.

Local Open Scope string_scope.
Local Open Scope Z_scope.

(** ** The store *)

Module User.
(** Table [users]. *)
Record t : Type := mk {
  id : string;
  name : string;
  points : Z;
  level : Z;
  currentStreak : Z;
  longestStreak : Z;
  lastActiveAt : Z;
  createdAt : Z
}.

Definition set_points (v : Z) (u : t) : t :=
  mk (id u) (name u) v (level u) (currentStreak u) (longestStreak u)
     (lastActiveAt u) (createdAt u).
Definition set_level (v : Z) (u : t) : t :=
  mk (id u) (name u) (points u) v (currentStreak u) (longestStreak u)
     (lastActiveAt u) (createdAt u).
Definition set_currentStreak (v : Z) (u : t) : t :=
  mk (id u) (name u) (points u) (level u) v (longestStreak u)
     (lastActiveAt u) (createdAt u).
Definition set_longestStreak (v : Z) (u : t) : t :=
  mk (id u) (name u) (points u) (level u) (currentStreak u) v
     (lastActiveAt u) (createdAt u).
Definition set_lastActiveAt (v : Z) (u : t) : t :=
  mk (id u) (name u) (points u) (level u) (currentStreak u) (longestStreak u)
     v (createdAt u).
(** [data: { points: { increment: n } }] *)
Definition increment_points (n : Z) (u : t) : t :=
  set_points (points u + n) u.
End User.

Module Badge.
(** Table [badges]. *)
Record t : Type := mk {
  id : string;
  name : string;
  description : string;
  icon : string;
  points : Z
}.
End Badge.

Module UserBadge.
(** Table [user_badges], unique on [(userId, badgeId)]. *)
Record t : Type := mk {
  userId : string;
  badgeId : string;
  unlockedAt : Z
}.
End UserBadge.

Module Contribution.
(** Table [contributions], the reward ledger. *)
Record t : Type := mk {
  userId : string;
  type : string;
  points : Z;
  description : string;
  createdAt : Z
}.
End Contribution.

Record Db : Type := mkDb {
  users : list User.t;
  badges : list Badge.t;
  userBadges : list UserBadge.t;
  contributions : list Contribution.t
}.

(** ** Handlers as computations over the store *)

Module Handler.

Inductive step (R A : Type) : Type :=
| Reply (r : R)      (* the response has been sent, the handler returns *)
| Throw              (* a [prisma] call rejected *)
| Next (a : A).
Arguments Reply {R A} r.
Arguments Throw {R A}.
Arguments Next {R A} a.

Definition t (R A : Type) : Type := Db -> step R A * Db.

Definition ret {R A} (a : A) : t R A := fun db => (Next a, db).

Definition bind {R A B} (m : t R A) (k : A -> t R B) : t R B :=
  fun db =>
    match m db with
    | (Next a, db') => k a db'
    | (Reply r, db') => (Reply r, db')
    | (Throw, db') => (Throw, db')
    end.

(** [return res.status(..).json(..)] *)
Definition reply {R A} (r : R) : t R A := fun db => (Reply r, db).

Definition read {R A} (f : Db -> A) : t R A := fun db => (Next (f db), db).

(** [try { body } catch (error) { res.status(500).json(onError) }] *)
Definition try_catch {R} (body : t R R) (onError : R) (db : Db) : R * Db :=
  match body db with
  | (Next r, db') => (r, db')
  | (Reply r, db') => (r, db')
  | (Throw, db') => (onError, db')
  end.

End Handler.

Notation "x <- m ;; k" := (Handler.bind m (fun x => k))
  (at level 61, m at next level, right associativity).
Notation "m ;;; k" := (Handler.bind m (fun _ => k))
  (at level 61, right associativity).

(** *** The [prisma] client calls the handlers make *)

Module Prisma.
Import Handler.

(** A lookup by a unique key is [List.find]: the first row, in storage order,
    that satisfies the condition. *)
Section Rows.
Context {Row : Type}.

Definition count (p : Row -> bool) (rows : list Row) : Z :=
  Z.of_nat (List.length (List.filter p rows)).

Definition update (p : Row -> bool) (f : Row -> Row) (rows : list Row)
  : list Row :=
  List.map (fun r => if p r then f r else r) rows.
End Rows.

Definition is_user (id : string) (u : User.t) : bool :=
  String.eqb (User.id u) id.
Definition is_badge (id : string) (b : Badge.t) : bool :=
  String.eqb (Badge.id b) id.
Definition is_userBadge (userId badgeId : string) (ub : UserBadge.t) : bool :=
  String.eqb (UserBadge.userId ub) userId
  && String.eqb (UserBadge.badgeId ub) badgeId.

(** [prisma.user.findUnique({ where: { id } })] *)
Definition user_findUnique {R} (id : string) : t R (option User.t) :=
  read (fun db => find (is_user id) (users db)).

(** [prisma.user.update({ where: { id }, data })]; rejects when no row has
    this id, and resolves to the updated row. *)
Definition user_update {R} (id : string) (data : User.t -> User.t)
  : t R User.t :=
  fun db =>
    match find (is_user id) (users db) with
    | None => (Throw, db)
    | Some u =>
        (Next (data u),
         mkDb (update (is_user id) data (users db)) (badges db)
              (userBadges db) (contributions db))
    end.

(** [prisma.user.count({ where: { points: { gt: p } } })] *)
Definition user_count_points_gt {R} (p : Z) : t R Z :=
  read (fun db => count (fun u => p <? User.points u) (users db)).

(** [prisma.user.count()] *)
Definition user_count {R} : t R Z :=
  read (fun db => count (fun _ => true) (users db)).

(** [prisma.badge.findUnique({ where: { id } })] *)
Definition badge_findUnique {R} (id : string) : t R (option Badge.t) :=
  read (fun db => find (is_badge id) (badges db)).

(** [prisma.userBadge.findUnique({ where: { userId_badgeId: .. } })] *)
Definition userBadge_findUnique {R} (userId badgeId : string)
  : t R (option UserBadge.t) :=
  read (fun db => find (is_userBadge userId badgeId) (userBadges db)).

(** [prisma.userBadge.create({ data: { userId, badgeId } })]; the unique
    index on the pair rejects a second row, [unlockedAt] defaults to the
    current time. *)
Definition userBadge_create {R} (now : Z) (userId badgeId : string)
  : t R UserBadge.t :=
  fun db =>
    match find (is_userBadge userId badgeId) (userBadges db) with
    | Some _ => (Throw, db)
    | None =>
        let ub := UserBadge.mk userId badgeId now in
        (Next ub,
         mkDb (users db) (badges db) (userBadges db ++ [ub])
              (contributions db))
    end.

(** [prisma.contribution.create({ data })]; [createdAt] defaults to the
    current time. *)
Definition contribution_create {R} (now : Z) (userId type : string)
    (points : Z) (description : string) : t R Contribution.t :=
  fun db =>
    let c := Contribution.mk userId type points description now in
    (Next c,
     mkDb (users db) (badges db) (userBadges db) (contributions db ++ [c])).

End Prisma.

(** A reply: [res.status(status).json(body)], or the error form
    [res.status(status).json({ error })]. *)
Inductive response (B : Type) : Type :=
| Json (status : Z) (body : B)
| Error (status : Z) (error : string).
Arguments Json {B} status body.
Arguments Error {B} status error.

(** [`${n}`] for an integer [n]. *)
Definition string_of_Z (n : Z) : string :=
  NilZero.string_of_int (Z.to_int n).

(** ** JavaScript numbers

    A number is an IEEE 754 binary64 value; [PrimFloat.div], [PrimFloat.mul]
    and [PrimFloat.sub] are [/], [*] and [-] on numbers (round to nearest,
    ties to even; a division by zero gives an infinity or NaN). *)
Definition number : Type := PrimFloat.float.

(** The number that holds an integer: the integer itself when binary64 has it
    (every integer up to 2^53 in magnitude), else the nearest number. *)
Definition number_of_Z (z : Z) : number :=
  FloatOps.SF2Prim
    (SpecFloat.binary_normalize FloatOps.prec FloatOps.emax z 0 false).

(** The rational that a finite number is: its significand times a power of
    two, with its sign; [None] for NaN and the infinities. *)
Definition exact (x : number) : option Q :=
  match FloatOps.Prim2SF x with
  | SpecFloat.S754_zero _ => Some 0%Q
  | SpecFloat.S754_finite s m e =>
      let q := if 0 <=? e then inject_Z (Z.pos m * 2 ^ e)
               else Z.pos m # (2 ^ Z.to_pos (- e)) in
      Some (if s then (- q)%Q else q)
  | SpecFloat.S754_infinity _ => None
  | SpecFloat.S754_nan => None
  end.

Definition Qltb (a b : Q) : bool := negb (Qle_bool b a).

(** [Math.min(x, y)]: NaN when either is NaN, and [-0] below [+0]. *)
Definition Math_min (x y : number) : number :=
  if PrimFloat.is_nan x || PrimFloat.is_nan y then PrimFloat.nan
  else if PrimFloat.ltb y x then y
  else if PrimFloat.ltb x y then x
  else match PrimFloat.classify y with
       | FloatClass.NZero => y
       | _ => x
       end.

(** The integer [n] for which [n / 10 - x] is closest to zero, the larger one
    of two, for [x >= 0]: the digits [toFixed(1)] prints. *)
Definition nearest_tenth (x : Q) : Z :=
  (2 * (10 * Qnum x) + Z.pos (Qden x)) / (2 * Z.pos (Qden x)).

(** A decimal with one fractional digit: a sign and a number of tenths. *)
Record fixed1 : Type := mkFixed1 {
  negative : bool;
  tenths : Z
}.

(** The decimal [toFixed(1)] chooses for the value of a finite number: the
    sign of the number, and the nearest tenth of its absolute value. *)
Definition round_fixed1 (q : Q) : fixed1 :=
  mkFixed1 (Qltb q 0) (nearest_tenth (Qabs q)).

Definition print_fixed1 (d : fixed1) : string :=
  ((if negative d then "-" else EmptyString)
   ++ string_of_Z (tenths d / 10) ++ "." ++ string_of_Z (tenths d mod 10))%string.

(** The number a decimal denotes. *)
Definition fixed1_value (d : fixed1) : Q :=
  if negative d then - (tenths d # 10) else tenths d # 10.

(** [x.toFixed(1)] (for [|x| < 10^21], which the values below satisfy; larger
    numbers print in exponent form). *)
Definition toFixed1 (x : number) : string :=
  match exact x with
  | Some q => print_fixed1 (round_fixed1 q)
  | None =>
      if PrimFloat.is_nan x then "NaN"
      else if PrimFloat.ltb x PrimFloat.zero then "-Infinity" else "Infinity"
  end.

(** *** Integers held in numbers *)

(** The integer nearest to [z] among those binary64 holds: [z] itself when it
    has at most 53 significant bits, else [z] rounded to 53 significant bits,
    a tie going to the even significand. *)
Definition round53 (z : Z) : Z :=
  let m := Z.abs z in
  let shift := Z.log2 m - 52 in
  if shift <=? 0 then z
  else
    let q := m / 2 ^ shift in
    let r := m mod 2 ^ shift in
    let half := 2 ^ (shift - 1) in
    let q' :=
      if r <? half then q
      else if half <? r then q + 1
      else if Z.even q then q else q + 1 in
    Z.sgn z * (q' * 2 ^ shift).

(** [a + b] for two numbers that hold integers: the exact sum rounded to
    binary64.  Adding zero returns the other operand as it is.  (A sum of
    magnitude 2^1024 or more, which binary64 makes an infinity, is out of
    reach of a stored 64-bit integer plus a number.) *)
Definition js_add (a b : Z) : Z :=
  if b =? 0 then a
  else if a =? 0 then b
  else round53 (a + b).

(** ** routes/users (gamification, points, badges, streak) *)

Module Users.
Import Handler Prisma.

(** [if (!row) return res.status(..).json(..)] after a lookup. *)
Definition found {R A} (lookup : t R (option A)) (notFound : R) : t R A :=
  row <- lookup ;;
  match row with
  | Some a => ret a
  | None => reply notFound
  end.

(** *** GET /:id/gamification *)

Record Gamification : Type := mkGamification {
  g_points : Z;
  g_level : Z;
  g_rank : Z;
  g_levelProgress : string;
  g_pointsToNextLevel : Z
}.

Record StreakSummary : Type := mkStreakSummary {
  s_current : Z;
  s_longest : Z;
  s_lastActive : Z
}.

(** The [gamification] and [streak] objects of the reply; the [user],
    [badges] and [stats] objects only copy rows and counts. *)
Record GamificationReply : Type := mkGamificationReply {
  gamification : Gamification;
  streak : StreakSummary
}.

Definition pointsForNextLevel (user : User.t) : Z := User.level user * 100.
Definition pointsInCurrentLevel (user : User.t) : Z :=
  Z.rem (User.points user) 100.

(** [(pointsInCurrentLevel / pointsForNextLevel) * 100], on numbers.  (A
    remainder [-0] is taken as [0]: the two print alike.) *)
Definition levelProgress (user : User.t) : number :=
  PrimFloat.mul
    (PrimFloat.div (number_of_Z (pointsInCurrentLevel user))
                   (number_of_Z (pointsForNextLevel user)))
    (number_of_Z 100).

Definition get_gamification_body (id : string)
  : t (response GamificationReply) (response GamificationReply) :=
  user <- found (user_findUnique id) (Error 404 "Usuário não encontrado") ;;
  usersAbove <- user_count_points_gt (User.points user) ;;
  reply (Json 200
    (mkGamificationReply
       (mkGamification
          (User.points user)
          (User.level user)
          (usersAbove + 1)
          (toFixed1 (Math_min (levelProgress user) (number_of_Z 100)))
          (pointsForNextLevel user - pointsInCurrentLevel user))
       (mkStreakSummary
          (User.currentStreak user)
          (User.longestStreak user)
          (User.lastActiveAt user)))).

Definition get_gamification (id : string) (db : Db)
  : response GamificationReply * Db :=
  try_catch (get_gamification_body id)
            (Error 500 "Erro ao buscar gamificação do usuário") db.

(** *** PUT /:id/points *)

Record UpdatedPoints : Type := mkUpdatedPoints {
  up_id : string;
  up_points : Z;
  up_level : Z
}.

Record PointsReply : Type := mkPointsReply {
  pr_message : string;
  pr_user : UpdatedPoints;
  pr_leveledUp : bool
}.

(** [Math.floor(newPoints / 100) + 1]: every 100 points = 1 level. *)
Definition newLevel (newPoints : Z) : Z := newPoints / 100 + 1.

(** [points] is the body's [points] ([None] when undefined) and [action] the
    body's [action] ([None] when absent, defaulting to ['add']).  The new
    total [user.points + points] is a sum of numbers. *)
Definition put_points_body (id : string) (points : option Z)
    (action : option string)
  : t (response PointsReply) (response PointsReply) :=
  match points with
  | None => reply (Error 400 "Pontos são obrigatórios")
  | Some points =>
      let action := match action with Some a => a | None => "add" end in
      user <- found (user_findUnique id) (Error 404 "Usuário não encontrado") ;;
      let newPoints :=
        if String.eqb action "set" then points
        else js_add (User.points user) points in
      let newLevel := newLevel newPoints in
      updatedUser <- user_update id
        (fun u => User.set_level newLevel (User.set_points newPoints u)) ;;
      reply (Json 200
        (mkPointsReply "Pontos atualizados!"
           (mkUpdatedPoints (User.id updatedUser) (User.points updatedUser)
                            (User.level updatedUser))
           (User.level user <? newLevel)))
  end.

Definition put_points (id : string) (points : option Z)
    (action : option string) (db : Db) : response PointsReply * Db :=
  try_catch (put_points_body id points action)
            (Error 500 "Erro ao atualizar pontos") db.

(** *** POST /:id/badges *)

Record UnlockedBadge : Type := mkUnlockedBadge {
  ub_id : string;
  ub_name : string;
  ub_description : string;
  ub_icon : string;
  ub_pointsEarned : Z
}.

Record UnlockReply : Type := mkUnlockReply {
  ur_message : string;
  ur_badge : UnlockedBadge
}.

(** [badgeId] is the body's [badgeId]; [!badgeId] holds when it is undefined
    or the empty string.  [userBadge.badge], included by the create call, is
    the row of [badges] with this id, that is [badge]. *)
Definition post_badges_body (now : Z) (id : string) (badgeId : option string)
  : t (response UnlockReply) (response UnlockReply) :=
  match badgeId with
  | None | Some EmptyString => reply (Error 400 "ID do badge é obrigatório")
  | Some badgeId =>
      user <- found (user_findUnique id) (Error 404 "Usuário não encontrado") ;;
      badge <- found (badge_findUnique badgeId)
                     (Error 404 "Badge não encontrado") ;;
      existing <- userBadge_findUnique id badgeId ;;
      match existing with
      | Some _ => reply (Error 400 "Badge já desbloqueado")
      | None =>
          userBadge <- userBadge_create now id badgeId ;;
          user_update id (User.increment_points (Badge.points badge)) ;;;
          contribution_create now id "badge_unlocked" (Badge.points badge)
            ("Desbloqueou badge: " ++ Badge.name badge)%string ;;;
          reply (Json 201
            (mkUnlockReply "Badge desbloqueado!"
               (mkUnlockedBadge (Badge.id badge) (Badge.name badge)
                  (Badge.description badge) (Badge.icon badge)
                  (Badge.points badge))))
      end
  end.

Definition post_badges (now : Z) (id : string) (badgeId : option string)
    (db : Db) : response UnlockReply * Db :=
  try_catch (post_badges_body now id badgeId)
            (Error 500 "Erro ao desbloquear badge") db.

(** *** GET /:id/streak *)

Record Milestone : Type := mkMilestone {
  days : Z;
  reward : string
}.

Definition milestones : list Milestone :=
  [ mkMilestone 7 "🔥 Semana de Fogo";
    mkMilestone 14 "⚡ Duas Semanas";
    mkMilestone 30 "🏆 Mês Completo";
    mkMilestone 60 "💎 Dois Meses";
    mkMilestone 90 "👑 Trimestre";
    mkMilestone 180 "🌟 Meio Ano";
    mkMilestone 365 "🎖️ Um Ano" ].

Definition getNextStreakMilestone (currentStreak : Z) : Milestone :=
  match find (fun milestone => currentStreak <? days milestone) milestones with
  | Some milestone => milestone
  | None => mkMilestone (365 * 2) "🏅 Dois Anos"
  end.

Record StreakView : Type := mkStreakView {
  sv_userId : string;
  sv_currentStreak : Z;
  sv_longestStreak : Z;
  sv_lastActiveAt : Z;
  sv_streakActive : bool;
  sv_nextMilestone : Milestone
}.

(** [(now.getTime() - lastActive.getTime()) / (1000 * 60 * 60)] *)
Definition hoursSinceActive (now lastActive : Z) : Q :=
  inject_Z (now - lastActive) / inject_Z (1000 * 60 * 60).

(** [hoursSinceActive < 48]: the 48h grace period. *)
Definition streakActive (now lastActive : Z) : bool :=
  Qltb (hoursSinceActive now lastActive) (inject_Z 48).

Definition get_streak_body (now : Z) (id : string)
  : t (response StreakView) (response StreakView) :=
  user <- found (user_findUnique id) (Error 404 "Usuário não encontrado") ;;
  let lastActive := User.lastActiveAt user in
  let streakActive := streakActive now lastActive in
  reply (Json 200
    (mkStreakView
       (User.id user)
       (if streakActive then User.currentStreak user else 0)
       (User.longestStreak user)
       (User.lastActiveAt user)
       streakActive
       (getNextStreakMilestone (User.currentStreak user)))).

Definition get_streak (now : Z) (id : string) (db : Db)
  : response StreakView * Db :=
  try_catch (get_streak_body now id)
            (Error 500 "Erro ao buscar streak do usuário") db.

(** *** PUT /:id/streak *)

Record StreakReply : Type := mkStreakReply {
  sr_message : string;
  sr_streak : StreakSummary;
  sr_streakBroken : bool
}.

(** [Math.floor((now.getTime() - lastActive.getTime()) / (1000*60*60*24))] *)
Definition daysSinceActive (now lastActive : Z) : Z :=
  (now - lastActive) / (1000 * 60 * 60 * 24).

(** The three-way branch on [daysSinceActive]: the new streak and whether the
    streak was broken. *)
Definition nextStreak (daysSinceActive currentStreak : Z) : Z * bool :=
  if daysSinceActive =? 0 then (currentStreak, false)
  else if daysSinceActive =? 1 then (currentStreak + 1, false)
  else (1, true).

(** [newStreak > user.currentStreak && newStreak % 7 === 0] *)
Definition weeklyBonus (newStreak currentStreak : Z) : bool :=
  (currentStreak <? newStreak) && (Z.rem newStreak 7 =? 0).

Definition put_streak_body (now : Z) (id : string)
  : t (response StreakReply) (response StreakReply) :=
  user <- found (user_findUnique id) (Error 404 "Usuário não encontrado") ;;
  let lastActive := User.lastActiveAt user in
  let daysSinceActive := daysSinceActive now lastActive in
  let '(newStreak, streakBroken) :=
    nextStreak daysSinceActive (User.currentStreak user) in
  let newLongest := Z.max newStreak (User.longestStreak user) in
  updatedUser <- user_update id
    (fun u => User.set_lastActiveAt now
                (User.set_longestStreak newLongest
                   (User.set_currentStreak newStreak u))) ;;
  (if weeklyBonus newStreak (User.currentStreak user) then
     let bonusPoints := newStreak in
     user_update id (User.increment_points bonusPoints) ;;;
     contribution_create now id "streak_bonus" bonusPoints
       ("Streak de " ++ string_of_Z newStreak ++ " dias!")%string ;;;
     ret tt
   else ret tt) ;;;
  reply (Json 200
    (mkStreakReply
       (if streakBroken then "Streak reiniciado" else "Streak atualizado!")
       (mkStreakSummary (User.currentStreak updatedUser)
          (User.longestStreak updatedUser) (User.lastActiveAt updatedUser))
       streakBroken)).

Definition put_streak (now : Z) (id : string) (db : Db)
  : response StreakReply * Db :=
  try_catch (put_streak_body now id) (Error 500 "Erro ao atualizar streak") db.

End Users.

(** ** routes/stats: GET /user/:userId *)

Module Stats.
Import Handler Prisma.

(** [{ ...user, rank: usersAbove + 1 }]; the per-type and per-status
    breakdowns of the reply are counts over tables outside this model. *)
Record UserStats : Type := mkUserStats {
  us_id : string;
  us_name : string;
  us_points : Z;
  us_createdAt : Z;
  us_rank : Z
}.

Definition get_user_body (userId : string)
  : t (response UserStats) (response UserStats) :=
  user <- Users.found (user_findUnique userId)
                      (Error 404 "Usuário não encontrado") ;;
  usersAbove <- user_count_points_gt (User.points user) ;;
  reply (Json 200
    (mkUserStats (User.id user) (User.name user) (User.points user)
                 (User.createdAt user) (usersAbove + 1))).

Definition get_user (userId : string) (db : Db) : response UserStats * Db :=
  try_catch (get_user_body userId)
            (Error 500 "Erro ao buscar estatísticas do usuário") db.

End Stats.

(** ** routes/ranking: GET / *)

Module Ranking.
Import Handler Prisma.

(** [orderBy: { points: 'desc' }].  The store leaves the order of rows with
    equal points open; the model keeps them in storage order. *)
Fixpoint insert_desc (u : User.t) (sorted : list User.t) : list User.t :=
  match sorted with
  | [] => [u]
  | v :: rest =>
      if User.points v <=? User.points u then u :: v :: rest
      else v :: insert_desc u rest
  end.

Fixpoint orderBy_points_desc (rows : list User.t) : list User.t :=
  match rows with
  | [] => []
  | u :: rows' => insert_desc u (orderBy_points_desc rows')
  end.

(** [prisma.user.findMany({ orderBy: { points: 'desc' }, skip, take,
    select: { .., _count: { select: { contributions: true } } } })];
    a negative [skip] is rejected. *)
Definition user_findMany_orderBy_points_desc {R} (skip : Z) (take : nat)
  : t R (list (User.t * Z)) :=
  fun db =>
    if skip <? 0 then (Throw, db)
    else
      (Next
         (List.map
            (fun u =>
               (u, count (fun c => String.eqb (Contribution.userId c) (User.id u))
                         (contributions db)))
            (List.firstn take
               (List.skipn (Z.to_nat skip) (orderBy_points_desc (users db))))),
       db).

Record Entry : Type := mkEntry {
  rank : Z;
  id : string;
  name : string;
  points : Z;
  contributionCount : Z;
  memberSince : Z
}.

Record Pagination : Type := mkPagination {
  page : Z;
  limit : Z;
  total : Z;
  totalPages : option Z
}.

Record RankingReply : Type := mkRankingReply {
  ranking : list Entry;
  pagination : Pagination
}.

(** [rows.map((row, index) => f row index)], with [index] counted from
    [from]. *)
Fixpoint mapi {A B} (f : A -> Z -> B) (from : Z) (rows : list A) : list B :=
  match rows with
  | [] => []
  | row :: rows' => f row from :: mapi f (from + 1) rows'
  end.

(** [Math.ceil(total / take)]; a zero [take] gives no integer. *)
Definition Math_ceil_div (total take : Z) : option Z :=
  if take =? 0 then None else Some (- ((- total) / take)).

Section Calendar.

(** [d => { d.setDate(1); d.setHours(0, 0, 0, 0) }]: the first instant, in the
    server's time zone, of the calendar month of an instant. *)
Variable startOfMonth : Z -> Z.

(** [type] is the query's [type] ([None] when absent, defaulting to
    ['global']); [limit] and [page] are the parsed query parameters, the limit
    a natural number.  [dateFilter] is [Some d] for
    [{ createdAt: { gte: d } }] and [None] for [{}]. *)
Definition get_ranking_body (now : Z) (type : option string) (limit : nat)
    (page : Z) : t (response RankingReply) (response RankingReply) :=
  let type := match type with Some ty => ty | None => "global" end in
  let take := Z.of_nat limit in
  let skip := (page - 1) * take in
  let dateFilter : option Z :=
    if String.eqb type "monthly" then Some (startOfMonth now) else None in
  users <- user_findMany_orderBy_points_desc skip limit ;;
  total <- user_count ;;
  let ranking :=
    mapi (fun (row : User.t * Z) index =>
            let (user, contributions) := row in
            mkEntry (skip + index + 1) (User.id user) (User.name user)
                    (User.points user) contributions (User.createdAt user))
         0 users in
  reply (Json 200
    (mkRankingReply ranking
       (mkPagination page take total (Math_ceil_div total take)))).

Definition get_ranking (now : Z) (type : option string) (limit : nat)
    (page : Z) (db : Db) : response RankingReply * Db :=
  try_catch (get_ranking_body now type limit page)
            (Error 500 "Erro ao buscar ranking") db.

End Calendar.

End Ranking.

(** ** The ledger total of a user

    The sum of the points of the user's rows in [contributions], the quantity
    the specification compares with the user's [points]. *)
Definition ledgerPoints (userId : string) (db : Db) : Z :=
  List.fold_right
    (fun c acc =>
       if String.eqb (Contribution.userId c) userId
       then Contribution.points c + acc else acc)
    0 (contributions db).

(** The spec's names for the outcomes of a badge unlock. *)
Definition Conflict : response Users.UnlockReply :=
  Error 400 "Badge já desbloqueado".

Definition Unlocked (badge : Badge.t) : response Users.UnlockReply :=
  Json 201
    (Users.mkUnlockReply "Badge desbloqueado!"
       (Users.mkUnlockedBadge (Badge.id badge) (Badge.name badge)
          (Badge.description badge) (Badge.icon badge) (Badge.points badge))).

(** A row of [user_badges] exists for the pair. *)
Definition pairUnlocked (userId badgeId : string) (db : Db) : Prop :=
  exists ub, In ub (userBadges db)
             /\ UserBadge.userId ub = userId /\ UserBadge.badgeId ub = badgeId.

(** The number of rows of [user_badges] for a pair. *)
Definition unlockCount (userId badgeId : string) (db : Db) : Z :=
  Prisma.count (Prisma.is_userBadge userId badgeId) (userBadges db).

(** What [PUT /:id/points] writes: the new point total, by action. *)
Definition updatedPoints (action : option string) (delta : Z) (user : User.t)
  : Z :=
  match action with
  | Some a =>
      if String.eqb a "set" then delta else js_add (User.points user) delta
  | None => js_add (User.points user) delta
  end.

(** [Number.isSafeInteger]: the integers of magnitude below 2^53, on which
    the arithmetic of numbers is the arithmetic of integers. *)
Definition safeInteger (z : Z) : Prop := Z.abs z < 2 ^ 53.

(** The new point total in the words of the specification: the supplied value
    under ['set'], the old points plus the supplied value otherwise. *)
Definition requestedPoints (action : option string) (delta : Z)
    (user : User.t) : Z :=
  if match action with Some a => String.eqb a "set" | None => false end
  then delta else User.points user + delta.

(** The spec's invariant on a user's streak counters. *)
Definition streakInvariant (u : User.t) : Prop :=
  User.currentStreak u <= User.longestStreak u.

(** What [PUT /:id/streak] writes to the user's streak columns. *)
Definition touched (now : Z) (user : User.t) : User.t -> User.t :=
  let newStreak :=
    fst (Users.nextStreak
           (Users.daysSinceActive now (User.lastActiveAt user))
           (User.currentStreak user)) in
  fun u =>
    User.set_lastActiveAt now
      (User.set_longestStreak (Z.max newStreak (User.longestStreak user))
         (User.set_currentStreak newStreak u)).

(** Orders on user rows and ranking entries by points, descending. *)
Definition pointsGe (u v : User.t) : Prop := User.points v <= User.points u.
Definition pointsGt (u v : User.t) : Prop := User.points v < User.points u.
Definition entryGe (e e' : Ranking.Entry) : Prop :=
  Ranking.points e' <= Ranking.points e.

(** The number of users with strictly more points than [p]. *)
Definition usersAbove (p : Z) (db : Db) : Z :=
  Z.of_nat (List.length (List.filter (fun u => p <? User.points u) (users db))).

(** The rows of a page of the ranking and its entries. *)
Definition withContributionCount (db : Db) (u : User.t) : User.t * Z :=
  (u, Prisma.count
        (fun c => String.eqb (Contribution.userId c) (User.id u))
        (contributions db)).

Definition entryOf (skip : Z) (row : User.t * Z) (index : Z) : Ranking.Entry :=
  Ranking.mkEntry (skip + index + 1) (User.id (fst row)) (User.name (fst row))
                  (User.points (fst row)) (snd row) (User.createdAt (fst row)).

(** The points a user earned in the current month: the sum of the points of
    the user's contributions created since the first instant of the month
    (the quantity the monthly ranking is specified over). *)
Definition monthlyPoints (startOfMonth : Z -> Z) (now : Z) (userId : string)
    (db : Db) : Z :=
  List.fold_right
    (fun c acc =>
       if String.eqb (Contribution.userId c) userId
          && (startOfMonth now <=? Contribution.createdAt c)
       then Contribution.points c + acc else acc)
    0 (contributions db).

(** ** Sample data: the scenarios of the specification *)

Module Sample.

Definition hour : Z := 1000 * 60 * 60.
Definition day : Z := 24 * hour.

(** Three users created in the order A, B, C; A is on a six-day streak and
    was last active at instant 0. *)
Definition A : User.t := User.mk "A" "Ana" 450 5 6 6 0 0.
Definition B : User.t := User.mk "B" "Bruno" 320 4 0 0 0 1.
Definition C : User.t := User.mk "C" "Carla" 280 3 0 0 0 2.

Definition primeiroReporte : Badge.t :=
  Badge.mk "badge-1" "Primeiro Reporte" "Reportou a primeira ocorrência" "📝" 10.

Definition db : Db := mkDb [A; B; C] [primeiroReporte] [] [].

(** A user at 210 points, level 3. *)
Definition E : User.t := User.mk "E" "Eva" 210 3 0 0 0 4.

(** A user at 250 points, level 3. *)
Definition F : User.t := User.mk "F" "Fábio" 250 3 0 0 0 5.

(** A user at 329 points, level 4. *)
Definition H : User.t := User.mk "H" "Hugo" 329 4 0 0 0 7.

Definition progress_db : Db := mkDb [E; F; H] [] [] [].

(** A user at 495 points, level 5, and a badge worth 10 points. *)
Definition G : User.t := User.mk "G" "Gil" 495 5 0 0 0 6.

Definition award_db : Db := mkDb [G] [primeiroReporte] [] [].

(** Two users and their ledgers around the start of a month at instant 500:
    P earned all 100 points before it, Q earned 50 points after it. *)
Definition P : User.t := User.mk "P" "Paula" 100 2 0 0 0 0.
Definition Q' : User.t := User.mk "Q" "Quim" 50 1 0 0 600 600.

Definition month_db : Db :=
  mkDb [P; Q'] [] []
       [Contribution.mk "P" "issue_reported" 100 "Reportou ocorrência" 100;
        Contribution.mk "Q" "issue_reported" 50 "Reportou ocorrência" 700].

(** A user whose ledger and point total agree. *)
Definition D : User.t := User.mk "D" "Davi" 10 1 0 0 0 3.

Definition ledger_db : Db :=
  mkDb [D] []
       []
       [Contribution.mk "D" "issue_reported" 10 "Reportou ocorrência" 3].

End Sample.

(** * Further routes over the same store *)

(** ** [orderBy: { key: 'desc' }] on any table

    As for the ranking, rows with equal keys are kept in storage order. *)

Section OrderBy.
Context {Row : Type}.
Variable key : Row -> Z.

Fixpoint insert_by_desc (r : Row) (sorted : list Row) : list Row :=
  match sorted with
  | [] => [r]
  | x :: rest =>
      if key x <=? key r then r :: x :: rest
      else x :: insert_by_desc r rest
  end.

Fixpoint orderBy_desc (rows : list Row) : list Row :=
  match rows with
  | [] => []
  | r :: rows' => insert_by_desc r (orderBy_desc rows')
  end.

End OrderBy.

(** ** routes/users: the read views GET /:id/points and GET /:id/badges *)

Module UserViews.
Import Handler Prisma.

(** [_count: { select: { contributions: true } }] of a user row. *)
Definition contributionCount (userId : string) (db : Db) : Z :=
  count (fun c => String.eqb (Contribution.userId c) userId) (contributions db).

(** The [user] object of the reply, and [stats.contributions]; the other
    counts of [stats] are over tables outside this model. *)
Record PointsView : Type := mkPointsView {
  pv_id : string;
  pv_name : string;
  pv_points : Z;
  pv_rank : Z;
  pv_totalUsers : Z;
  pv_percentile : string;
  pv_contributions : Z
}.

(** [((1 - usersAbove / totalUsers) * 100).toFixed(1)] *)
Definition percentile (usersAbove totalUsers : Z) : string :=
  toFixed1
    (PrimFloat.mul
       (PrimFloat.sub (number_of_Z 1)
          (PrimFloat.div (number_of_Z usersAbove) (number_of_Z totalUsers)))
       (number_of_Z 100)).

Definition get_points_body (id : string)
  : t (response PointsView) (response PointsView) :=
  user <- Users.found (user_findUnique id)
                      (Error 404 "Usuário não encontrado") ;;
  contributions <- read (contributionCount (User.id user)) ;;
  usersAbove <- user_count_points_gt (User.points user) ;;
  totalUsers <- user_count ;;
  reply (Json 200
    (mkPointsView (User.id user) (User.name user) (User.points user)
       (usersAbove + 1) totalUsers (percentile usersAbove totalUsers)
       contributions)).

Definition get_points (id : string) (db : Db) : response PointsView * Db :=
  try_catch (get_points_body id)
            (Error 500 "Erro ao buscar pontos do usuário") db.

(** One element of [badges] in the reply of GET /:id/badges (the [category]
    column of a badge is not in the model). *)
Record BadgeView : Type := mkBadgeView {
  bv_id : string;
  bv_name : string;
  bv_description : string;
  bv_icon : string;
  bv_points : Z;
  bv_unlocked : bool;
  bv_unlockedAt : option Z
}.

Record BadgesReply : Type := mkBadgesReply {
  br_unlocked : Z;
  br_total : Z;
  br_badges : list BadgeView
}.

(** [prisma.userBadge.findMany({ where: { userId }, include: { badge: true },
    orderBy: { unlockedAt: 'desc' } })] *)
Definition userBadge_findMany {R} (userId : string) : t R (list UserBadge.t) :=
  read (fun db =>
          orderBy_desc UserBadge.unlockedAt
            (List.filter (fun ub => String.eqb (UserBadge.userId ub) userId)
                         (userBadges db))).

(** [prisma.badge.findMany()] *)
Definition badge_findMany {R} : t R (list Badge.t) := read badges.

Definition get_badges_body (id : string)
  : t (response BadgesReply) (response BadgesReply) :=
  user <- Users.found (user_findUnique id)
                      (Error 404 "Usuário não encontrado") ;;
  userBadges <- userBadge_findMany id ;;
  allBadges <- badge_findMany ;;
  let unlockedIds := List.map UserBadge.badgeId userBadges in
  let badges :=
    List.map
      (fun badge =>
         mkBadgeView (Badge.id badge) (Badge.name badge)
           (Badge.description badge) (Badge.icon badge) (Badge.points badge)
           (List.existsb (String.eqb (Badge.id badge)) unlockedIds)
           (option_map UserBadge.unlockedAt
              (List.find
                 (fun ub => String.eqb (UserBadge.badgeId ub) (Badge.id badge))
                 userBadges)))
      allBadges in
  reply (Json 200
    (mkBadgesReply (Z.of_nat (List.length userBadges))
                   (Z.of_nat (List.length allBadges)) badges)).

Definition get_badges (id : string) (db : Db) : response BadgesReply * Db :=
  try_catch (get_badges_body id)
            (Error 500 "Erro ao buscar badges do usuário") db.

End UserViews.

(** ** routes/ranking GET /top and routes/stats GET /leaderboard *)

Module Leaderboards.
Import Handler Prisma.

Record TopEntry : Type := mkTopEntry {
  t_rank : Z;
  t_id : string;
  t_name : string;
  t_points : Z;
  t_contributions : Z;
  t_badge : option string
}.

(** [index === 0 ? '🥇' : index === 1 ? '🥈' : index === 2 ? '🥉' : null] *)
Definition medal (index : Z) : option string :=
  if index =? 0 then Some "🥇"
  else if index =? 1 then Some "🥈"
  else if index =? 2 then Some "🥉"
  else None.

(** [limit] is the parsed query parameter, [None] when absent (default 10). *)
Definition get_top_body (limit : option nat)
  : t (response (list TopEntry)) (response (list TopEntry)) :=
  let take := match limit with Some n => n | None => 10%nat end in
  topUsers <- Ranking.user_findMany_orderBy_points_desc 0 take ;;
  reply (Json 200
    (Ranking.mapi
       (fun (row : User.t * Z) index =>
          let (user, contributions) := row in
          mkTopEntry (index + 1) (User.id user) (User.name user)
                     (User.points user) contributions (medal index))
       0 topUsers)).

Definition get_top (limit : option nat) (db : Db)
  : response (list TopEntry) * Db :=
  try_catch (get_top_body limit) (Error 500 "Erro ao buscar top ranking") db.

Record LeaderboardEntry : Type := mkLeaderboardEntry {
  l_rank : Z;
  l_id : string;
  l_name : string;
  l_points : Z;
  l_contributions : Z
}.

Definition get_leaderboard_body (limit : option nat)
  : t (response (list LeaderboardEntry)) (response (list LeaderboardEntry)) :=
  let take := match limit with Some n => n | None => 10%nat end in
  users <- Ranking.user_findMany_orderBy_points_desc 0 take ;;
  reply (Json 200
    (Ranking.mapi
       (fun (row : User.t * Z) index =>
          let (user, contributions) := row in
          mkLeaderboardEntry (index + 1) (User.id user) (User.name user)
                             (User.points user) contributions)
       0 users)).

Definition get_leaderboard (limit : option nat) (db : Db)
  : response (list LeaderboardEntry) * Db :=
  try_catch (get_leaderboard_body limit) (Error 500 "Erro ao buscar ranking") db.

End Leaderboards.

(** ** routes/contributions: GET / *)

Module Contributions.
Import Handler Prisma.

Record ListReply : Type := mkListReply {
  lr_contributions : list Contribution.t;
  lr_total : Z;
  lr_totalPoints : Z
}.

(** [where = { userId }; if (type) where.type = type]: an absent or empty
    [type] does not filter. *)
Definition matches (userId : string) (type : option string)
    (c : Contribution.t) : bool :=
  String.eqb (Contribution.userId c) userId
  && match type with
     | None | Some EmptyString => true
     | Some ty => String.eqb (Contribution.type c) ty
     end.

(** [prisma.contribution.aggregate({ where: { userId }, _sum: { points } })]:
    no sum over no rows. *)
Definition aggregate_sum_points {R} (userId : string) : t R (option Z) :=
  read (fun db =>
          match List.filter
                  (fun c => String.eqb (Contribution.userId c) userId)
                  (contributions db) with
          | [] => None
          | rows =>
              Some (List.fold_right (fun c acc => Contribution.points c + acc)
                                    0 rows)
          end).

(** [x || 0] for a sum that may be missing. *)
Definition or_zero (x : option Z) : Z :=
  match x with
  | Some v => v
  | None => 0
  end.

(** [userId] is [req.user.id], set by [authenticate]; [limit] is the parsed
    query parameter. *)
Definition get_contributions_body (userId : string) (limit : nat)
    (type : option string) : t (response ListReply) (response ListReply) :=
  contributions <-
    read (fun db =>
            List.firstn limit
              (orderBy_desc Contribution.createdAt
                 (List.filter (matches userId type) (contributions db)))) ;;
  totalPoints <- aggregate_sum_points userId ;;
  reply (Json 200
    (mkListReply contributions (Z.of_nat (List.length contributions))
                 (or_zero totalPoints))).

Definition get_contributions (userId : string) (limit : nat)
    (type : option string) (db : Db) : response ListReply * Db :=
  try_catch (get_contributions_body userId limit type)
            (Error 500 "Erro ao buscar contribuições") db.

End Contributions.

(** ** middleware/auth: [authenticate], and the routes behind it *)

Module Auth.
Import Prisma.

(** [s.split(sep)] for a one-character separator. *)
Fixpoint split_on (sep : Ascii.ascii) (s : string) : list string :=
  match s with
  | EmptyString => [EmptyString]
  | String c rest =>
      if Ascii.eqb c sep then EmptyString :: split_on sep rest
      else
        match split_on sep rest with
        | [] => [String c EmptyString]
        | field :: fields => String c field :: fields
        end
  end.

(** What [authenticate] does with the request: it replies itself, or sets
    [req.user] and calls [next()]. *)
Inductive outcome : Type :=
| Rejected (status : Z) (error : string)
| Authenticated (user : User.t).

Section Jwt.

(** [jwt.verify(token, secret)] followed by reading [userId] off the decoded
    payload: [None] when the library throws or the payload has no user id. *)
Variable verify : string -> string -> option string.

(** [process.env.JWT_SECRET || 'fallback-secret'] *)
Definition secret (JWT_SECRET : option string) : string :=
  match JWT_SECRET with
  | None | Some EmptyString => "fallback-secret"
  | Some s => s
  end.

(** [authorization] is [req.headers.authorization].  A token that is not
    there ([split(' ')[1]] undefined), a token the library refuses and a
    payload without user id all end in the [catch] block. *)
Definition authenticate (authorization JWT_SECRET : option string) (db : Db)
  : outcome :=
  match authorization with
  | None | Some EmptyString => Rejected 401 "Token não fornecido"
  | Some authHeader =>
      if negb (String.prefix "Bearer " authHeader)
      then Rejected 401 "Token não fornecido"
      else
        match List.nth_error (split_on " "%char authHeader) 1 with
        | None => Rejected 401 "Token inválido"
        | Some token =>
            match verify token (secret JWT_SECRET) with
            | None => Rejected 401 "Token inválido"
            | Some userId =>
                match find (is_user userId) (users db) with
                | None => Rejected 401 "Usuário não encontrado"
                | Some user => Authenticated user
                end
            end
        end
  end.

(** [router.verb(path, authenticate, handler)]: the handler runs, with
    [req.user] set, only when [authenticate] calls [next()]. *)
Definition authenticated {B} (authorization JWT_SECRET : option string)
    (handler : User.t -> Db -> response B * Db) (db : Db) : response B * Db :=
  match authenticate authorization JWT_SECRET db with
  | Rejected status error => (Error status error, db)
  | Authenticated user => handler user db
  end.


(** [router.post('/:id/badges', authenticate, ..)] *)
Definition post_badges_route (authorization JWT_SECRET : option string)
    (now : Z) (id : string) (badgeId : option string)
  : Db -> response Users.UnlockReply * Db :=
  authenticated authorization JWT_SECRET
    (fun _ => Users.post_badges now id badgeId).

(** [router.put('/:id/streak', authenticate, ..)] *)
Definition put_streak_route (authorization JWT_SECRET : option string)
    (now : Z) (id : string) : Db -> response Users.StreakReply * Db :=
  authenticated authorization JWT_SECRET (fun _ => Users.put_streak now id).

(** [router.get('/', authenticate, ..)] of routes/contributions. *)
Definition get_contributions_route (authorization JWT_SECRET : option string)
    (limit : nat) (type : option string)
  : Db -> response Contributions.ListReply * Db :=
  authenticated authorization JWT_SECRET
    (fun user => Contributions.get_contributions (User.id user) limit type).

End Jwt.

End Auth.

(** ** routes/issues: POST /:id/vote

    The store with the two tables the vote route adds to the ones above. *)

Module Issues.
Import Prisma.

(** Table [issues]: the columns the vote route reads. *)
Record Issue : Type := mkIssue {
  issue_id : string;
  issue_title : string
}.

(** Table [votes], unique on [(issueId, userId, type)]. *)
Record Vote : Type := mkVote {
  vote_issueId : string;
  vote_userId : string;
  vote_type : string
}.

Record Store : Type := mkStore {
  core : Db;
  issues : list Issue;
  votes : list Vote
}.

Record VoteReply : Type := mkVoteReply {
  vr_message : string;
  vr_voted : bool
}.

Definition is_issue (id : string) (i : Issue) : bool :=
  String.eqb (issue_id i) id.

Definition is_vote (issueId userId type : string) (v : Vote) : bool :=
  String.eqb (vote_issueId v) issueId
  && String.eqb (vote_userId v) userId
  && String.eqb (vote_type v) type.

(** [prisma.vote.delete({ where: { id: existingVote.id } })], the row being
    the one [findFirst] returned: the first that matches. *)
Fixpoint delete_first (p : Vote -> bool) (rows : list Vote) : list Vote :=
  match rows with
  | [] => []
  | v :: rows' => if p v then rows' else v :: delete_first p rows'
  end.

(** The award for a confirmation: a ledger row, then the increment. *)
Definition award_confirm (now : Z) (userId : string) (issue : Issue)
  : Handler.t (response VoteReply) unit :=
  contribution_create now userId "issue_confirmed" 5
    ("Confirmou ocorrência: " ++ issue_title issue)%string ;;;
  user_update userId (User.increment_points 5) ;;;
  Handler.ret tt.

(** [userId] is [req.user.id]; [type] is the body's [type]. *)
Definition post_vote (now : Z) (userId id : string) (type : option string)
    (s : Store) : response VoteReply * Store :=
  match type with
  | None => (Error 400 "Tipo de voto inválido", s)
  | Some type =>
      if negb (String.eqb type "upvote" || String.eqb type "confirm")
      then (Error 400 "Tipo de voto inválido", s)
      else
        match find (is_issue id) (issues s) with
        | None => (Error 404 "Ocorrência não encontrada", s)
        | Some issue =>
            match find (is_vote id userId type) (votes s) with
            | Some existingVote =>
                (Json 200 (mkVoteReply "Voto removido" false),
                 mkStore (core s) (issues s)
                         (delete_first (is_vote id userId type) (votes s)))
            | None =>
                let votes' := (votes s ++ [mkVote id userId type])%list in
                if String.eqb type "confirm" then
                  match award_confirm now userId issue (core s) with
                  | (Handler.Throw, db') =>
                      (Error 500 "Erro ao registrar voto",
                       mkStore db' (issues s) votes')
                  | (_, db') =>
                      (Json 200 (mkVoteReply "Voto registrado!" true),
                       mkStore db' (issues s) votes')
                  end
                else
                  (Json 200 (mkVoteReply "Voto registrado!" true),
                   mkStore (core s) (issues s) votes')
            end
        end
  end.

End Issues.

(** ** Vocabulary of the further properties *)

(** The primary keys of [users], in storage order. *)
Definition userIds (db : Db) : list string := List.map User.id (users db).

(** The [(userId, badgeId)] pairs of [user_badges]. *)
Definition unlockPairs (db : Db) : list (string * string) :=
  List.map (fun ub => (UserBadge.userId ub, UserBadge.badgeId ub))
           (userBadges db).

(** The string has no space character. *)
Fixpoint spaceless (s : string) : bool :=
  match s with
  | EmptyString => true
  | String c rest => negb (Ascii.eqb c " "%char) && spaceless rest
  end.

(** The rows of [contributions] of one user, in storage order. *)
Definition contributionsOf (userId : string) (db : Db) : list Contribution.t :=
  List.filter (fun c => String.eqb (Contribution.userId c) userId)
              (contributions db).

(** Descending order of a key along a list. *)
Definition keyGe {Row} (key : Row -> Z) (r r' : Row) : Prop := key r' <= key r.

(** The points of a user of the vote store. *)
Definition pointsOf (userId : string) (db : Db) : option Z :=
  option_map User.points (List.find (Prisma.is_user userId) (users db)).

(** A store for the vote scenarios: the sample users and one issue. *)
Definition sample_store : Issues.Store :=
  Issues.mkStore Sample.db [Issues.mkIssue "issue-1" "Queimada"] [].

(** A token verifier for the samples: [token-A] is user A's token, [token-B]
    user B's, under the fallback secret. *)
Definition sample_verify (token secret : string) : option string :=
  if String.eqb secret "fallback-secret" then
    if String.eqb token "token-A" then Some "A"
    else if String.eqb token "token-B" then Some "B"
    else None
  else None.

(** What a writing handler may do to the tables: the users keep their ids and
    order, the badges are as before, and the ledger and [user_badges] grow
    at their end by at most one row each. *)
Definition grows (db db' : Db) : Prop :=
  userIds db' = userIds db
  /\ badges db' = badges db
  /\ (exists added, contributions db' = (contributions db ++ added)%list
                    /\ (List.length added <= 1)%nat)
  /\ (exists added, userBadges db' = (userBadges db ++ added)%list
                    /\ (List.length added <= 1)%nat).

(** What [authenticate] decides once it has the token. *)
Definition token_outcome (verify : string -> string -> option string)
    (token : string) (JWT_SECRET : option string) (db : Db) : Auth.outcome :=
  match verify token (Auth.secret JWT_SECRET) with
  | None => Auth.Rejected 401 "Token inválido"
  | Some userId =>
      match List.find (Prisma.is_user userId) (users db) with
      | None => Auth.Rejected 401 "Usuário não encontrado"
      | Some user => Auth.Authenticated user
      end
  end.

(** ** Vocabulary of the decimals shown by the read views *)

(** The progress formula of the specification in exact arithmetic:
    [(points mod 100) / (level * 100) * 100], clamped to at most 100. *)
Definition progressFormula (pointsInLevel level : Z) : Q :=
  Qmin (inject_Z pointsInLevel / inject_Z (level * 100) * inject_Z 100)
       (inject_Z 100).

(** The percentile in exact arithmetic:
    [(1 - usersAbove / totalUsers) * 100]. *)
Definition percentileFormula (usersAbove totalUsers : Z) : Q :=
  (1 - inject_Z usersAbove / inject_Z totalUsers) * inject_Z 100.

(** The integers [lo], [lo + 1], ..., [lo + n - 1]. *)
Definition range (lo : Z) (n : nat) : list Z :=
  List.map (fun i => lo + Z.of_nat i) (List.seq 0 n).

(** Two rationals are the same fraction. *)
Definition same_fraction (a b : Q) : bool :=
  (Qnum a =? Qnum b) && Pos.eqb (Qden a) (Qden b).

(** The decimal is not negative, at most [limit] tenths, and within a
    twentieth of [formula]. *)
Definition decimal_check (d : fixed1) (limit : Z) (formula : Q) : bool :=
  negb (negative d) && (0 <=? tenths d) && (tenths d <=? limit)
  && Qle_bool (Qabs (fixed1_value d - formula)) (1 # 20).

(** The level progress of [r] points in the current level at level [l], as
    the handler computes it. *)
Definition progress_number (r l : Z) : number :=
  PrimFloat.mul (PrimFloat.div (number_of_Z r) (number_of_Z (l * 100)))
                (number_of_Z 100).

(** The check of one level progress: the number is finite, between 0 and 99,
    left as it is by the clamp, and its decimal passes [decimal_check]. *)
Definition progress_check (l r : Z) : bool :=
  match exact (progress_number r l),
        exact (Math_min (progress_number r l) (number_of_Z 100)) with
  | Some q, Some q' =>
      same_fraction q q' && Qle_bool 0 q && Qle_bool q (inject_Z 99)
      && decimal_check (round_fixed1 q) 990 (progressFormula r l)
  | _, _ => false
  end.

(** The percentile of a user with [a] users above among [t] users, as the
    handler computes it. *)
Definition percentile_number (a t : Z) : number :=
  PrimFloat.mul
    (PrimFloat.sub (number_of_Z 1)
       (PrimFloat.div (number_of_Z a) (number_of_Z t)))
    (number_of_Z 100).

(** The check of one percentile: the number is finite, its decimal passes
    [decimal_check], and it is 100.0 when no user is above. *)
Definition percentile_check (t a : Z) : bool :=
  match exact (percentile_number a t) with
  | Some q =>
      decimal_check (round_fixed1 q) 1000 (percentileFormula a t)
      && (if a =? 0 then tenths (round_fixed1 q) =? 1000 else true)
  | None => false
  end.

(** The levels and the store sizes over which the decimals are checked. *)
Definition checkedLevels : Z := 1000.
Definition checkedUsers : Z := 300.

(** * Properties *)

Import Handler Prisma.

(** ** Lookups and updates on a table *)

Lemma find_update_user (id id' : string) (data : User.t -> User.t)
    (rows : list User.t) :
  (forall u, User.id (data u) = User.id u) ->
  find (is_user id') (update (is_user id) data rows)
  = option_map (fun u => if is_user id u then data u else u)
               (find (is_user id') rows).
Proof.
  intros Hid. unfold update.
  induction rows as [|r rows IH]; simpl; [reflexivity|].
  assert (E : is_user id' (if is_user id r then data r else r) = is_user id' r).
  { unfold is_user. destruct (String.eqb (User.id r) id); [rewrite Hid|]; reflexivity. }
  rewrite E. destruct (is_user id' r); [reflexivity | exact IH].
Qed.

Lemma find_update_same (id : string) (data : User.t -> User.t)
    (rows : list User.t) (user : User.t) :
  (forall u, User.id (data u) = User.id u) ->
  find (is_user id) rows = Some user ->
  find (is_user id) (update (is_user id) data rows) = Some (data user).
Proof.
  intros Hid Hf. rewrite find_update_user by exact Hid. rewrite Hf. simpl.
  apply find_some in Hf. destruct Hf as [_ ->]. reflexivity.
Qed.

Lemma find_update_other (id id' : string) (data : User.t -> User.t)
    (rows : list User.t) :
  (forall u, User.id (data u) = User.id u) ->
  id' <> id ->
  find (is_user id') (update (is_user id) data rows) = find (is_user id') rows.
Proof.
  intros Hid Hne. rewrite find_update_user by exact Hid.
  destruct (find (is_user id') rows) as [u|] eqn:Hf; [|reflexivity].
  simpl. apply find_some in Hf. destruct Hf as [_ Hu].
  unfold is_user in *. apply String.eqb_eq in Hu. subst id'.
  destruct (String.eqb (User.id u) id) eqn:E; [|reflexivity].
  apply String.eqb_eq in E. congruence.
Qed.

Lemma update_length {Row} (p : Row -> bool) (f : Row -> Row) (rows : list Row) :
  List.length (update p f rows) = List.length rows.
Proof. unfold update. apply List.length_map. Qed.

Lemma count_app {Row} (p : Row -> bool) (rows rows' : list Row) :
  count p (rows ++ rows') = count p rows + count p rows'.
Proof.
  unfold count. rewrite List.filter_app, List.length_app. lia.
Qed.

Lemma count_nonneg {Row} (p : Row -> bool) (rows : list Row) : 0 <= count p rows.
Proof. unfold count. lia. Qed.

Lemma count_zero_find {Row} (p : Row -> bool) (rows : list Row) :
  count p rows = 0 <-> find p rows = None.
Proof.
  unfold count. induction rows as [|r rows IH]; simpl; [tauto|].
  destruct (p r); simpl; [split; [lia | discriminate] | exact IH].
Qed.

Lemma find_none_iff {Row} (p : Row -> bool) (rows : list Row) :
  find p rows = None <-> (forall r, In r rows -> p r = false).
Proof.
  split; [apply find_none|].
  intros H. destruct (find p rows) as [r|] eqn:Hf; [|reflexivity].
  apply find_some in Hf. destruct Hf as [Hin Hp]. rewrite (H r Hin) in Hp.
  discriminate.
Qed.

Lemma find_some_iff {Row} (p : Row -> bool) (rows : list Row) :
  (exists r, find p rows = Some r) <-> (exists r, In r rows /\ p r = true).
Proof.
  split.
  - intros [r Hf]. exists r. apply find_some in Hf. exact Hf.
  - intros [r [Hin Hp]]. destruct (find p rows) as [r'|] eqn:Hf; [eauto|].
    rewrite (find_none _ _ Hf r Hin) in Hp. discriminate.
Qed.

(** Unfolds a handler down to its lookups, which the hypotheses rewrite. *)
Ltac unfold_handler :=
  cbv beta iota zeta delta
    [try_catch bind ret reply read Users.found
     user_findUnique user_update user_count_points_gt user_count
     badge_findUnique userBadge_findUnique userBadge_create
     contribution_create];
  cbn [users badges userBadges contributions fst snd].

(** ** Level calculator and points update *)

Lemma newLevel_floor (p l : Z) :
  Users.newLevel p = l <-> 100 * (l - 1) <= p < 100 * l.
Proof.
  unfold Users.newLevel. split.
  - intros <-. pose proof (Z.div_mod p 100 ltac:(lia)) as E.
    pose proof (Z.mod_pos_bound p 100 ltac:(lia)). lia.
  - intros H. assert (p / 100 = l - 1); [|lia].
    symmetry. apply (Z.div_unique p 100 (l - 1) (p - 100 * (l - 1))); lia.
Qed.

Lemma user_setters_keep_id (a b : Z) (u : User.t) :
  User.id (User.set_level a (User.set_points b u)) = User.id u.
Proof. reflexivity. Qed.

Lemma put_points_run (id : string) (delta : Z) (action : option string)
    (db : Db) (user : User.t) :
  find (is_user id) (users db) = Some user ->
  let newPoints := updatedPoints action delta user in
  let data := fun u =>
    User.set_level (Users.newLevel newPoints) (User.set_points newPoints u) in
  Users.put_points id (Some delta) action db
  = (Json 200
       (Users.mkPointsReply "Pontos atualizados!"
          (Users.mkUpdatedPoints id newPoints (Users.newLevel newPoints))
          (User.level user <? Users.newLevel newPoints)),
     mkDb (update (is_user id) data (users db)) (badges db) (userBadges db)
          (contributions db)).
Proof.
  intros Hf. unfold Users.put_points, Users.put_points_body. unfold_handler.
  rewrite Hf. unfold_handler. rewrite Hf. cbn.
  pose proof (find_some _ _ Hf) as [_ Hid]. unfold is_user in Hid.
  apply String.eqb_eq in Hid. rewrite Hid.
  unfold updatedPoints. destruct action as [a|]; reflexivity.
Qed.

Lemma ledgerPoints_frame (userId : string) (db db' : Db) :
  contributions db' = contributions db ->
  ledgerPoints userId db' = ledgerPoints userId db.
Proof. unfold ledgerPoints. intros ->. reflexivity. Qed.

Lemma round53_safe (z : Z) : safeInteger z -> round53 z = z.
Proof.
  unfold safeInteger, round53. intros Hz. cbv zeta.
  destruct (Z.leb_spec (Z.log2 (Z.abs z) - 52) 0) as [_|Hbig]; [reflexivity|].
  exfalso.
  assert (Hpos : 0 < Z.abs z).
  { destruct (Z.eq_dec (Z.abs z) 0) as [E|E]; [|lia].
    rewrite E in Hbig. cbn in Hbig. lia. }
  pose proof (Z.log2_spec (Z.abs z) Hpos) as [Hlow _].
  assert (2 ^ 53 <= 2 ^ Z.log2 (Z.abs z)) by (apply Z.pow_le_mono_r; lia).
  lia.
Qed.

Lemma js_add_safe (a b : Z) : safeInteger (a + b) -> js_add a b = a + b.
Proof.
  intros Hs. unfold js_add.
  destruct (Z.eqb_spec b 0) as [->|_]; [lia|].
  destruct (Z.eqb_spec a 0) as [->|_]; [lia|].
  apply round53_safe. exact Hs.
Qed.

Lemma requestedPoints_set (delta : Z) (user : User.t) :
  requestedPoints (Some "set") delta user = delta.
Proof. reflexivity. Qed.

Lemma requestedPoints_add (action : option string) (delta : Z)
    (user : User.t) :
  action <> Some "set" ->
  requestedPoints action delta user = User.points user + delta.
Proof.
  intros Hadd. unfold requestedPoints. destruct action as [a|]; [|reflexivity].
  destruct (String.eqb_spec a "set") as [->|_]; [congruence | reflexivity].
Qed.

(** On safe integers the total that is written is the total that the request
    asks for. *)
Lemma updatedPoints_requested (action : option string) (delta : Z)
    (user : User.t) :
  safeInteger (requestedPoints action delta user) ->
  updatedPoints action delta user = requestedPoints action delta user.
Proof.
  unfold updatedPoints, requestedPoints. destruct action as [a|].
  - destruct (String.eqb a "set"); [reflexivity | apply js_add_safe].
  - apply js_add_safe.
Qed.

(** C10, counterexample.  The total is a sum of numbers: adding
    9007199254740543 to the 450 points of a user stores 9007199254740992,
    the binary64 sum, which is not the integer sum 9007199254740993. *)
Lemma points_sum_is_a_binary64_sum :
  exists user',
    find (is_user "A")
         (users (snd (Users.put_points "A" (Some 9007199254740543) None
                        Sample.db)))
    = Some user'
    /\ User.points Sample.A + 9007199254740543 = 9007199254740993
    /\ User.points user' = 9007199254740992
    /\ exact (PrimFloat.add (number_of_Z (User.points Sample.A))
                            (number_of_Z 9007199254740543))
       = Some (inject_Z (User.points user')).
Proof.
  eexists. split; [reflexivity|]. split; [reflexivity|].
  split; [reflexivity|]. vm_compute. reflexivity.
Qed.

(** C10, amended.  On safe integers (the stored points, the supplied value
    and the new total are of magnitude below 2^53), [PUT /:id/points] on an
    existing user writes the user's [points] and [level] and nothing else:
    the points become the supplied value under action ['set'] and the old
    points plus the supplied value otherwise, the level is recomputed from
    them, the user's other columns, the other users and the three other
    tables (the contribution ledger among them) are as before; so a ledger
    total that matched the points before a call that changes them no longer
    matches after it. *)
Theorem points_update_frame (id : string) (delta : Z) (action : option string)
    (db : Db) (user : User.t) :
  find (is_user id) (users db) = Some user ->
  safeInteger (User.points user) ->
  safeInteger delta ->
  safeInteger (requestedPoints action delta user) ->
  exists body db' user',
    Users.put_points id (Some delta) action db = (Json 200 body, db')
    /\ find (is_user id) (users db') = Some user'
    /\ (action = Some "set" -> User.points user' = delta)
    /\ (action <> Some "set" -> User.points user' = User.points user + delta)
    /\ User.level user' = User.points user' / 100 + 1
    /\ (User.id user' = User.id user
        /\ User.name user' = User.name user
        /\ User.currentStreak user' = User.currentStreak user
        /\ User.longestStreak user' = User.longestStreak user
        /\ User.lastActiveAt user' = User.lastActiveAt user
        /\ User.createdAt user' = User.createdAt user)
    /\ (forall id', id' <> id ->
          find (is_user id') (users db') = find (is_user id') (users db))
    /\ List.length (users db') = List.length (users db)
    /\ contributions db' = contributions db
    /\ userBadges db' = userBadges db
    /\ badges db' = badges db
    /\ (ledgerPoints id db = User.points user ->
        User.points user' <> User.points user ->
        ledgerPoints id db' <> User.points user').
Proof.
  intros Hf _ _ Hsafe.
  pose proof (put_points_run id delta action db user Hf) as Hrun.
  cbv zeta in Hrun.
  rewrite (updatedPoints_requested action delta user Hsafe) in Hrun.
  eexists _, _, _. split; [exact Hrun|]. cbn [users badges userBadges contributions].
  split; [apply find_update_same; [intros u; reflexivity | exact Hf]|].
  cbn [User.points User.level User.set_level User.set_points User.id User.name
       User.currentStreak User.longestStreak User.lastActiveAt User.createdAt].
  split; [intros ->; reflexivity|].
  split; [apply requestedPoints_add|].
  split; [reflexivity|].
  split; [repeat split|].
  split; [intros id' Hne; apply find_update_other; [intros u; reflexivity | exact Hne]|].
  split; [apply update_length|].
  repeat (split; [reflexivity|]).
  intros Hsum Hchg.
  rewrite (ledgerPoints_frame id db) by reflexivity. congruence.
Qed.

Lemma points_update_frame_witness :
  exists body db' user',
    Users.put_points "D" (Some 5) None Sample.ledger_db = (Json 200 body, db')
    /\ find (is_user "D") (users db') = Some user'
    /\ User.points user' = 15
    /\ User.level user' = 1
    /\ contributions db' = contributions Sample.ledger_db
    /\ ledgerPoints "D" db' <> User.points user'.
Proof.
  destruct (points_update_frame "D" 5 None Sample.ledger_db Sample.D eq_refl
              eq_refl eq_refl eq_refl)
    as (body & db' & user' & Hrun & Hf & _ & Hadd & Hlevel & _ & _ & _ & Hc & _ & _ & Hsum).
  exists body, db', user'.
  assert (Hp : User.points user' = 15) by (apply Hadd; discriminate).
  repeat split; try assumption.
  - rewrite Hlevel, Hp. reflexivity.
  - apply Hsum; [reflexivity | rewrite Hp; discriminate].
Defined.

(** ** Badge unlock *)

Lemma is_userBadge_true (userId badgeId : string) (ub : UserBadge.t) :
  is_userBadge userId badgeId ub = true
  <-> UserBadge.userId ub = userId /\ UserBadge.badgeId ub = badgeId.
Proof.
  unfold is_userBadge. rewrite Bool.andb_true_iff, !String.eqb_eq. tauto.
Qed.

Lemma pairUnlocked_find (userId badgeId : string) (db : Db) :
  pairUnlocked userId badgeId db
  <-> exists ub, find (is_userBadge userId badgeId) (userBadges db) = Some ub.
Proof.
  rewrite find_some_iff. unfold pairUnlocked.
  split; intros [ub [Hin H]]; exists ub; (split; [exact Hin|]);
    apply is_userBadge_true; exact H.
Qed.

Lemma not_pairUnlocked_find (userId badgeId : string) (db : Db) :
  ~ pairUnlocked userId badgeId db
  <-> find (is_userBadge userId badgeId) (userBadges db) = None.
Proof.
  rewrite pairUnlocked_find.
  destruct (find (is_userBadge userId badgeId) (userBadges db)) as [ub|].
  - split; [intros H; exfalso; apply H; eauto | discriminate].
  - split; [reflexivity | intros _ [ub H]; discriminate].
Qed.

Lemma post_badges_conflict (now : Z) (id badgeId : string) (db : Db)
    (user : User.t) (badge : Badge.t) (ub : UserBadge.t) :
  badgeId <> EmptyString ->
  find (is_user id) (users db) = Some user ->
  find (is_badge badgeId) (badges db) = Some badge ->
  find (is_userBadge id badgeId) (userBadges db) = Some ub ->
  Users.post_badges now id (Some badgeId) db = (Conflict, db).
Proof.
  intros Hne Hu Hb Hub.
  destruct badgeId as [|c s]; [contradiction|].
  unfold Users.post_badges, Users.post_badges_body. unfold_handler.
  rewrite Hu. unfold_handler. rewrite Hb. unfold_handler. rewrite Hub.
  reflexivity.
Qed.

Lemma post_badges_fresh (now : Z) (id badgeId : string) (db : Db)
    (user : User.t) (badge : Badge.t) :
  badgeId <> EmptyString ->
  find (is_user id) (users db) = Some user ->
  find (is_badge badgeId) (badges db) = Some badge ->
  find (is_userBadge id badgeId) (userBadges db) = None ->
  Users.post_badges now id (Some badgeId) db
  = (Unlocked badge,
     mkDb (update (is_user id) (User.increment_points (Badge.points badge))
                  (users db))
          (badges db)
          (userBadges db ++ [UserBadge.mk id badgeId now])
          (contributions db
           ++ [Contribution.mk id "badge_unlocked" (Badge.points badge)
                 ("Desbloqueou badge: " ++ Badge.name badge)%string now])).
Proof.
  intros Hne Hu Hb Hub.
  destruct badgeId as [|c s]; [contradiction|].
  unfold Users.post_badges, Users.post_badges_body. unfold_handler.
  rewrite Hu. unfold_handler. rewrite Hb. unfold_handler. rewrite Hub.
  unfold_handler. rewrite Hub. unfold_handler. rewrite Hu. reflexivity.
Qed.

Lemma find_app_last {Row} (p : Row -> bool) (rows : list Row) (r : Row) :
  find p rows = None -> p r = true -> find p (rows ++ [r]) = Some r.
Proof.
  induction rows as [|x rows IH]; simpl; intros Hn Hp.
  - rewrite Hp. reflexivity.
  - destruct (p x); [discriminate | apply IH; assumption].
Qed.

(** C1.  Badge unlock is exactly-once.  For a user and a badge of the store
    (the badge id being a non-empty string, as every generated id is): when a
    row of [user_badges] exists for the pair, [POST /:id/badges] replies with
    the conflict error and leaves the store as it was; when none exists, it
    adds exactly one [user_badges] row for the pair, adds the badge's points
    to the user's points (no other user row changes), appends exactly one
    [badge_unlocked] contribution of those points, and a second unlock of the
    same badge is a conflict that changes nothing. *)
Theorem badge_unlock_exactly_once (now now' : Z) (id badgeId : string)
    (db : Db) (user : User.t) (badge : Badge.t) :
  badgeId <> EmptyString ->
  find (is_user id) (users db) = Some user ->
  find (is_badge badgeId) (badges db) = Some badge ->
  (pairUnlocked id badgeId db ->
     Users.post_badges now id (Some badgeId) db = (Conflict, db))
  /\ (~ pairUnlocked id badgeId db ->
      exists db' user',
        Users.post_badges now id (Some badgeId) db = (Unlocked badge, db')
        /\ userBadges db' = (userBadges db ++ [UserBadge.mk id badgeId now])%list
        /\ unlockCount id badgeId db = 0
        /\ unlockCount id badgeId db' = 1
        /\ find (is_user id) (users db') = Some user'
        /\ User.points user' = User.points user + Badge.points badge
        /\ (forall id', id' <> id ->
              find (is_user id') (users db') = find (is_user id') (users db))
        /\ contributions db'
           = (contributions db
              ++ [Contribution.mk id "badge_unlocked" (Badge.points badge)
                    ("Desbloqueou badge: " ++ Badge.name badge)%string now])%list
        /\ badges db' = badges db
        /\ Users.post_badges now' id (Some badgeId) db' = (Conflict, db')).
Proof.
  intros Hne Hu Hb. split.
  - intros Hpair. apply pairUnlocked_find in Hpair. destruct Hpair as [ub Hub].
    exact (post_badges_conflict now id badgeId db user badge ub Hne Hu Hb Hub).
  - intros Hfresh. apply not_pairUnlocked_find in Hfresh.
    set (data := User.increment_points (Badge.points badge)).
    assert (Hid : forall u, User.id (data u) = User.id u) by reflexivity.
    eexists _, (data user).
    split; [exact (post_badges_fresh now id badgeId db user badge Hne Hu Hb Hfresh)|].
    cbn [users badges userBadges contributions].
    assert (Hu' : find (is_user id) (update (is_user id) data (users db))
                  = Some (data user))
      by (apply find_update_same; assumption).
    assert (Hmatch : is_userBadge id badgeId (UserBadge.mk id badgeId now) = true)
      by (apply is_userBadge_true; split; reflexivity).
    assert (Hzero : unlockCount id badgeId db = 0)
      by (apply count_zero_find; exact Hfresh).
    split; [reflexivity|].
    split; [exact Hzero|].
    split.
    { unfold unlockCount in *. cbn [userBadges]. rewrite count_app, Hzero.
      unfold count. simpl. rewrite Hmatch. reflexivity. }
    split; [exact Hu'|].
    split; [reflexivity|].
    split; [intros id' Hne'; apply find_update_other; assumption|].
    split; [reflexivity|].
    split; [reflexivity|].
    apply (post_badges_conflict now' id badgeId _ (data user) badge
             (UserBadge.mk id badgeId now)); cbn [users badges userBadges];
      try assumption.
    apply find_app_last; assumption.
Qed.

Lemma badge_unlock_exactly_once_witness :
  exists db' user',
    Users.post_badges 5 "A" (Some "badge-1") Sample.db
    = (Unlocked Sample.primeiroReporte, db')
    /\ unlockCount "A" "badge-1" db' = 1
    /\ find (is_user "A") (users db') = Some user'
    /\ User.points user' = 450 + 10
    /\ List.length (contributions db') = 1%nat
    /\ Users.post_badges 6 "A" (Some "badge-1") db' = (Conflict, db').
Proof.
  assert (Hne : "badge-1" <> EmptyString) by discriminate.
  destruct (badge_unlock_exactly_once 5 6 "A" "badge-1" Sample.db Sample.A
              Sample.primeiroReporte Hne eq_refl eq_refl) as [_ Hfresh].
  destruct Hfresh as (db' & user' & Hrun & _ & _ & Hone & Hf & Hp & _ & Hc & _ & Hagain).
  { intros (ub & Hin & _). destruct Hin. }
  exists db', user'. repeat split; try assumption.
  rewrite Hc. reflexivity.
Defined.

(** A badge unlock adds to the points and leaves the stored level as it
    was: the level is recomputed by [PUT /:id/points] only. *)
Lemma post_badges_keeps_level (now : Z) (id badgeId : string) (db : Db)
    (user : User.t) (badge : Badge.t) :
  badgeId <> EmptyString ->
  find (is_user id) (users db) = Some user ->
  find (is_badge badgeId) (badges db) = Some badge ->
  find (is_userBadge id badgeId) (userBadges db) = None ->
  option_map User.level
    (find (is_user id) (users (snd (Users.post_badges now id (Some badgeId) db))))
  = Some (User.level user).
Proof.
  intros Hne Hu Hb Hub.
  rewrite (post_badges_fresh now id badgeId db user badge Hne Hu Hb Hub).
  cbn [snd users].
  erewrite find_update_same; [reflexivity | intros u; reflexivity | exact Hu].
Qed.

(** ** Streak tracker *)

Lemma daysSinceActive_floor (now lastActive d : Z) :
  Users.daysSinceActive now lastActive = d
  <-> d * Sample.day <= now - lastActive < (d + 1) * Sample.day.
Proof.
  unfold Users.daysSinceActive.
  change (1000 * 60 * 60 * 24) with 86400000.
  change Sample.day with 86400000.
  split.
  - intros <-. pose proof (Z.div_mod (now - lastActive) 86400000 ltac:(lia)).
    pose proof (Z.mod_pos_bound (now - lastActive) 86400000 ltac:(lia)). lia.
  - intros H. symmetry.
    apply (Z.div_unique _ 86400000 d (now - lastActive - 86400000 * d)); lia.
Qed.

Lemma put_streak_run (now : Z) (id : string) (db : Db) (user : User.t) :
  find (is_user id) (users db) = Some user ->
  let days := Users.daysSinceActive now (User.lastActiveAt user) in
  let newStreak := fst (Users.nextStreak days (User.currentStreak user)) in
  let streakBroken := snd (Users.nextStreak days (User.currentStreak user)) in
  let newLongest := Z.max newStreak (User.longestStreak user) in
  let users1 := update (is_user id) (touched now user) (users db) in
  Users.put_streak now id db
  = (Json 200
       (Users.mkStreakReply
          (if streakBroken then "Streak reiniciado" else "Streak atualizado!")
          (Users.mkStreakSummary newStreak newLongest now)
          streakBroken),
     if Users.weeklyBonus newStreak (User.currentStreak user) then
       mkDb (update (is_user id) (User.increment_points newStreak) users1)
            (badges db) (userBadges db)
            (contributions db
             ++ [Contribution.mk id "streak_bonus" newStreak
                   ("Streak de " ++ string_of_Z newStreak ++ " dias!")%string
                   now])
     else mkDb users1 (badges db) (userBadges db) (contributions db)).
Proof.
  intros Hf. cbv zeta.
  unfold Users.put_streak, Users.put_streak_body. unfold_handler.
  rewrite Hf. unfold_handler.
  unfold touched.
  destruct (Users.nextStreak
              (Users.daysSinceActive now (User.lastActiveAt user))
              (User.currentStreak user)) as [newStreak streakBroken] eqn:E.
  cbn [fst snd]. unfold_handler. rewrite Hf.
  cbn [User.currentStreak User.longestStreak User.lastActiveAt
       User.set_lastActiveAt User.set_longestStreak User.set_currentStreak].
  destruct (Users.weeklyBonus newStreak (User.currentStreak user)).
  - unfold_handler.
    erewrite find_update_same; [reflexivity | intros u; reflexivity | exact Hf].
  - reflexivity.
Qed.

Lemma put_streak_missing (now : Z) (id : string) (db : Db) :
  find (is_user id) (users db) = None ->
  Users.put_streak now id db = (Error 404 "Usuário não encontrado", db).
Proof.
  intros Hf. unfold Users.put_streak, Users.put_streak_body. unfold_handler.
  rewrite Hf. reflexivity.
Qed.

Lemma touched_keeps_id (now : Z) (user u : User.t) :
  User.id (touched now user u) = User.id u.
Proof. reflexivity. Qed.

(** The row of the touched user after [PUT /:id/streak]. *)
Lemma put_streak_user (now : Z) (id : string) (db : Db) (user : User.t) :
  find (is_user id) (users db) = Some user ->
  let newStreak :=
    fst (Users.nextStreak (Users.daysSinceActive now (User.lastActiveAt user))
                          (User.currentStreak user)) in
  find (is_user id) (users (snd (Users.put_streak now id db)))
  = Some (if Users.weeklyBonus newStreak (User.currentStreak user)
          then User.increment_points newStreak (touched now user user)
          else touched now user user).
Proof.
  intros Hf. cbv zeta. rewrite (put_streak_run now id db user Hf). cbv zeta.
  cbn [snd].
  pose proof (find_update_same id (touched now user) (users db) user
                (touched_keeps_id now user) Hf) as H1.
  destruct (Users.weeklyBonus _ _); cbn [users].
  - apply find_update_same; [intros u; reflexivity | exact H1].
  - exact H1.
Qed.

(** ** The stored level *)

(** C4, failing input.  A badge unlock is a points update that leaves the
    level behind: a user at 495 points and level 5, the level of 495 points,
    who unlocks a badge worth 10 points is stored with 505 points and level
    5, while 505 points are level 6. *)
Lemma badge_unlock_leaves_level_behind :
  exists db' user',
    Users.post_badges 7 "G" (Some "badge-1") Sample.award_db
    = (Unlocked Sample.primeiroReporte, db')
    /\ User.level Sample.G = Users.newLevel (User.points Sample.G)
    /\ find (is_user "G") (users db') = Some user'
    /\ User.points user' = 505
    /\ User.level user' = 5
    /\ Users.newLevel (User.points user') = 6.
Proof. eexists _, _. repeat split. Qed.

(** C4.  The level written by [PUT /:id/points] is a total function of the
    new point total: [newLevel p = floor (p / 100) + 1], that is the one [l]
    with [100 * (l - 1) <= p < 100 * l]; 0 and 99 points are level 1, 100
    points level 2.  After [PUT /:id/points] on an existing user (on safe
    integers) the stored level, and the level in the reply, is this function
    of the stored points.  The other points updates do not recompute it: a
    badge unlock adds the badge's points, and a streak touch adds its bonus
    if any, and both leave the stored level as it was. *)
Theorem level_is_function_of_points :
  (forall p : Z, 0 <= p ->
     Users.newLevel p = p / 100 + 1
     /\ 1 <= Users.newLevel p
     /\ forall l, Users.newLevel p = l <-> 100 * (l - 1) <= p < 100 * l)
  /\ Users.newLevel 0 = 1
  /\ Users.newLevel 99 = 1
  /\ Users.newLevel 100 = 2
  /\ (forall (id : string) (delta : Z) (action : option string) (db : Db)
             (user : User.t),
        find (is_user id) (users db) = Some user ->
        safeInteger (User.points user) ->
        safeInteger delta ->
        safeInteger (requestedPoints action delta user) ->
        exists body db' user',
          Users.put_points id (Some delta) action db = (Json 200 body, db')
          /\ find (is_user id) (users db') = Some user'
          /\ User.points user' = requestedPoints action delta user
          /\ User.level user' = Users.newLevel (User.points user')
          /\ Users.up_points (Users.pr_user body) = User.points user'
          /\ Users.up_level (Users.pr_user body) = User.level user')
  /\ (forall (now : Z) (id badgeId : string) (db : Db) (user : User.t)
             (badge : Badge.t),
        badgeId <> EmptyString ->
        find (is_user id) (users db) = Some user ->
        find (is_badge badgeId) (badges db) = Some badge ->
        ~ pairUnlocked id badgeId db ->
        exists db' user',
          Users.post_badges now id (Some badgeId) db = (Unlocked badge, db')
          /\ find (is_user id) (users db') = Some user'
          /\ User.points user' = User.points user + Badge.points badge
          /\ User.level user' = User.level user)
  /\ (forall (now : Z) (id : string) (db : Db) (user : User.t),
        find (is_user id) (users db) = Some user ->
        exists user',
          find (is_user id) (users (snd (Users.put_streak now id db)))
          = Some user'
          /\ User.level user' = User.level user).
Proof.
  split; [|split; [|split; [|split; [|split; [|split]]]]]; try reflexivity.
  - intros p Hp. split; [reflexivity|]. split.
    + assert (H : 100 * (Users.newLevel p - 1) <= p < 100 * Users.newLevel p)
        by (apply newLevel_floor; reflexivity).
      lia.
    + intros l. apply newLevel_floor.
  - intros id delta action db user Hf _ _ Hsafe.
    pose proof (put_points_run id delta action db user Hf) as Hrun.
    cbv zeta in Hrun.
    rewrite (updatedPoints_requested action delta user Hsafe) in Hrun.
    eexists _, _, _. split; [exact Hrun|].
    cbn [users]. split.
    + apply find_update_same; [intros u; reflexivity | exact Hf].
    + cbn. repeat split; reflexivity.
  - intros now id badgeId db user badge Hne Hu Hb Hfresh.
    apply not_pairUnlocked_find in Hfresh.
    eexists _, _.
    split; [exact (post_badges_fresh now id badgeId db user badge Hne Hu Hb Hfresh)|].
    cbn [users]. split.
    + apply find_update_same; [intros u; reflexivity | exact Hu].
    + split; reflexivity.
  - intros now id db user Hf. eexists.
    split; [exact (put_streak_user now id db user Hf)|].
    destruct (Users.weeklyBonus _ _); reflexivity.
Qed.

Lemma level_is_function_of_points_witness :
  (Users.newLevel 250 = 3 <-> 100 * (3 - 1) <= 250 < 100 * 3)
  /\ (exists body db' user',
        Users.put_points "A" (Some 60) None Sample.db = (Json 200 body, db')
        /\ find (is_user "A") (users db') = Some user'
        /\ User.points user' = 510
        /\ User.level user' = Users.newLevel (User.points user')
        /\ Users.up_points (Users.pr_user body) = User.points user'
        /\ Users.up_level (Users.pr_user body) = User.level user')
  /\ (exists db' user',
        Users.post_badges 7 "G" (Some "badge-1") Sample.award_db
        = (Unlocked Sample.primeiroReporte, db')
        /\ find (is_user "G") (users db') = Some user'
        /\ User.points user' = 495 + 10
        /\ User.level user' = 5).
Proof.
  destruct level_is_function_of_points as [Hfloor [_ [_ [_ [Hput [Hbadge _]]]]]].
  split; [|split].
  - apply (Hfloor 250); lia.
  - exact (Hput "A" 60 None Sample.db Sample.A eq_refl eq_refl eq_refl eq_refl).
  - assert (Hne : "badge-1" <> EmptyString) by discriminate.
    apply (Hbadge 7 "G" "badge-1" Sample.award_db Sample.G
             Sample.primeiroReporte Hne eq_refl eq_refl).
    intros (ub & Hin & _). destruct Hin.
Defined.

Lemma weeklyBonus_true (newStreak currentStreak : Z) :
  Users.weeklyBonus newStreak currentStreak = true
  <-> currentStreak < newStreak /\ exists k, newStreak = 7 * k.
Proof.
  unfold Users.weeklyBonus.
  rewrite Bool.andb_true_iff, Z.ltb_lt, Z.eqb_eq. split.
  - intros [Hlt Hrem]. split; [exact Hlt|]. exists (Z.quot newStreak 7).
    pose proof (Z.quot_rem newStreak 7 ltac:(lia)). lia.
  - intros [Hlt [k ->]]. split; [exact Hlt|].
    rewrite Z.mul_comm. apply Z.rem_mul. lia.
Qed.

Lemma weeklyBonus_off_increment (days currentStreak : Z) :
  days <> 1 ->
  Users.weeklyBonus (fst (Users.nextStreak days currentStreak)) currentStreak
  = false.
Proof.
  intros Hd. unfold Users.nextStreak.
  destruct (days =? 0) eqn:E0; cbn [fst].
  - unfold Users.weeklyBonus. rewrite Z.ltb_irrefl. reflexivity.
  - destruct (days =? 1) eqn:E1; [apply Z.eqb_eq in E1; contradiction|].
    cbn [fst]. unfold Users.weeklyBonus. apply Bool.andb_false_r.
Qed.

(** C2.  [PUT /:id/streak] on an existing user is the three-way state machine
    on [days = floor ((now - lastActiveAt) / 1 day)]: the streak is unchanged
    when [days = 0], one more when [days = 1], and reset to 1 with
    [streakBroken] reported when [days >= 2]; in every case the longest
    streak becomes the maximum of itself and the new streak and
    [lastActiveAt] becomes [now]. *)
Theorem streak_touch_state_machine (now : Z) (id : string) (db : Db)
    (user : User.t) :
  find (is_user id) (users db) = Some user ->
  exists days body db' user',
    days * Sample.day <= now - User.lastActiveAt user < (days + 1) * Sample.day
    /\ Users.daysSinceActive now (User.lastActiveAt user) = days
    /\ Users.put_streak now id db = (Json 200 body, db')
    /\ find (is_user id) (users db') = Some user'
    /\ (days = 0 ->
        User.currentStreak user' = User.currentStreak user
        /\ Users.sr_streakBroken body = false)
    /\ (days = 1 ->
        User.currentStreak user' = User.currentStreak user + 1
        /\ Users.sr_streakBroken body = false)
    /\ (2 <= days ->
        User.currentStreak user' = 1 /\ Users.sr_streakBroken body = true)
    /\ User.longestStreak user'
       = Z.max (User.longestStreak user) (User.currentStreak user')
    /\ User.lastActiveAt user' = now
    /\ Users.sr_streak body
       = Users.mkStreakSummary (User.currentStreak user')
           (User.longestStreak user') (User.lastActiveAt user').
Proof.
  intros Hf.
  pose proof (put_streak_run now id db user Hf) as Hrun.
  pose proof (put_streak_user now id db user Hf) as Huser.
  cbv zeta in Hrun, Huser. rewrite Hrun in Huser. cbn [snd] in Huser.
  exists (Users.daysSinceActive now (User.lastActiveAt user)).
  eexists _, _, _.
  split; [apply daysSinceActive_floor; reflexivity|].
  split; [reflexivity|].
  split; [exact Hrun|].
  split; [exact Huser|].
  cbn [Users.sr_streakBroken Users.sr_streak].
  assert (Hfields :
    forall b : bool,
      let u' := if b
                then User.increment_points
                       (fst (Users.nextStreak
                               (Users.daysSinceActive now (User.lastActiveAt user))
                               (User.currentStreak user)))
                       (touched now user user)
                else touched now user user in
      User.currentStreak u'
      = fst (Users.nextStreak
               (Users.daysSinceActive now (User.lastActiveAt user))
               (User.currentStreak user))
      /\ User.longestStreak u'
         = Z.max (User.currentStreak u') (User.longestStreak user)
      /\ User.lastActiveAt u' = now)
    by (intros [|]; repeat split).
  specialize (Hfields (Users.weeklyBonus
    (fst (Users.nextStreak (Users.daysSinceActive now (User.lastActiveAt user))
                           (User.currentStreak user)))
    (User.currentStreak user))).
  cbv zeta in Hfields. destruct Hfields as (Hcur & Hlong & Hlast).
  rewrite Hlong, Hlast, Hcur. unfold Users.nextStreak.
  split; [intros ->; split; reflexivity|].
  split; [intros ->; split; reflexivity|].
  split.
  { intros Hd.
    destruct (Z.eqb_spec (Users.daysSinceActive now (User.lastActiveAt user)) 0);
      [lia|].
    destruct (Z.eqb_spec (Users.daysSinceActive now (User.lastActiveAt user)) 1);
      [lia|].
    split; reflexivity. }
  split; [apply Z.max_comm|].
  split; reflexivity.
Qed.

Lemma streak_touch_state_machine_witness :
  exists body db' user',
    Users.put_streak Sample.day "A" Sample.db = (Json 200 body, db')
    /\ find (is_user "A") (users db') = Some user'
    /\ User.currentStreak user' = 6 + 1
    /\ User.longestStreak user' = 7
    /\ User.lastActiveAt user' = Sample.day.
Proof.
  destruct (streak_touch_state_machine Sample.day "A" Sample.db Sample.A eq_refl)
    as (days & body & db' & user' & Hfloor & _ & Hrun & Hf & _ & Hone & _
        & Hlong & Hlast & _).
  assert (Hd : days = 1).
  { change (User.lastActiveAt Sample.A) with 0 in Hfloor.
    change Sample.day with 86400000 in Hfloor. lia. }
  destruct (Hone Hd) as [Hcur _].
  exists body, db', user'. repeat split; try assumption.
  rewrite Hlong, Hcur. reflexivity.
Defined.

(** C3.  On [PUT /:id/streak] the weekly bonus is awarded exactly when the
    new streak is greater than the previous one and a multiple of 7: then the
    user's points grow by the new streak and one [streak_bonus] contribution
    of that many points is appended, otherwise points and ledger are as
    before.  It is never awarded off the increment path (same day or reset),
    and a touch exactly one day after the last activity of a user on a
    six-day streak gives a streak of 7 and a 7-point [streak_bonus]. *)
Theorem streak_bonus_rule (now : Z) (id : string) (db : Db) (user : User.t) :
  find (is_user id) (users db) = Some user ->
  exists body db' user',
    Users.put_streak now id db = (Json 200 body, db')
    /\ find (is_user id) (users db') = Some user'
    /\ ((User.currentStreak user < User.currentStreak user'
         /\ exists k, User.currentStreak user' = 7 * k) ->
        User.points user' = User.points user + User.currentStreak user'
        /\ contributions db'
           = (contributions db
              ++ [Contribution.mk id "streak_bonus" (User.currentStreak user')
                    ("Streak de " ++ string_of_Z (User.currentStreak user')
                     ++ " dias!")%string now])%list)
    /\ (~ (User.currentStreak user < User.currentStreak user'
           /\ exists k, User.currentStreak user' = 7 * k) ->
        User.points user' = User.points user
        /\ contributions db' = contributions db)
    /\ (Users.daysSinceActive now (User.lastActiveAt user) <> 1 ->
        User.points user' = User.points user
        /\ contributions db' = contributions db)
    /\ (User.currentStreak user = 6 ->
        now - User.lastActiveAt user = Sample.day ->
        User.currentStreak user' = 7
        /\ User.points user' = User.points user + 7
        /\ contributions db'
           = (contributions db
              ++ [Contribution.mk id "streak_bonus" 7 "Streak de 7 dias!"
                    now])%list).
Proof.
  intros Hf.
  pose proof (put_streak_run now id db user Hf) as Hrun.
  pose proof (put_streak_user now id db user Hf) as Huser.
  cbv zeta in Hrun, Huser. rewrite Hrun in Huser. cbn [snd] in Huser.
  eexists _, _, _.
  split; [exact Hrun|]. split; [exact Huser|].
  set (days := Users.daysSinceActive now (User.lastActiveAt user)) in *.
  set (newStreak := fst (Users.nextStreak days (User.currentStreak user))) in *.
  pose proof (weeklyBonus_true newStreak (User.currentStreak user)) as Hrule.
  pose proof (weeklyBonus_off_increment days (User.currentStreak user)) as Hoff.
  fold newStreak in Hoff.
  assert (Hseven : User.currentStreak user = 6 ->
                   now - User.lastActiveAt user = Sample.day -> newStreak = 7).
  { intros H6 Hday. subst newStreak days. unfold Users.daysSinceActive.
    rewrite Hday, H6. reflexivity. }
  destruct (Users.weeklyBonus newStreak (User.currentStreak user)) eqn:Hb;
    cbn [contributions User.points User.currentStreak User.increment_points
         User.set_points touched User.set_lastActiveAt User.set_longestStreak
         User.set_currentStreak];
    fold days; fold newStreak.
  - split; [intros _; split; reflexivity|].
    split; [intros Hn; exfalso; apply Hn, Hrule; reflexivity|].
    split; [intros Hd; specialize (Hoff Hd); discriminate|].
    intros H6 Hday. rewrite (Hseven H6 Hday). repeat split.
  - split; [intros Hy; apply Hrule in Hy; discriminate|].
    split; [intros _; split; reflexivity|].
    split; [intros _; split; reflexivity|].
    intros H6 Hday. exfalso. specialize (Hseven H6 Hday).
    assert (Users.weeklyBonus newStreak (User.currentStreak user) = true);
      [|congruence].
    rewrite Hseven, H6. reflexivity.
Qed.

Lemma streak_bonus_rule_witness :
  exists body db' user',
    Users.put_streak Sample.day "A" Sample.db = (Json 200 body, db')
    /\ find (is_user "A") (users db') = Some user'
    /\ User.currentStreak user' = 7
    /\ User.points user' = 450 + 7
    /\ contributions db'
       = [Contribution.mk "A" "streak_bonus" 7 "Streak de 7 dias!" Sample.day].
Proof.
  destruct (streak_bonus_rule Sample.day "A" Sample.db Sample.A eq_refl)
    as (body & db' & user' & Hrun & Hf & _ & _ & _ & Hscenario).
  destruct (Hscenario eq_refl eq_refl) as (Hcur & Hp & Hc).
  exists body, db', user'. repeat split; assumption.
Defined.

(** C5.  [longestStreak >= currentStreak] is preserved by every streak touch:
    if it holds of the users of the store before [PUT /:id/streak], it holds
    of them after, whichever path (same day, increment, reset, or no such
    user) the touch takes. *)
Theorem streak_invariant_preserved (now : Z) (id : string) (db : Db) :
  (forall u, In u (users db) -> streakInvariant u) ->
  forall u, In u (users (snd (Users.put_streak now id db))) -> streakInvariant u.
Proof.
  intros Hinv u.
  destruct (find (is_user id) (users db)) as [user|] eqn:Hf.
  - rewrite (put_streak_run now id db user Hf). cbv zeta. cbn [snd].
    assert (Htouched : forall v, In v (update (is_user id) (touched now user) (users db)) ->
                                 streakInvariant v).
    { intros v Hin. unfold update in Hin. apply List.in_map_iff in Hin.
      destruct Hin as (x & <- & Hx).
      destruct (is_user id x); [|apply Hinv, Hx].
      unfold streakInvariant, touched. cbn. lia. }
    destruct (Users.weeklyBonus _ _); cbn [users]; [|apply Htouched].
    intros Hin. unfold update at 1 in Hin. apply List.in_map_iff in Hin.
    destruct Hin as (x & <- & Hx). specialize (Htouched x Hx).
    destruct (is_user id x); exact Htouched.
  - rewrite (put_streak_missing now id db Hf). apply Hinv.
Qed.

Lemma streak_invariant_preserved_witness :
  Forall streakInvariant (users Sample.db)
  /\ Forall streakInvariant
       (users (snd (Users.put_streak (3 * Sample.day) "A" Sample.db))).
Proof.
  assert (Hbefore : Forall streakInvariant (users Sample.db)).
  { repeat constructor; unfold streakInvariant; cbn; lia. }
  split; [exact Hbefore|].
  apply List.Forall_forall.
  apply (streak_invariant_preserved (3 * Sample.day) "A" Sample.db).
  apply List.Forall_forall. exact Hbefore.
Defined.

(** ** Ranking *)

Lemma count_perm {Row} (p : Row -> bool) (rows rows' : list Row) :
  Permutation rows rows' -> count p rows = count p rows'.
Proof.
  unfold count. intros HP. f_equal.
  induction HP as [|x l l' _ IH|x y l|l l' l'' _ IH1 _ IH2]; simpl.
  - reflexivity.
  - destruct (p x); simpl; congruence.
  - destruct (p x), (p y); reflexivity.
  - congruence.
Qed.

Lemma insert_desc_perm (u : User.t) (sorted : list User.t) :
  Permutation (u :: sorted) (Ranking.insert_desc u sorted).
Proof.
  induction sorted as [|v rest IH]; simpl; [reflexivity|].
  destruct (User.points v <=? User.points u); [reflexivity|].
  rewrite perm_swap. apply perm_skip, IH.
Qed.

Lemma orderBy_points_desc_perm (rows : list User.t) :
  Permutation rows (Ranking.orderBy_points_desc rows).
Proof.
  induction rows as [|u rows IH]; simpl; [constructor|].
  rewrite <- insert_desc_perm. apply perm_skip, IH.
Qed.

Lemma insert_desc_sorted (u : User.t) (sorted : list User.t) :
  StronglySorted pointsGe sorted ->
  StronglySorted pointsGe (Ranking.insert_desc u sorted).
Proof.
  induction 1 as [|v rest Hs IH Hall]; simpl.
  - repeat constructor.
  - destruct (Z.leb_spec (User.points v) (User.points u)) as [Hle|Hgt].
    + constructor; [constructor; assumption|].
      constructor; [exact Hle|].
      eapply List.Forall_impl; [|exact Hall]. unfold pointsGe. intros w Hw. lia.
    + constructor; [exact IH|].
      apply List.Forall_forall. intros w Hw.
      apply (Permutation_in _ (Permutation_sym (insert_desc_perm u rest))) in Hw.
      destruct Hw as [<- | Hw]; [unfold pointsGe; lia|].
      exact (proj1 (List.Forall_forall _ _) Hall w Hw).
Qed.

Lemma orderBy_points_desc_sorted (rows : list User.t) :
  StronglySorted pointsGe (Ranking.orderBy_points_desc rows).
Proof.
  induction rows as [|u rows IH]; simpl; [constructor|].
  apply insert_desc_sorted, IH.
Qed.

Lemma sorted_distinct_strict (sorted : list User.t) :
  StronglySorted pointsGe sorted ->
  NoDup (List.map User.points sorted) ->
  StronglySorted pointsGt sorted.
Proof.
  induction 1 as [|v rest Hs IH Hall]; simpl; intros Hnd; [constructor|].
  inversion Hnd as [|p ps Hnotin Hnd']; subst.
  constructor; [apply IH, Hnd'|].
  apply List.Forall_forall. intros w Hw.
  pose proof (proj1 (List.Forall_forall _ _) Hall w Hw) as Hge.
  unfold pointsGe in Hge. unfold pointsGt.
  assert (User.points w <> User.points v); [|lia].
  intros E. apply Hnotin. rewrite <- E. apply List.in_map, Hw.
Qed.

(** In a strictly descending list the number of rows with more points than
    the row at an index is that index. *)
Lemma strict_sorted_count_above (sorted : list User.t) (j : nat) (u : User.t) :
  StronglySorted pointsGt sorted ->
  List.nth_error sorted j = Some u ->
  count (fun v => User.points u <? User.points v) sorted = Z.of_nat j.
Proof.
  intros Hs. revert j. unfold count.
  induction Hs as [|x rest Hs IH Hall]; intros j Hj.
  - destruct j; discriminate.
  - destruct j as [|j]; simpl in Hj.
    + injection Hj as ->. simpl. rewrite Z.ltb_irrefl.
      replace (List.filter _ rest) with (@nil User.t); [reflexivity|].
      symmetry. clear Hs IH.
      induction Hall as [|w ws Hw _ IHall]; simpl; [reflexivity|].
      unfold pointsGt in Hw.
      destruct (Z.ltb_spec (User.points u) (User.points w)); [lia|].
      exact IHall.
    + assert (Hin : In u rest) by (eapply List.nth_error_In; exact Hj).
      pose proof (proj1 (List.Forall_forall _ _) Hall u Hin) as Hx.
      unfold pointsGt in Hx. cbn [List.filter].
      destruct (Z.ltb_spec (User.points u) (User.points x)); [|lia].
      cbn [List.length]. rewrite !Nat2Z.inj_succ, (IH j Hj). reflexivity.
Qed.

Lemma in_mapi {A B} (f : A -> Z -> B) (from : Z) (rows : list A) (b : B) :
  In b (Ranking.mapi f from rows) ->
  exists (i : nat) (row : A),
    List.nth_error rows i = Some row /\ b = f row (from + Z.of_nat i).
Proof.
  revert from. induction rows as [|row rows IH]; simpl; intros from Hin;
    [contradiction|].
  destruct Hin as [<- | Hin].
  - exists 0%nat, row. split; [reflexivity|]. rewrite Z.add_0_r. reflexivity.
  - destruct (IH _ Hin) as (i & row' & Hnth & ->).
    exists (S i), row'. split; [exact Hnth|]. f_equal. lia.
Qed.

Lemma nth_error_page {A} (rows : list A) (skip take i : nat) (a : A) :
  List.nth_error (List.firstn take (List.skipn skip rows)) i = Some a ->
  List.nth_error rows (skip + i) = Some a.
Proof.
  intros H.
  assert (Hlt : (i < take)%nat).
  { destruct (Nat.lt_ge_cases i take) as [Hlt|Hge]; [exact Hlt|].
    assert (Hnone : List.nth_error (List.firstn take (List.skipn skip rows)) i
                    = None).
    { apply List.nth_error_None.
      pose proof (List.firstn_le_length take (List.skipn skip rows)). lia. }
    congruence. }
  rewrite List.nth_error_firstn in H.
  destruct (Nat.ltb_spec i take); [|lia].
  rewrite List.nth_error_skipn in H. exact H.
Qed.

Lemma get_ranking_run (startOfMonth : Z -> Z) (now : Z) (type : option string)
    (limit : nat) (page : Z) (db : Db) :
  0 <= (page - 1) * Z.of_nat limit ->
  let skip := (page - 1) * Z.of_nat limit in
  Ranking.get_ranking startOfMonth now type limit page db
  = (Json 200
       (Ranking.mkRankingReply
          (Ranking.mapi (entryOf skip) 0
             (List.map (withContributionCount db)
                (List.firstn limit
                   (List.skipn (Z.to_nat skip)
                      (Ranking.orderBy_points_desc (users db))))))
          (Ranking.mkPagination page (Z.of_nat limit)
             (count (fun _ => true) (users db))
             (Ranking.Math_ceil_div (count (fun _ => true) (users db))
                                    (Z.of_nat limit)))),
     db).
Proof.
  intros Hskip. cbv zeta.
  unfold Ranking.get_ranking, Ranking.get_ranking_body,
    Ranking.user_findMany_orderBy_points_desc.
  unfold_handler.
  destruct (Z.ltb_spec ((page - 1) * Z.of_nat limit) 0) as [Hneg|_]; [lia|].
  cbn. do 3 f_equal.
  generalize 0.
  induction (List.map _ _) as [|[user c] rows IH]; intros from;
    [reflexivity|].
  cbn. f_equal. apply IH.
Qed.

Lemma get_ranking_rejected (startOfMonth : Z -> Z) (now : Z)
    (type : option string) (limit : nat) (page : Z) (db : Db) :
  (page - 1) * Z.of_nat limit < 0 ->
  Ranking.get_ranking startOfMonth now type limit page db
  = (Error 500 "Erro ao buscar ranking", db).
Proof.
  intros Hskip.
  unfold Ranking.get_ranking, Ranking.get_ranking_body,
    Ranking.user_findMany_orderBy_points_desc.
  unfold_handler.
  destruct (Z.ltb_spec ((page - 1) * Z.of_nat limit) 0) as [_|Hge]; [|lia].
  reflexivity.
Qed.

Lemma get_user_run (userId : string) (db : Db) (user : User.t) :
  find (is_user userId) (users db) = Some user ->
  Stats.get_user userId db
  = (Json 200
       (Stats.mkUserStats (User.id user) (User.name user) (User.points user)
          (User.createdAt user) (usersAbove (User.points user) db + 1)),
     db).
Proof.
  intros Hf. unfold Stats.get_user, Stats.get_user_body. unfold_handler.
  rewrite Hf. reflexivity.
Qed.

Lemma get_gamification_run (id : string) (db : Db) (user : User.t) :
  find (is_user id) (users db) = Some user ->
  Users.get_gamification id db
  = (Json 200
       (Users.mkGamificationReply
          (Users.mkGamification
             (User.points user) (User.level user)
             (usersAbove (User.points user) db + 1)
             (toFixed1 (Math_min (Users.levelProgress user) (number_of_Z 100)))
             (Users.pointsForNextLevel user - Users.pointsInCurrentLevel user))
          (Users.mkStreakSummary (User.currentStreak user)
             (User.longestStreak user) (User.lastActiveAt user))),
     db).
Proof.
  intros Hf. unfold Users.get_gamification, Users.get_gamification_body.
  unfold_handler. rewrite Hf. reflexivity.
Qed.

Lemma strongly_sorted_skipn {A} (R : A -> A -> Prop) (n : nat) (l : list A) :
  StronglySorted R l -> StronglySorted R (List.skipn n l).
Proof.
  intros Hs. revert n. induction Hs as [|a l Hs IH Hall]; intros [|n]; simpl;
    try constructor; auto.
Qed.

Lemma in_firstn {A} (n : nat) (l : list A) (x : A) :
  In x (List.firstn n l) -> In x l.
Proof.
  revert n. induction l as [|a l IH]; intros [|n]; simpl; try tauto.
  intros [-> | H]; [left; reflexivity | right; eapply IH; exact H].
Qed.

Lemma strongly_sorted_firstn {A} (R : A -> A -> Prop) (n : nat) (l : list A) :
  StronglySorted R l -> StronglySorted R (List.firstn n l).
Proof.
  intros Hs. revert n. induction Hs as [|a l Hs IH Hall]; intros [|n]; simpl;
    try constructor; auto.
  apply List.Forall_forall. intros x Hx.
  apply (proj1 (List.Forall_forall _ _) Hall).
  eapply in_firstn; exact Hx.
Qed.

Lemma entries_sorted (db : Db) (skip from : Z) (rows : list User.t) :
  StronglySorted pointsGe rows ->
  StronglySorted entryGe
    (Ranking.mapi (entryOf skip) from (List.map (withContributionCount db) rows)).
Proof.
  intros Hs. revert from.
  induction Hs as [|u rows Hs IH Hall]; intros from; simpl; constructor.
  - apply IH.
  - apply List.Forall_forall. intros e He.
    apply in_mapi in He. destruct He as (i & row & Hnth & ->).
    apply List.nth_error_In, List.in_map_iff in Hnth.
    destruct Hnth as (v & <- & Hv).
    exact (proj1 (List.Forall_forall _ _) Hall v Hv).
Qed.

Lemma ranking_entry_rank (db : Db) (skip : Z) (limit : nat) (e : Ranking.Entry) :
  0 <= skip ->
  NoDup (List.map User.points (users db)) ->
  In e (Ranking.mapi (entryOf skip) 0
          (List.map (withContributionCount db)
             (List.firstn limit
                (List.skipn (Z.to_nat skip)
                   (Ranking.orderBy_points_desc (users db)))))) ->
  Ranking.rank e = usersAbove (Ranking.points e) db + 1.
Proof.
  intros Hskip Hnd Hin.
  apply in_mapi in Hin. destruct Hin as (i & row & Hnth & ->).
  rewrite List.nth_error_map in Hnth.
  destruct (List.nth_error _ i) as [u|] eqn:Hu; [|discriminate].
  injection Hnth as <-.
  apply nth_error_page in Hu.
  pose proof (orderBy_points_desc_perm (users db)) as Hperm.
  assert (Hstrict : StronglySorted pointsGt
                      (Ranking.orderBy_points_desc (users db))).
  { apply sorted_distinct_strict; [apply orderBy_points_desc_sorted|].
    eapply Permutation_NoDup; [|exact Hnd].
    apply Permutation_map, Hperm. }
  pose proof (strict_sorted_count_above _ _ _ Hstrict Hu) as Hcount.
  rewrite <- (count_perm _ _ _ Hperm) in Hcount.
  unfold usersAbove. unfold count in Hcount.
  cbn [entryOf Ranking.rank Ranking.points withContributionCount fst].
  rewrite Hcount. lia.
Qed.

(** C6.  The rank reported for an existing user (by [GET /user/:userId] of
    the statistics routes and by [GET /:id/gamification]) is the number of
    users with strictly more points, plus one.  For three users with 450, 320
    and 280 points the ranks are 1, 2 and 3, and the first page of the
    ranking lists them in this order at positions 1, 2 and 3.  Every page of
    the ranking is in descending order of points, and when no two users have
    the same points its positions are the individually reported ranks. *)
Theorem rank_is_users_above_plus_one :
  (forall (userId : string) (db : Db) (user : User.t),
     find (is_user userId) (users db) = Some user ->
     (exists body,
        Stats.get_user userId db = (Json 200 body, db)
        /\ Stats.us_rank body = usersAbove (User.points user) db + 1)
     /\ (exists body,
           Users.get_gamification userId db = (Json 200 body, db)
           /\ Users.g_rank (Users.gamification body)
              = usersAbove (User.points user) db + 1))
  /\ (exists a b c,
        Stats.get_user "A" Sample.db = (Json 200 a, Sample.db)
        /\ Stats.get_user "B" Sample.db = (Json 200 b, Sample.db)
        /\ Stats.get_user "C" Sample.db = (Json 200 c, Sample.db)
        /\ Stats.us_rank a = 1 /\ Stats.us_rank b = 2 /\ Stats.us_rank c = 3)
  /\ (forall (startOfMonth : Z -> Z) (now : Z),
        Ranking.get_ranking startOfMonth now None 10 1 Sample.db
        = (Json 200
             (Ranking.mkRankingReply
                [Ranking.mkEntry 1 "A" "Ana" 450 0 0;
                 Ranking.mkEntry 2 "B" "Bruno" 320 0 1;
                 Ranking.mkEntry 3 "C" "Carla" 280 0 2]
                (Ranking.mkPagination 1 10 3 (Some 1))),
           Sample.db))
  /\ (forall (startOfMonth : Z -> Z) (now : Z) (type : option string)
             (limit : nat) (page : Z) (db : Db) body db',
        Ranking.get_ranking startOfMonth now type limit page db
        = (Json 200 body, db') ->
        StronglySorted entryGe (Ranking.ranking body)
        /\ (NoDup (List.map User.points (users db)) ->
            forall e, In e (Ranking.ranking body) ->
                      Ranking.rank e = usersAbove (Ranking.points e) db + 1)).
Proof.
  split; [|split; [|split]].
  - intros userId db user Hf. split; eexists.
    + split; [exact (get_user_run userId db user Hf) | reflexivity].
    + split; [exact (get_gamification_run userId db user Hf) | reflexivity].
  - do 3 eexists. repeat split.
  - intros startOfMonth now. reflexivity.
  - intros startOfMonth now type limit page db body db' Hrun.
    destruct (Z.lt_ge_cases ((page - 1) * Z.of_nat limit) 0) as [Hneg|Hge].
    + rewrite (get_ranking_rejected _ _ _ _ _ _ Hneg) in Hrun. discriminate.
    + rewrite (get_ranking_run _ _ _ _ _ _ Hge) in Hrun. cbv zeta in Hrun.
      injection Hrun as <- <-. cbn [Ranking.ranking]. split.
      * apply entries_sorted, strongly_sorted_firstn, strongly_sorted_skipn,
          orderBy_points_desc_sorted.
      * intros Hnd e He. exact (ranking_entry_rank db _ limit e Hge Hnd He).
Qed.

Lemma rank_is_users_above_plus_one_witness :
  (exists body,
     Stats.get_user "B" Sample.db = (Json 200 body, Sample.db)
     /\ Stats.us_rank body = 1 + 1)
  /\ (forall e,
        In e [Ranking.mkEntry 1 "A" "Ana" 450 0 0;
              Ranking.mkEntry 2 "B" "Bruno" 320 0 1;
              Ranking.mkEntry 3 "C" "Carla" 280 0 2] ->
        Ranking.rank e = usersAbove (Ranking.points e) Sample.db + 1).
Proof.
  destruct rank_is_users_above_plus_one as (Hrank & _ & Hpage & Hlist).
  split.
  - destruct (Hrank "B" Sample.db Sample.B eq_refl) as [Hstats _].
    exact Hstats.
  - destruct (Hlist (fun t => t) 0 None 10%nat 1 Sample.db _ _
                (Hpage (fun t => t) 0)) as [_ Hagree].
    apply Hagree. cbn.
    repeat constructor; cbn; intuition discriminate.
Defined.

(** C7.  The monthly window is computed and not applied: the date filter that [type=monthly] computes is never given to a query, so the
    monthly ranking is the global ranking, whatever the month.  With P at 100
    lifetime points, none of them earned this month, and Q at 50 points, all of
    them earned this month, the monthly ranking still lists P first. *)
Theorem monthly_ranking_is_global_ranking :
  (forall (startOfMonth : Z -> Z) (now : Z) (limit : nat) (page : Z) (db : Db),
     Ranking.get_ranking startOfMonth now (Some "monthly") limit page db
     = Ranking.get_ranking startOfMonth now (Some "global") limit page db)
  /\ monthlyPoints (fun _ => 500) 1000 "P" Sample.month_db = 0
  /\ monthlyPoints (fun _ => 500) 1000 "Q" Sample.month_db = 50
  /\ Ranking.get_ranking (fun _ => 500) 1000 (Some "monthly") 10 1
       Sample.month_db
     = (Json 200
          (Ranking.mkRankingReply
             [Ranking.mkEntry 1 "P" "Paula" 100 1 0;
              Ranking.mkEntry 2 "Q" "Quim" 50 1 600]
             (Ranking.mkPagination 1 10 2 (Some 1))),
        Sample.month_db).
Proof.
  split; [|repeat split].
  intros startOfMonth now limit page db. reflexivity.
Qed.

(** ** The streak view *)

Lemma streakActive_spec (now lastActive : Z) :
  Users.streakActive now lastActive = true
  <-> now - lastActive < 48 * Sample.hour.
Proof.
  unfold Users.streakActive, Qltb, Users.hoursSinceActive.
  rewrite Bool.negb_true_iff.
  change (1000 * 60 * 60) with 3600000.
  change Sample.hour with 3600000.
  destruct (Qle_bool (inject_Z 48)
              (inject_Z (now - lastActive) / inject_Z 3600000)) eqn:E.
  - apply Qle_bool_iff in E. unfold Qle in E. cbn in E.
    split; [discriminate | lia].
  - split; [intros _ | reflexivity].
    destruct (Z.lt_ge_cases (now - lastActive) (48 * 3600000)) as [H|H];
      [exact H|].
    assert (Hle : Qle_bool (inject_Z 48)
                    (inject_Z (now - lastActive) / inject_Z 3600000) = true).
    { apply Qle_bool_iff. unfold Qle. cbn. lia. }
    congruence.
Qed.

Lemma get_streak_run (now : Z) (id : string) (db : Db) (user : User.t) :
  find (is_user id) (users db) = Some user ->
  Users.get_streak now id db
  = (Json 200
       (Users.mkStreakView (User.id user)
          (if Users.streakActive now (User.lastActiveAt user)
           then User.currentStreak user else 0)
          (User.longestStreak user) (User.lastActiveAt user)
          (Users.streakActive now (User.lastActiveAt user))
          (Users.getNextStreakMilestone (User.currentStreak user))),
     db).
Proof.
  intros Hf. unfold Users.get_streak, Users.get_streak_body. unfold_handler.
  rewrite Hf. reflexivity.
Qed.

Lemma get_streak_read_only (now : Z) (id : string) (db : Db) :
  snd (Users.get_streak now id db) = db.
Proof.
  destruct (find (is_user id) (users db)) as [user|] eqn:Hf.
  - rewrite (get_streak_run now id db user Hf). reflexivity.
  - unfold Users.get_streak, Users.get_streak_body. unfold_handler.
    rewrite Hf. reflexivity.
Qed.

(** C8, counterexample to the boundary as stated.  At exactly 48 hours after
    the last activity, which is not more than 48 hours, the view of a user on
    a six-day streak shows 0 and not the persisted streak. *)
Lemma streak_view_at_48_hours :
  exists body,
    Users.get_streak (48 * Sample.hour) "A" Sample.db
    = (Json 200 body, Sample.db)
    /\ ~ (48 * Sample.hour - User.lastActiveAt Sample.A > 48 * Sample.hour)
    /\ Users.sv_currentStreak body = 0
    /\ Users.sv_currentStreak body <> User.currentStreak Sample.A.
Proof.
  eexists. split; [reflexivity|]. cbn. repeat split; discriminate.
Qed.

(** C8, amended.  [GET /:id/streak] never writes to the store.  For an
    existing user it shows a streak of 0 when at least 48 hours have passed
    since [lastActiveAt], and the persisted [currentStreak] when fewer than
    48 hours have passed; the longest streak and [lastActiveAt] are shown as
    stored. *)
Theorem streak_view_grace_window :
  (forall (now : Z) (id : string) (db : Db),
     snd (Users.get_streak now id db) = db)
  /\ (forall (now : Z) (id : string) (db : Db) (user : User.t),
        find (is_user id) (users db) = Some user ->
        exists body,
          Users.get_streak now id db = (Json 200 body, db)
          /\ (48 * Sample.hour <= now - User.lastActiveAt user ->
              Users.sv_currentStreak body = 0
              /\ Users.sv_streakActive body = false)
          /\ (now - User.lastActiveAt user < 48 * Sample.hour ->
              Users.sv_currentStreak body = User.currentStreak user
              /\ Users.sv_streakActive body = true)
          /\ Users.sv_longestStreak body = User.longestStreak user
          /\ Users.sv_lastActiveAt body = User.lastActiveAt user).
Proof.
  split; [exact get_streak_read_only|].
  intros now id db user Hf. eexists.
  split; [exact (get_streak_run now id db user Hf)|].
  cbn [Users.sv_currentStreak Users.sv_streakActive Users.sv_longestStreak
       Users.sv_lastActiveAt].
  pose proof (streakActive_spec now (User.lastActiveAt user)) as Hspec.
  destruct (Users.streakActive now (User.lastActiveAt user)).
  - split; [intros Hge; assert (now - User.lastActiveAt user < 48 * Sample.hour)
                          by (apply Hspec; reflexivity); lia|].
    repeat split.
  - split; [intros _; split; reflexivity|].
    split; [intros Hlt; apply Hspec in Hlt; discriminate|].
    split; reflexivity.
Qed.

Lemma streak_view_grace_window_witness :
  (exists body,
     Users.get_streak (48 * Sample.hour - 1) "A" Sample.db
     = (Json 200 body, Sample.db)
     /\ Users.sv_currentStreak body = 6)
  /\ (exists body,
        Users.get_streak (48 * Sample.hour) "A" Sample.db
        = (Json 200 body, Sample.db)
        /\ Users.sv_currentStreak body = 0).
Proof.
  destruct streak_view_grace_window as [_ Hview].
  split.
  - destruct (Hview (48 * Sample.hour - 1) "A" Sample.db Sample.A eq_refl)
      as (body & Hrun & _ & Hwithin & _).
    exists body. split; [exact Hrun|].
    apply Hwithin. reflexivity.
  - destruct (Hview (48 * Sample.hour) "A" Sample.db Sample.A eq_refl)
      as (body & Hrun & Hpast & _).
    exists body. split; [exact Hrun|].
    apply Hpast. discriminate.
Defined.

(** ** Level progress *)

Lemma nearest_tenth_bounds (a : Z) (b : positive) :
  0 <= a ->
  let n := nearest_tenth (a # b) in
  2 * Z.pos b * n <= 20 * a + Z.pos b < 2 * Z.pos b * n + 2 * Z.pos b.
Proof.
  intros Ha. unfold nearest_tenth. cbn [Qnum Qden].
  pose proof (Z.div_mod (2 * (10 * a) + Z.pos b) (2 * Z.pos b) ltac:(lia)).
  pose proof (Z.mod_pos_bound (2 * (10 * a) + Z.pos b) (2 * Z.pos b)
                ltac:(lia)).
  cbv zeta. lia.
Qed.

(** The decimal [toFixed(1)] prints is within a twentieth of the number. *)
Lemma round_fixed1_close (q : Q) :
  (Qabs (fixed1_value (round_fixed1 q) - q) <= 1 # 20)%Q.
Proof.
  destruct q as [a b]. unfold round_fixed1, fixed1_value. cbn [negative tenths].
  apply Qabs_Qle_condition.
  unfold Qltb, Qle_bool. cbn [Qnum Qden inject_Z].
  rewrite Z.mul_1_r. change (0 * Z.pos b) with 0.
  destruct (Z.leb_spec 0 a) as [Hpos|Hneg]; cbn [negb].
  - pose proof (nearest_tenth_bounds a b Hpos) as Hn. cbv zeta in Hn.
    replace (Qabs (a # b)) with (a # b)
      by (unfold Qabs; rewrite Z.abs_eq by lia; reflexivity).
    set (n := nearest_tenth (a # b)) in *.
    unfold Qle, Qminus, Qplus, Qopp. cbn [Qnum Qden].
    rewrite !Pos2Z.inj_mul. split; lia.
  - assert (Hpos : 0 <= - a) by lia.
    pose proof (nearest_tenth_bounds (- a) b Hpos) as Hn. cbv zeta in Hn.
    replace (Qabs (a # b)) with (- a # b)
      by (unfold Qabs; rewrite Z.abs_neq by lia; reflexivity).
    set (n := nearest_tenth (- a # b)) in *.
    unfold Qle, Qminus, Qplus, Qopp. cbn [Qnum Qden].
    rewrite !Pos2Z.inj_mul. split; lia.
Qed.

Lemma in_range (lo : Z) (n : nat) (z : Z) :
  lo <= z < lo + Z.of_nat n -> In z (range lo n).
Proof.
  intros H. unfold range. apply in_map_iff. exists (Z.to_nat (z - lo)).
  split; [lia|]. apply in_seq. lia.
Qed.

Lemma same_fraction_eq (a b : Q) : same_fraction a b = true -> a = b.
Proof.
  destruct a as [a1 a2], b as [b1 b2]. unfold same_fraction. cbn [Qnum Qden].
  rewrite Bool.andb_true_iff, Z.eqb_eq, Pos.eqb_eq. intros [-> ->]. reflexivity.
Qed.

Lemma decimal_check_spec (d : fixed1) (limit : Z) (formula : Q) :
  decimal_check d limit formula = true ->
  negative d = false
  /\ 0 <= tenths d <= limit
  /\ (Qabs (fixed1_value d - formula) <= 1 # 20)%Q.
Proof.
  unfold decimal_check. rewrite !Bool.andb_true_iff, Bool.negb_true_iff.
  rewrite !Z.leb_le, Qle_bool_iff. tauto.
Qed.

(** Every level progress over the checked levels passes the check. *)
Lemma progress_checked_all :
  forallb (fun l => forallb (progress_check l) (range 0 100))
          (range 1 (Z.to_nat checkedLevels))
  = true.
Proof. vm_compute. reflexivity. Qed.

Lemma progress_checked (r l : Z) :
  0 <= r < 100 -> 1 <= l <= checkedLevels ->
  exists q,
    exact (progress_number r l) = Some q
    /\ exact (Math_min (progress_number r l) (number_of_Z 100)) = Some q
    /\ (0 <= q <= inject_Z 99)%Q
    /\ negative (round_fixed1 q) = false
    /\ 0 <= tenths (round_fixed1 q) <= 990
    /\ (Qabs (fixed1_value (round_fixed1 q) - progressFormula r l) <= 1 # 20)%Q.
Proof.
  intros Hr Hl.
  pose proof progress_checked_all as Hall.
  rewrite forallb_forall in Hall.
  assert (Hin : In l (range 1 (Z.to_nat checkedLevels)))
    by (apply in_range; unfold checkedLevels in *; lia).
  specialize (Hall l Hin). rewrite forallb_forall in Hall.
  specialize (Hall r (in_range 0 100 r ltac:(lia))).
  unfold progress_check in Hall.
  destruct (exact (progress_number r l)) as [q|]; [|discriminate].
  destruct (exact (Math_min (progress_number r l) (number_of_Z 100)))
    as [q'|]; [|discriminate].
  rewrite !Bool.andb_true_iff, !Qle_bool_iff in Hall.
  destruct Hall as [[[Hsame Hlow] Hhigh] Hdec].
  apply same_fraction_eq in Hsame. subst q'.
  apply decimal_check_spec in Hdec. exists q. tauto.
Qed.

(** The level progress of a user with non-negative points at a checked
    level: a number between 0 and 99, below the clamp, whose decimal is
    within a twentieth of the exact value of the formula. *)
Lemma levelProgress_checked (user : User.t) :
  0 <= User.points user -> 1 <= User.level user <= checkedLevels ->
  exists q,
    exact (Users.levelProgress user) = Some q
    /\ exact (Math_min (Users.levelProgress user) (number_of_Z 100)) = Some q
    /\ (0 <= q <= inject_Z 99)%Q
    /\ negative (round_fixed1 q) = false
    /\ 0 <= tenths (round_fixed1 q) <= 990
    /\ (Qabs (fixed1_value (round_fixed1 q)
              - progressFormula (User.points user mod 100) (User.level user))
        <= 1 # 20)%Q.
Proof.
  intros Hp Hl.
  pose proof (Z.mod_pos_bound (User.points user) 100 ltac:(lia)) as Hr.
  destruct (progress_checked (User.points user mod 100) (User.level user) Hr Hl)
    as (q & H). exists q.
  unfold Users.levelProgress, Users.pointsInCurrentLevel,
    Users.pointsForNextLevel.
  rewrite Z.rem_mod_nonneg by lia. exact H.
Qed.

(** C9, counterexample to exact equality.  For a user at 210 points and
    level 3 the formula gives 10/3 and the reply shows ["3.3"], the decimal
    33/10.  For a user at 329 points and level 4 the formula gives 7.25 and
    the reply shows ["7.2"]: the binary64 value of the formula lies just
    below 7.25, whose own nearest decimal is 7.3. *)
Lemma level_progress_is_rounded :
  (exists body,
     Users.get_gamification "E" Sample.progress_db
     = (Json 200 body, Sample.progress_db)
     /\ (progressFormula (User.points Sample.E mod 100) (User.level Sample.E)
         == 10 # 3)%Q
     /\ Users.g_levelProgress (Users.gamification body) = "3.3"
     /\ print_fixed1 (mkFixed1 false 33) = "3.3"
     /\ ~ (fixed1_value (mkFixed1 false 33) == 10 # 3)%Q)
  /\ (exists body,
        Users.get_gamification "H" Sample.progress_db
        = (Json 200 body, Sample.progress_db)
        /\ (progressFormula (User.points Sample.H mod 100)
                            (User.level Sample.H)
            == 29 # 4)%Q
        /\ Users.g_levelProgress (Users.gamification body) = "7.2"
        /\ print_fixed1 (mkFixed1 false 72) = "7.2"
        /\ ~ (fixed1_value (mkFixed1 false 72) == 29 # 4)%Q
        /\ print_fixed1 (round_fixed1 (29 # 4)) = "7.3").
Proof.
  split.
  - eexists. split; [reflexivity|]. split; [reflexivity|].
    split; [vm_compute; reflexivity|]. split; [reflexivity|].
    intros H. vm_compute in H. discriminate.
  - eexists. split; [reflexivity|]. split; [reflexivity|].
    split; [vm_compute; reflexivity|]. split; [reflexivity|].
    split; [|reflexivity].
    intros H. vm_compute in H. discriminate.
Qed.

(** C9, amended.  The level progress [GET /:id/gamification] reports is
    [Math.min(x, 100).toFixed(1)] where [x] is
    [(points % 100) / (level * 100) * 100] computed on numbers, with the
    stored level in the denominator and [%] the remainder, which is
    [points mod 100] for non-negative points; the decimal printed is the
    nearest tenth of that number.  For non-negative points and a
    stored level among the checked ones the decimal shown is within 1/20 of
    the exact value of the formula.  It is not the percentage
    [points mod 100]: at 250 points and level 3 the reply shows ["16.7"],
    not ["50.0"]. *)
Theorem level_progress_formula :
  (forall (id : string) (db : Db) (user : User.t),
     find (is_user id) (users db) = Some user ->
     exists body,
       Users.get_gamification id db = (Json 200 body, db)
       /\ Users.g_levelProgress (Users.gamification body)
          = toFixed1
              (Math_min
                 (PrimFloat.mul
                    (PrimFloat.div
                       (number_of_Z (Z.rem (User.points user) 100))
                       (number_of_Z (User.level user * 100)))
                    (number_of_Z 100))
                 (number_of_Z 100))
       /\ (forall q,
             exact (Math_min (Users.levelProgress user) (number_of_Z 100))
             = Some q ->
             Users.g_levelProgress (Users.gamification body)
             = print_fixed1 (round_fixed1 q)
             /\ (Qabs (fixed1_value (round_fixed1 q) - q) <= 1 # 20)%Q)
       /\ (0 <= User.points user ->
           Z.rem (User.points user) 100 = User.points user mod 100)
       /\ (0 <= User.points user ->
           1 <= User.level user <= checkedLevels ->
           exists shown,
             Users.g_levelProgress (Users.gamification body)
             = print_fixed1 shown
             /\ (Qabs (fixed1_value shown
                       - progressFormula (User.points user mod 100)
                                         (User.level user))
                 <= 1 # 20)%Q))
  /\ (exists body,
        Users.get_gamification "F" Sample.progress_db
        = (Json 200 body, Sample.progress_db)
        /\ Users.g_levelProgress (Users.gamification body) = "16.7"
        /\ toFixed1 (number_of_Z (User.points Sample.F mod 100)) = "50.0").
Proof.
  split.
  - intros id db user Hf. eexists.
    split; [exact (get_gamification_run id db user Hf)|].
    cbn [Users.g_levelProgress Users.gamification].
    split; [reflexivity|].
    split.
    { intros q Hq. unfold toFixed1. rewrite Hq.
      split; [reflexivity | apply round_fixed1_close]. }
    split; [intros Hp; apply Z.rem_mod_nonneg; lia|].
    intros Hp Hl.
    destruct (levelProgress_checked user Hp Hl)
      as (q & _ & Hmin & _ & _ & _ & Hclose).
    exists (round_fixed1 q). split; [|exact Hclose].
    unfold toFixed1. rewrite Hmin. reflexivity.
  - eexists. split; [reflexivity|]. split; vm_compute; reflexivity.
Qed.

Lemma level_progress_formula_witness :
  exists body shown,
    Users.get_gamification "C" Sample.db = (Json 200 body, Sample.db)
    /\ Users.g_levelProgress (Users.gamification body) = print_fixed1 shown
    /\ (Qabs (fixed1_value shown - progressFormula (280 mod 100) 3)
        <= 1 # 20)%Q.
Proof.
  destruct level_progress_formula as [Hformula _].
  destruct (Hformula "C" Sample.db Sample.C eq_refl)
    as (body & Hrun & _ & _ & _ & Hshown).
  assert (Hp : 0 <= User.points Sample.C) by (cbn; lia).
  assert (Hl : 1 <= User.level Sample.C <= checkedLevels)
    by (unfold checkedLevels; cbn; lia).
  destruct (Hshown Hp Hl) as (shown & Hprint & Hclose).
  exists body, shown. split; [exact Hrun|]. split; [exact Hprint|].
  exact Hclose.
Defined.

(** * Further properties *)

(** ** Error paths of the writing handlers *)

Lemma put_points_missing (id : string) (delta : Z) (action : option string)
    (db : Db) :
  find (is_user id) (users db) = None ->
  Users.put_points id (Some delta) action db
  = (Error 404 "Usuário não encontrado", db).
Proof.
  intros Hf. unfold Users.put_points, Users.put_points_body. unfold_handler.
  rewrite Hf. reflexivity.
Qed.

Lemma post_badges_cases (now : Z) (id : string) (badgeId : option string)
    (db : Db) :
  (exists status error,
     (status = 400 \/ status = 404)
     /\ Users.post_badges now id badgeId db = (Error status error, db))
  \/ (exists bid user badge,
        badgeId = Some bid /\ bid <> EmptyString
        /\ find (is_user id) (users db) = Some user
        /\ find (is_badge bid) (badges db) = Some badge
        /\ find (is_userBadge id bid) (userBadges db) = None).
Proof.
  destruct badgeId as [bid|].
  2:{ left. exists 400, "ID do badge é obrigatório". split; [auto | reflexivity]. }
  destruct (String.eqb_spec bid EmptyString) as [->|Hne].
  { left. exists 400, "ID do badge é obrigatório". split; [auto | reflexivity]. }
  assert (Hshape : exists c s, bid = String c s).
  { destruct bid as [|c s]; [contradiction | eauto]. }
  destruct Hshape as (c & s & Hbid).
  destruct (find (is_user id) (users db)) as [user|] eqn:Hu.
  2:{ left. exists 404, "Usuário não encontrado". split; [auto|].
      subst bid. unfold Users.post_badges, Users.post_badges_body.
      unfold_handler. rewrite Hu. reflexivity. }
  destruct (find (is_badge bid) (badges db)) as [badge|] eqn:Hb.
  2:{ left. exists 404, "Badge não encontrado". split; [auto|].
      subst bid. unfold Users.post_badges, Users.post_badges_body.
      unfold_handler. rewrite Hu. unfold_handler. rewrite Hb. reflexivity. }
  destruct (find (is_userBadge id bid) (userBadges db)) as [ub|] eqn:Hub.
  - left. exists 400, "Badge já desbloqueado". split; [auto|].
    exact (post_badges_conflict now id bid db user badge ub Hne Hu Hb Hub).
  - right. exists bid, user, badge. auto.
Qed.

(** X1.  A refused request leaves the store as it was: an error reply of
    [PUT /:id/points], [POST /:id/badges] or [PUT /:id/streak] other than the
    500 of the [catch] block is a 400 or a 404 and comes with the store
    untouched, every check that refuses running before the first write. *)
Theorem refused_requests_leave_the_store :
  (forall id points action db status error db',
     Users.put_points id points action db = (Error status error, db') ->
     status <> 500 ->
     db' = db /\ (status = 400 \/ status = 404))
  /\ (forall now id badgeId db status error db',
        Users.post_badges now id badgeId db = (Error status error, db') ->
        status <> 500 ->
        db' = db /\ (status = 400 \/ status = 404))
  /\ (forall now id db status error db',
        Users.put_streak now id db = (Error status error, db') ->
        status <> 500 ->
        db' = db /\ status = 404).
Proof.
  split; [|split].
  - intros id points action db status error db' H _.
    destruct points as [delta|].
    + destruct (find (is_user id) (users db)) as [user|] eqn:Hf.
      * rewrite (put_points_run id delta action db user Hf) in H.
        cbv zeta in H. discriminate.
      * rewrite (put_points_missing id delta action db Hf) in H.
        injection H as <- _ <-. auto.
    + cbv in H. injection H as <- _ <-. auto.
  - intros now id badgeId db status error db' H _.
    destruct (post_badges_cases now id badgeId db)
      as [(st & er & Hst & Hrun) | (bid & user & badge & -> & Hne & Hu & Hb & Hub)].
    + rewrite Hrun in H. injection H as <- _ <-. auto.
    + rewrite (post_badges_fresh now id bid db user badge Hne Hu Hb Hub) in H.
      discriminate.
  - intros now id db status error db' H _.
    destruct (find (is_user id) (users db)) as [user|] eqn:Hf.
    + rewrite (put_streak_run now id db user Hf) in H. cbv zeta in H.
      discriminate.
    + rewrite (put_streak_missing now id db Hf) in H.
      injection H as <- _ <-. auto.
Qed.

Lemma refused_requests_leave_the_store_witness :
  Users.post_badges 5 "A" (Some "no-such-badge") Sample.db
  = (Error 404 "Badge não encontrado", Sample.db)
  /\ (Sample.db = Sample.db /\ (404 = 400 \/ 404 = 404)).
Proof.
  destruct refused_requests_leave_the_store as (_ & Hbadges & _).
  split; [reflexivity|].
  exact (Hbadges 5 "A" (Some "no-such-badge") Sample.db 404
           "Badge não encontrado" Sample.db eq_refl ltac:(discriminate)).
Defined.

(** ** Composition of points updates *)

Lemma update_update {Row} (p : Row -> bool) (f g : Row -> Row)
    (rows : list Row) :
  (forall r, p (g r) = p r) ->
  update p f (update p g rows) = update p (fun r => f (g r)) rows.
Proof.
  intros Hp. unfold update. rewrite List.map_map. apply List.map_ext.
  intros r. destruct (p r) eqn:E; [rewrite Hp, E | rewrite E]; reflexivity.
Qed.

Lemma update_ext {Row} (p : Row -> bool) (f g : Row -> Row) (rows : list Row) :
  (forall r, f r = g r) -> update p f rows = update p g rows.
Proof.
  intros H. unfold update. apply List.map_ext. intros r.
  destruct (p r); [apply H | reflexivity].
Qed.

Lemma is_user_data (id : string) (data : User.t -> User.t) :
  (forall u, User.id (data u) = User.id u) ->
  forall u, is_user id (data u) = is_user id u.
Proof. intros H u. unfold is_user. rewrite H. reflexivity. Qed.

(** X2.  Point updates compose on safe integers: two additions in a row
    leave the store that one addition of the sum leaves, and a ['set']
    overwrites whatever update came before it (so repeating a ['set'] changes
    nothing more). *)
Theorem points_updates_compose (id : string) (a b : Z)
    (action action' : option string) (db : Db) (user : User.t) :
  find (is_user id) (users db) = Some user ->
  safeInteger (User.points user) ->
  safeInteger a ->
  safeInteger b ->
  safeInteger (requestedPoints action a user) ->
  (action <> Some "set" -> action' <> Some "set" ->
   safeInteger (a + b) ->
   safeInteger (User.points user + a + b) ->
   snd (Users.put_points id (Some b) action'
          (snd (Users.put_points id (Some a) action db)))
   = snd (Users.put_points id (Some (a + b)) action db))
  /\ snd (Users.put_points id (Some b) (Some "set")
            (snd (Users.put_points id (Some a) action db)))
     = snd (Users.put_points id (Some b) (Some "set") db).
Proof.
  intros Hf _ _ _ Hsafe.
  pose proof (put_points_run id a action db user Hf) as H1. cbv zeta in H1.
  rewrite (updatedPoints_requested action a user Hsafe) in H1.
  set (data1 := fun u : User.t =>
         User.set_level (Users.newLevel (requestedPoints action a user))
           (User.set_points (requestedPoints action a user) u)) in *.
  set (db1 := mkDb (update (is_user id) data1 (users db)) (badges db)
                   (userBadges db) (contributions db)) in *.
  assert (Hf1 : find (is_user id) (users db1) = Some (data1 user))
    by (apply find_update_same; [intros u; reflexivity | exact Hf]).
  split.
  - intros Hadd Hadd' _ Hsum. rewrite H1. cbn [snd].
    rewrite (put_points_run id b action' db1 (data1 user) Hf1).
    rewrite (put_points_run id (a + b) action db user Hf).
    cbv zeta. subst db1. cbn [snd users badges userBadges contributions].
    f_equal.
    rewrite update_update by (apply is_user_data; intros u; reflexivity).
    apply update_ext. intros r.
    assert (E1 : updatedPoints action' b (data1 user)
                 = User.points user + a + b).
    { rewrite updatedPoints_requested;
        rewrite (requestedPoints_add action' b (data1 user) Hadd');
        subst data1; cbn [User.points User.set_level User.set_points];
        rewrite (requestedPoints_add action a user Hadd);
        [reflexivity | exact Hsum]. }
    assert (E2 : updatedPoints action (a + b) user = User.points user + a + b).
    { rewrite updatedPoints_requested;
        rewrite (requestedPoints_add action (a + b) user Hadd);
        [lia | replace (User.points user + (a + b))
                 with (User.points user + a + b) by lia; exact Hsum]. }
    rewrite E1, E2. reflexivity.
  - rewrite H1. cbn [snd].
    rewrite (put_points_run id b (Some "set") db1 (data1 user) Hf1).
    rewrite (put_points_run id b (Some "set") db user Hf).
    cbv zeta. subst db1. cbn [snd users badges userBadges contributions].
    f_equal.
    rewrite update_update by (apply is_user_data; intros u; reflexivity).
    apply update_ext. intros r. reflexivity.
Qed.

Lemma points_updates_compose_witness :
  snd (Users.put_points "A" (Some 70) None
         (snd (Users.put_points "A" (Some 30) None Sample.db)))
  = snd (Users.put_points "A" (Some (30 + 70)) None Sample.db)
  /\ snd (Users.put_points "A" (Some 70) (Some "set")
            (snd (Users.put_points "A" (Some 30) None Sample.db)))
     = snd (Users.put_points "A" (Some 70) (Some "set") Sample.db).
Proof.
  destruct (points_updates_compose "A" 30 70 None None Sample.db Sample.A
              eq_refl eq_refl eq_refl eq_refl eq_refl) as [Hadd Hset].
  split; [|exact Hset].
  apply Hadd; [discriminate | discriminate | reflexivity | reflexivity].
Defined.



(** ** What the writing handlers keep *)

Lemma grows_refl (db : Db) : grows db db.
Proof.
  repeat split; try (exists []; split; [symmetry; apply List.app_nil_r | cbn; lia]).
Qed.

Lemma userIds_update (id : string) (data : User.t -> User.t)
    (rows : list User.t) :
  (forall u, User.id (data u) = User.id u) ->
  List.map User.id (update (is_user id) data rows) = List.map User.id rows.
Proof.
  intros Hid. unfold update. rewrite List.map_map. apply List.map_ext.
  intros u. destruct (is_user id u); [apply Hid | reflexivity].
Qed.

(** X4.  Whatever the request, [PUT /:id/points], [POST /:id/badges] and
    [PUT /:id/streak] never add, remove, reorder or rename a user and never
    touch the badges; the ledger and [user_badges] are append-only, growing
    by at most one row per request. *)
Theorem writing_handlers_only_grow_the_store :
  (forall id points action db,
     grows db (snd (Users.put_points id points action db)))
  /\ (forall now id badgeId db,
        grows db (snd (Users.post_badges now id badgeId db)))
  /\ (forall now id db, grows db (snd (Users.put_streak now id db))).
Proof.
  split; [|split].
  - intros id points action db. destruct points as [delta|];
      [|apply grows_refl].
    destruct (find (is_user id) (users db)) as [user|] eqn:Hf.
    + rewrite (put_points_run id delta action db user Hf). cbv zeta.
      cbn [snd]. unfold grows, userIds.
      cbn [users badges contributions userBadges].
      split; [apply userIds_update; intros u; reflexivity|].
      split; [reflexivity|].
      split; exists []; (split; [symmetry; apply List.app_nil_r | cbn; lia]).
    + rewrite (put_points_missing id delta action db Hf). apply grows_refl.
  - intros now id badgeId db.
    destruct (post_badges_cases now id badgeId db)
      as [(st & er & _ & Hrun) | (bid & user & badge & -> & Hne & Hu & Hb & Hub)].
    + rewrite Hrun. apply grows_refl.
    + rewrite (post_badges_fresh now id bid db user badge Hne Hu Hb Hub).
      cbn [snd]. unfold grows, userIds.
      cbn [users badges contributions userBadges].
      split; [apply userIds_update; intros u; reflexivity|].
      split; [reflexivity|].
      split; eexists; (split; [reflexivity | cbn; lia]).
  - intros now id db.
    destruct (find (is_user id) (users db)) as [user|] eqn:Hf.
    + rewrite (put_streak_run now id db user Hf). cbv zeta. cbn [snd].
      destruct (Users.weeklyBonus _ _); unfold grows, userIds;
        cbn [users badges contributions userBadges].
      * split.
        { rewrite !userIds_update by (intros u; reflexivity). reflexivity. }
        split; [reflexivity|].
        split; [eexists; split; [reflexivity | cbn; lia]|].
        exists []. split; [symmetry; apply List.app_nil_r | cbn; lia].
      * split; [apply userIds_update; intros u; reflexivity|].
        split; [reflexivity|].
        split; exists []; (split; [symmetry; apply List.app_nil_r | cbn; lia]).
    + rewrite (put_streak_missing now id db Hf). apply grows_refl.
Qed.

Lemma unlockPairs_fresh (id badgeId : string) (db : Db) :
  find (is_userBadge id badgeId) (userBadges db) = None ->
  ~ In (id, badgeId) (unlockPairs db).
Proof.
  intros Hnone Hin. unfold unlockPairs in Hin.
  apply List.in_map_iff in Hin. destruct Hin as (ub & Hpair & Hub).
  injection Hpair as Hu Hb.
  pose proof (find_none _ _ Hnone ub Hub) as Hfalse.
  assert (is_userBadge id badgeId ub = true)
    by (apply is_userBadge_true; split; assumption).
  congruence.
Qed.

(** X5.  [POST /:id/badges] keeps the unique index of [user_badges]: if no
    [(userId, badgeId)] pair occurs twice before a request, none does after
    it, whatever the request. *)
Theorem badge_unlock_keeps_pairs_unique (now : Z) (id : string)
    (badgeId : option string) (db : Db) :
  NoDup (unlockPairs db) ->
  NoDup (unlockPairs (snd (Users.post_badges now id badgeId db))).
Proof.
  intros Hnd.
  destruct (post_badges_cases now id badgeId db)
    as [(st & er & _ & Hrun) | (bid & user & badge & -> & Hne & Hu & Hb & Hub)].
  - rewrite Hrun. exact Hnd.
  - rewrite (post_badges_fresh now id bid db user badge Hne Hu Hb Hub).
    cbn [snd]. unfold unlockPairs in *. cbn [userBadges].
    rewrite List.map_app. cbn [List.map UserBadge.userId UserBadge.badgeId].
    apply List.NoDup_app; [exact Hnd | repeat constructor; intros [] |].
    intros p Hin [<- | []].
    exact (unlockPairs_fresh id bid db Hub Hin).
Qed.

Lemma badge_unlock_keeps_pairs_unique_witness :
  NoDup (unlockPairs Sample.db)
  /\ NoDup (unlockPairs
              (snd (Users.post_badges 6 "A" (Some "badge-1")
                      (snd (Users.post_badges 5 "A" (Some "badge-1")
                              Sample.db))))).
Proof.
  assert (H0 : NoDup (unlockPairs Sample.db)) by constructor.
  split; [exact H0|].
  apply badge_unlock_keeps_pairs_unique.
  apply badge_unlock_keeps_pairs_unique. exact H0.
Defined.

(** ** Ledger and point totals move together *)

Lemma ledgerPoints_append (userId : string) (db db' : Db) (c : Contribution.t) :
  contributions db' = (contributions db ++ [c])%list ->
  ledgerPoints userId db'
  = ledgerPoints userId db
    + (if String.eqb (Contribution.userId c) userId
       then Contribution.points c else 0).
Proof.
  unfold ledgerPoints. intros ->.
  induction (contributions db) as [|x rows IH]; cbn [List.app List.fold_right].
  - destruct (String.eqb (Contribution.userId c) userId); lia.
  - rewrite IH. destruct (String.eqb (Contribution.userId x) userId); lia.
Qed.

Lemma award_keeps_gap (id : string) (n : Z) (c : Contribution.t)
    (data : User.t -> User.t) (db db' : Db) :
  users db' = update (is_user id) data (users db) ->
  (forall u, User.id (data u) = User.id u) ->
  (forall u, User.points (data u) = User.points u + n) ->
  contributions db' = (contributions db ++ [c])%list ->
  Contribution.userId c = id ->
  Contribution.points c = n ->
  forall id' u,
    find (is_user id') (users db) = Some u ->
    exists u',
      find (is_user id') (users db') = Some u'
      /\ ledgerPoints id' db' - User.points u'
         = ledgerPoints id' db - User.points u.
Proof.
  intros Hus Hid Hpts Hcs Hc Hn id' u Hf.
  rewrite Hus, (find_update_user id id' data (users db) Hid), Hf.
  cbn [option_map]. eexists. split; [reflexivity|].
  rewrite (ledgerPoints_append id' db db' c Hcs), Hc, Hn.
  pose proof (find_some _ _ Hf) as [_ Hu]. unfold is_user in Hu.
  apply String.eqb_eq in Hu. unfold is_user. rewrite Hu.
  rewrite (String.eqb_sym id' id).
  destruct (String.eqb id id'); [rewrite Hpts|]; lia.
Qed.

Lemma frame_keeps_gap (id : string) (data : User.t -> User.t) (db db' : Db) :
  users db' = update (is_user id) data (users db) ->
  (forall u, User.id (data u) = User.id u) ->
  (forall u, User.points (data u) = User.points u) ->
  contributions db' = contributions db ->
  forall id' u,
    find (is_user id') (users db) = Some u ->
    exists u',
      find (is_user id') (users db') = Some u'
      /\ ledgerPoints id' db' - User.points u'
         = ledgerPoints id' db - User.points u.
Proof.
  intros Hus Hid Hpts Hcs id' u Hf.
  rewrite Hus, (find_update_user id id' data (users db) Hid), Hf.
  cbn [option_map]. eexists. split; [reflexivity|].
  rewrite (ledgerPoints_frame id' db db' Hcs).
  destruct (is_user id u); [rewrite Hpts|]; reflexivity.
Qed.

(** X6.  A badge unlock and a streak touch move the ledger and the point
    total together: for every user of the store, the difference between the
    sum of the user's contribution points and the user's [points] is the same
    after the request as before it, whatever the request.  (A ledger in step
    with the points stays in step; [PUT /:id/points] is the handler that
    breaks it.) *)
Theorem awards_keep_ledger_in_step :
  (forall now id badgeId db id' u,
     find (is_user id') (users db) = Some u ->
     exists u',
       find (is_user id')
            (users (snd (Users.post_badges now id badgeId db))) = Some u'
       /\ ledgerPoints id' (snd (Users.post_badges now id badgeId db))
          - User.points u'
          = ledgerPoints id' db - User.points u)
  /\ (forall now id db id' u,
        find (is_user id') (users db) = Some u ->
        exists u',
          find (is_user id') (users (snd (Users.put_streak now id db)))
          = Some u'
          /\ ledgerPoints id' (snd (Users.put_streak now id db))
             - User.points u'
             = ledgerPoints id' db - User.points u).
Proof.
  split.
  - intros now id badgeId db id' u Hf.
    destruct (post_badges_cases now id badgeId db)
      as [(st & er & _ & Hrun) | (bid & user & badge & -> & Hne & Hu & Hb & Hub)].
    + rewrite Hrun. cbn [snd]. eauto.
    + rewrite (post_badges_fresh now id bid db user badge Hne Hu Hb Hub).
      cbn [snd].
      match goal with
      | |- exists u', find _ (users ?d) = _ /\ _ =>
          exact (award_keeps_gap id (Badge.points badge) _
                   (User.increment_points (Badge.points badge)) db d
                   eq_refl (fun v => eq_refl) (fun v => eq_refl)
                   eq_refl eq_refl eq_refl id' u Hf)
      end.
  - intros now id db id' u Hf.
    destruct (find (is_user id) (users db)) as [user|] eqn:Hu.
    + rewrite (put_streak_run now id db user Hu). cbv zeta. cbn [snd].
      destruct (Users.weeklyBonus _ _).
      * rewrite update_update
          by (apply is_user_data; intros v; reflexivity).
        match goal with
        | |- exists u', find _ (users ?d) = _ /\ _ =>
            exact (award_keeps_gap id _ _ _ db d
                     eq_refl (fun v => eq_refl) (fun v => eq_refl)
                     eq_refl eq_refl eq_refl id' u Hf)
        end.
      * match goal with
        | |- exists u', find _ (users ?d) = _ /\ _ =>
            exact (frame_keeps_gap id (touched now user) db d
                     eq_refl (fun v => eq_refl) (fun v => eq_refl)
                     eq_refl id' u Hf)
        end.
    + rewrite (put_streak_missing now id db Hu). cbn [snd]. eauto.
Qed.

Lemma awards_keep_ledger_in_step_witness :
  ledgerPoints "D" Sample.ledger_db - User.points Sample.D = 0
  /\ exists u',
       find (is_user "D")
            (users (snd (Users.put_streak (7 * Sample.day) "D"
                           Sample.ledger_db))) = Some u'
       /\ ledgerPoints "D"
            (snd (Users.put_streak (7 * Sample.day) "D" Sample.ledger_db))
          - User.points u'
          = ledgerPoints "D" Sample.ledger_db - User.points Sample.D.
Proof.
  destruct awards_keep_ledger_in_step as [_ Hstreak].
  split; [reflexivity|].
  exact (Hstreak (7 * Sample.day) "D" Sample.ledger_db "D" Sample.D eq_refl).
Defined.

(** ** Streak touches in sequence *)

Lemma put_streak_row (now : Z) (id : string) (db : Db) (user : User.t) :
  find (is_user id) (users db) = Some user ->
  exists user1,
    find (is_user id) (users (snd (Users.put_streak now id db))) = Some user1
    /\ User.currentStreak user1
       = fst (Users.nextStreak
                (Users.daysSinceActive now (User.lastActiveAt user))
                (User.currentStreak user))
    /\ User.longestStreak user1
       = Z.max (User.currentStreak user1) (User.longestStreak user)
    /\ User.lastActiveAt user1 = now
    /\ User.points user1
       = User.points user
         + (if Users.weeklyBonus (User.currentStreak user1)
                                 (User.currentStreak user)
            then User.currentStreak user1 else 0).
Proof.
  intros Hf. rewrite (put_streak_user now id db user Hf). cbv zeta.
  eexists. split; [reflexivity|].
  destruct (Users.weeklyBonus _ _) eqn:Hb; cbn; rewrite ?Hb;
    repeat split; lia.
Qed.

Lemma set_lastActiveAt_only (t cur long : Z) (u : User.t) :
  cur = User.currentStreak u ->
  long = User.longestStreak u ->
  User.set_lastActiveAt t
    (User.set_longestStreak long (User.set_currentStreak cur u))
  = User.set_lastActiveAt t u.
Proof. intros -> ->. destruct u. reflexivity. Qed.

(** X7.  A touch less than a day after the previous touch changes nothing but
    [lastActiveAt]: streak, longest streak and points stay as the previous
    touch left them, no bonus is booked, and the streak is not reported
    broken.  (Each touch moves [lastActiveAt], so touches that keep coming
    less than a day apart never grow the streak.) *)
Theorem touch_within_a_day_only_moves_lastActiveAt (t1 t2 : Z) (id : string)
    (db : Db) (user : User.t) :
  find (is_user id) (users db) = Some user ->
  0 <= t2 - t1 < Sample.day ->
  exists user1 body2 db2,
    find (is_user id) (users (snd (Users.put_streak t1 id db))) = Some user1
    /\ Users.put_streak t2 id (snd (Users.put_streak t1 id db))
       = (Json 200 body2, db2)
    /\ find (is_user id) (users db2) = Some (User.set_lastActiveAt t2 user1)
    /\ contributions db2 = contributions (snd (Users.put_streak t1 id db))
    /\ Users.sr_streakBroken body2 = false.
Proof.
  intros Hf Hgap.
  destruct (put_streak_row t1 id db user Hf)
    as (user1 & Hf1 & Hcur & Hlong & Hlast & _).
  set (db1 := snd (Users.put_streak t1 id db)) in *.
  assert (Hdays : Users.daysSinceActive t2 (User.lastActiveAt user1) = 0)
    by (apply daysSinceActive_floor; rewrite Hlast; lia).
  pose proof (put_streak_run t2 id db1 user1 Hf1) as Hrun.
  pose proof (put_streak_user t2 id db1 user1 Hf1) as Hrow.
  cbv zeta in Hrun, Hrow. rewrite Hdays in Hrun, Hrow.
  unfold Users.nextStreak in Hrun, Hrow. cbn [Z.eqb fst snd] in Hrun, Hrow.
  assert (Hoff : Users.weeklyBonus (User.currentStreak user1)
                                   (User.currentStreak user1) = false)
    by (unfold Users.weeklyBonus; rewrite Z.ltb_irrefl; reflexivity).
  rewrite Hoff in Hrun, Hrow.
  exists user1. eexists _, _.
  split; [exact Hf1|]. split; [exact Hrun|].
  cbn [contributions Users.sr_streakBroken].
  split; [|split; reflexivity].
  rewrite Hrun in Hrow. cbn [snd] in Hrow. rewrite Hrow. f_equal.
  unfold touched. rewrite Hdays. unfold Users.nextStreak. cbn [Z.eqb fst].
  apply set_lastActiveAt_only; [reflexivity | lia].
Qed.

Lemma touch_within_a_day_only_moves_lastActiveAt_witness :
  0 <= (Sample.day + 23 * Sample.hour) - Sample.day < Sample.day
  /\ exists user1 body2 db2,
       find (is_user "A") (users (snd (Users.put_streak Sample.day "A" Sample.db)))
       = Some user1
       /\ Users.put_streak (Sample.day + 23 * Sample.hour) "A"
            (snd (Users.put_streak Sample.day "A" Sample.db))
          = (Json 200 body2, db2)
       /\ find (is_user "A") (users db2)
          = Some (User.set_lastActiveAt (Sample.day + 23 * Sample.hour) user1)
       /\ contributions db2
          = contributions (snd (Users.put_streak Sample.day "A" Sample.db))
       /\ Users.sr_streakBroken body2 = false.
Proof.
  assert (Hgap : 0 <= (Sample.day + 23 * Sample.hour) - Sample.day < Sample.day)
    by (change Sample.day with 86400000; change Sample.hour with 3600000; lia).
  split; [exact Hgap|].
  exact (touch_within_a_day_only_moves_lastActiveAt Sample.day
           (Sample.day + 23 * Sample.hour) "A" Sample.db Sample.A eq_refl Hgap).
Defined.

(** X8.  The streak view after a touch: for up to 48 hours (exclusive) after
    a touch, [GET /:id/streak] shows the streak that the touch wrote and
    reports the streak active; from 48 hours on it shows 0 while the stored
    streak is still the one the touch wrote. *)
Theorem streak_view_after_touch (t1 t2 : Z) (id : string) (db : Db)
    (user : User.t) :
  find (is_user id) (users db) = Some user ->
  exists user1 view,
    find (is_user id) (users (snd (Users.put_streak t1 id db))) = Some user1
    /\ Users.get_streak t2 id (snd (Users.put_streak t1 id db))
       = (Json 200 view, snd (Users.put_streak t1 id db))
    /\ (t2 - t1 < 48 * Sample.hour ->
        Users.sv_currentStreak view = User.currentStreak user1
        /\ Users.sv_streakActive view = true)
    /\ (48 * Sample.hour <= t2 - t1 ->
        Users.sv_currentStreak view = 0
        /\ Users.sv_streakActive view = false)
    /\ Users.sv_longestStreak view = User.longestStreak user1.
Proof.
  intros Hf.
  destruct (put_streak_row t1 id db user Hf)
    as (user1 & Hf1 & _ & _ & Hlast & _).
  exists user1. eexists.
  split; [exact Hf1|].
  split; [exact (get_streak_run t2 id _ user1 Hf1)|].
  cbn [Users.sv_currentStreak Users.sv_streakActive Users.sv_longestStreak].
  pose proof (streakActive_spec t2 (User.lastActiveAt user1)) as Hspec.
  rewrite Hlast in *.
  destruct (Users.streakActive t2 t1).
  - split; [intros _; split; reflexivity|].
    split; [|reflexivity].
    intros Hge. assert (t2 - t1 < 48 * Sample.hour) by (apply Hspec; reflexivity).
    lia.
  - split; [intros Hlt; apply Hspec in Hlt; discriminate|].
    split; [intros _; split; reflexivity | reflexivity].
Qed.

Lemma streak_view_after_touch_witness :
  exists user1 view,
    find (is_user "A") (users (snd (Users.put_streak Sample.day "A" Sample.db)))
    = Some user1
    /\ Users.get_streak (Sample.day + 47 * Sample.hour) "A"
         (snd (Users.put_streak Sample.day "A" Sample.db))
       = (Json 200 view, snd (Users.put_streak Sample.day "A" Sample.db))
    /\ Users.sv_currentStreak view = User.currentStreak user1
    /\ Users.sv_streakActive view = true.
Proof.
  destruct (streak_view_after_touch Sample.day (Sample.day + 47 * Sample.hour)
              "A" Sample.db Sample.A eq_refl)
    as (user1 & view & H1 & Hrun & Hwithin & _).
  exists user1, view. split; [exact H1|]. split; [exact Hrun|].
  apply Hwithin. reflexivity.
Defined.

(** X9.  A touch never lowers the longest streak, and for a user whose
    streak is not negative it never lowers the points: the bonus, when
    booked, is a positive multiple of 7.  The streak after a touch is the old
    one, the old one plus one, or 1. *)
Theorem touch_is_monotone (now : Z) (id : string) (db : Db) (user : User.t) :
  find (is_user id) (users db) = Some user ->
  exists user1,
    find (is_user id) (users (snd (Users.put_streak now id db))) = Some user1
    /\ User.longestStreak user <= User.longestStreak user1
    /\ (User.currentStreak user1 = User.currentStreak user
        \/ User.currentStreak user1 = User.currentStreak user + 1
        \/ User.currentStreak user1 = 1)
    /\ (0 <= User.currentStreak user ->
        User.points user1 = User.points user
        \/ (exists k, 0 < k /\ User.points user1 = User.points user + 7 * k)).
Proof.
  intros Hf.
  destruct (put_streak_row now id db user Hf)
    as (user1 & Hf1 & Hcur & Hlong & _ & Hpts).
  exists user1. split; [exact Hf1|].
  split; [lia|].
  split.
  { rewrite Hcur. unfold Users.nextStreak.
    destruct (_ =? 0); [auto|]. destruct (_ =? 1); auto. }
  intros Hpos.
  destruct (Users.weeklyBonus (User.currentStreak user1)
                              (User.currentStreak user)) eqn:Hb.
  - right. apply weeklyBonus_true in Hb. destruct Hb as [Hlt [k Hk]].
    exists k. split; lia.
  - left. lia.
Qed.

Lemma touch_is_monotone_witness :
  exists user1,
    find (is_user "A") (users (snd (Users.put_streak Sample.day "A" Sample.db)))
    = Some user1
    /\ User.longestStreak Sample.A <= User.longestStreak user1
    /\ (User.points user1 = User.points Sample.A
        \/ (exists k, 0 < k /\ User.points user1 = User.points Sample.A + 7 * k)).
Proof.
  destruct (touch_is_monotone Sample.day "A" Sample.db Sample.A eq_refl)
    as (user1 & H1 & Hlong & _ & Hpts).
  exists user1. split; [exact H1|]. split; [exact Hlong|].
  apply Hpts. discriminate.
Defined.

(** ** Ranks *)

Lemma above_antitone (rows : list User.t) (p q : Z) :
  p <= q ->
  (List.length (List.filter (fun u => (q <? User.points u)%Z) rows)
   <= List.length (List.filter (fun u => (p <? User.points u)%Z) rows))%nat.
Proof.
  intros Hpq. induction rows as [|u l IH]; cbn [List.filter List.length];
    [lia|].
  destruct (Z.ltb_spec q (User.points u)), (Z.ltb_spec p (User.points u));
    cbn [List.length]; lia.
Qed.

Lemma above_strict (rows : list User.t) (p q : Z) (v : User.t) :
  In v rows -> p < User.points v <= q ->
  (List.length (List.filter (fun u => (q <? User.points u)%Z) rows)
   < List.length (List.filter (fun u => (p <? User.points u)%Z) rows))%nat.
Proof.
  intros Hin Hv. induction rows as [|u l IH]; [destruct Hin|].
  pose proof (above_antitone l p q ltac:(lia)) as Hmono.
  cbn [List.filter].
  destruct Hin as [-> | Hin].
  - destruct (Z.ltb_spec q (User.points v)), (Z.ltb_spec p (User.points v));
      cbn [List.length]; lia.
  - specialize (IH Hin).
    destruct (Z.ltb_spec q (User.points u)), (Z.ltb_spec p (User.points u));
      cbn [List.length]; lia.
Qed.

Lemma above_zero (rows : list User.t) (p : Z) :
  List.length (List.filter (fun u => (p <? User.points u)%Z) rows) = 0%nat
  <-> (forall u, In u rows -> User.points u <= p).
Proof.
  induction rows as [|u l IH]; cbn [List.filter].
  - split; [intros _ v [] | reflexivity].
  - destruct (Z.ltb_spec p (User.points u)); cbn [List.length].
    + split; [discriminate|]. intros H0.
      specialize (H0 u (or_introl eq_refl)). lia.
    + rewrite IH. split.
      * intros H0 v [<- | Hv]; [lia | apply H0, Hv].
      * intros H0 v Hv. apply H0. right. exact Hv.
Qed.

Lemma usersAbove_bounds (db : Db) (u : User.t) :
  In u (users db) ->
  0 <= usersAbove (User.points u) db < count (fun _ => true) (users db).
Proof.
  intros Hin. unfold usersAbove, count. split; [lia|].
  apply Nat2Z.inj_lt.
  induction (users db) as [|v l IH]; [destruct Hin|].
  destruct Hin as [-> | Hin].
  - cbn. rewrite Z.ltb_irrefl.
    pose proof (List.filter_length_le (fun v => User.points u <? User.points v) l).
    pose proof (List.filter_length_le (fun _ : User.t => true) l).
    assert (List.length (List.filter (fun _ : User.t => true) l) = List.length l).
    { clear. induction l; cbn; congruence. }
    lia.
  - specialize (IH Hin). cbn.
    destruct (User.points u <? User.points v); cbn; lia.
Qed.

(** X10.  Ranks follow points: for two users of the store, the one with more
    points has the strictly smaller rank, users with equal points share a
    rank, every rank lies between 1 and the number of users, and a user has
    rank 1 exactly when nobody has more points. *)
Theorem ranks_follow_points (a b : string) (db : Db) (ua ub : User.t) :
  find (is_user a) (users db) = Some ua ->
  find (is_user b) (users db) = Some ub ->
  exists sa sb,
    Stats.get_user a db = (Json 200 sa, db)
    /\ Stats.get_user b db = (Json 200 sb, db)
    /\ 1 <= Stats.us_rank sa <= count (fun _ => true) (users db)
    /\ (User.points ua = User.points ub -> Stats.us_rank sa = Stats.us_rank sb)
    /\ (User.points ua < User.points ub -> Stats.us_rank sb < Stats.us_rank sa)
    /\ (Stats.us_rank sa = 1
        <-> forall u, In u (users db) -> User.points u <= User.points ua).
Proof.
  intros Ha Hb.
  rewrite (get_user_run a db ua Ha), (get_user_run b db ub Hb).
  eexists _, _. split; [reflexivity|]. split; [reflexivity|].
  cbn [Stats.us_rank].
  pose proof (find_some _ _ Ha) as [Hina _].
  pose proof (find_some _ _ Hb) as [Hinb _].
  pose proof (usersAbove_bounds db ua Hina) as Hbound.
  split; [lia|].
  split; [intros ->; reflexivity|].
  split.
  - intros Hlt. unfold usersAbove.
    pose proof (above_strict (users db) (User.points ua) (User.points ub) ub
                  Hinb ltac:(lia)).
    lia.
  - unfold usersAbove. rewrite <- above_zero. lia.
Qed.

Lemma ranks_follow_points_witness :
  exists sa sb,
    Stats.get_user "C" Sample.db = (Json 200 sa, Sample.db)
    /\ Stats.get_user "A" Sample.db = (Json 200 sb, Sample.db)
    /\ Stats.us_rank sb < Stats.us_rank sa.
Proof.
  destruct (ranks_follow_points "C" "A" Sample.db Sample.C Sample.A
              eq_refl eq_refl)
    as (sa & sb & Ha & Hb & _ & _ & Hlt & _).
  exists sa, sb. split; [exact Ha|]. split; [exact Hb|].
  apply Hlt. reflexivity.
Defined.

(** ** Streak milestones *)

(** X11.  [getNextStreakMilestone] returns the nearest milestone strictly
    ahead of the streak while the streak is below 365 days; from 365 days on
    it returns the two-year milestone of 730 days, also for streaks of 730
    days and more, where that milestone is no longer ahead. *)
Theorem next_milestone_is_nearest_ahead (currentStreak : Z) :
  let next := Users.getNextStreakMilestone currentStreak in
  (currentStreak < 365 ->
   In next Users.milestones
   /\ currentStreak < Users.days next
   /\ forall m, In m Users.milestones -> currentStreak < Users.days m ->
                Users.days next <= Users.days m)
  /\ (365 <= currentStreak ->
      next = Users.mkMilestone 730 "🏅 Dois Anos")
  /\ (currentStreak < Users.days next <-> currentStreak < 730).
Proof.
  cbv zeta. unfold Users.getNextStreakMilestone, Users.milestones.
  cbn [find Users.days].
  repeat match goal with
         | |- context [?a <? ?b] => destruct (Z.ltb_spec a b)
         end;
    cbn [Users.days In];
    (split;
     [ intros Hlt;
       first [ exfalso; lia
             | split; [tauto|]; split; [lia|];
               intros m Hm Hms;
               repeat (destruct Hm as [<- | Hm]; [cbn [Users.days] in *; lia|]);
               destruct Hm ]
     | split; [ intros Hge; first [exfalso; lia | reflexivity] | lia ] ]).
Qed.

Lemma next_milestone_is_nearest_ahead_witness :
  In (Users.getNextStreakMilestone 29) Users.milestones
  /\ Users.days (Users.getNextStreakMilestone 29) = 30
  /\ Users.days (Users.getNextStreakMilestone 800) = 730.
Proof.
  destruct (next_milestone_is_nearest_ahead 29) as (Hnear & _ & _).
  destruct (Hnear ltac:(lia)) as (Hin & _ & _).
  split; [exact Hin|]. split; reflexivity.
Defined.

(** ** Decimals shown by the read views *)

Lemma get_points_run (id : string) (db : Db) (user : User.t) :
  find (is_user id) (users db) = Some user ->
  UserViews.get_points id db
  = (Json 200
       (UserViews.mkPointsView (User.id user) (User.name user)
          (User.points user) (usersAbove (User.points user) db + 1)
          (count (fun _ => true) (users db))
          (UserViews.percentile (usersAbove (User.points user) db)
                                (count (fun _ => true) (users db)))
          (UserViews.contributionCount (User.id user) db)),
     db).
Proof.
  intros Hf. unfold UserViews.get_points, UserViews.get_points_body.
  unfold_handler. rewrite Hf. reflexivity.
Qed.

(** Every percentile over the checked store sizes passes the check. *)
Lemma percentile_checked_all :
  forallb
    (fun t => forallb (percentile_check t) (range 0 (Z.to_nat t)))
    (range 1 (Z.to_nat checkedUsers))
  = true.
Proof. vm_compute. reflexivity. Qed.

Lemma percentile_checked (a t : Z) :
  0 <= a < t -> t <= checkedUsers ->
  exists q,
    exact (percentile_number a t) = Some q
    /\ negative (round_fixed1 q) = false
    /\ 0 <= tenths (round_fixed1 q) <= 1000
    /\ (Qabs (fixed1_value (round_fixed1 q) - percentileFormula a t)
        <= 1 # 20)%Q
    /\ (a = 0 -> tenths (round_fixed1 q) = 1000).
Proof.
  intros Ha Ht.
  pose proof percentile_checked_all as Hall.
  rewrite forallb_forall in Hall.
  assert (Hin : In t (range 1 (Z.to_nat checkedUsers)))
    by (apply in_range; unfold checkedUsers in *; lia).
  specialize (Hall t Hin). rewrite forallb_forall in Hall.
  specialize (Hall a (in_range 0 (Z.to_nat t) a ltac:(lia))).
  unfold percentile_check in Hall.
  destruct (exact (percentile_number a t)) as [q|]; [|discriminate].
  rewrite Bool.andb_true_iff in Hall. destruct Hall as [Hdec Htop].
  apply decimal_check_spec in Hdec. exists q.
  split; [reflexivity|]. split; [tauto|]. split; [tauto|]. split; [tauto|].
  intros ->. cbn [Z.eqb] in Htop. apply Z.eqb_eq. exact Htop.
Qed.

(** X12.  [GET /:id/points] reports the same rank as the statistics route,
    between 1 and the number of users.  In a store of a checked size the
    percentile it shows is a decimal between 0.0 and 100.0 within 1/20 of
    [(1 - (rank - 1) / totalUsers) * 100], and ["100.0"] for a user of
    rank 1. *)
Theorem points_view_rank_and_percentile (id : string) (db : Db)
    (user : User.t) :
  find (is_user id) (users db) = Some user ->
  exists view stats,
    UserViews.get_points id db = (Json 200 view, db)
    /\ Stats.get_user id db = (Json 200 stats, db)
    /\ UserViews.pv_rank view = Stats.us_rank stats
    /\ 1 <= UserViews.pv_rank view <= UserViews.pv_totalUsers view
    /\ (UserViews.pv_totalUsers view <= checkedUsers ->
        exists shown,
          UserViews.pv_percentile view = print_fixed1 shown
          /\ negative shown = false
          /\ 0 <= tenths shown <= 1000
          /\ (Qabs (fixed1_value shown
                    - percentileFormula (UserViews.pv_rank view - 1)
                                        (UserViews.pv_totalUsers view))
              <= 1 # 20)%Q
          /\ (UserViews.pv_rank view = 1 ->
              UserViews.pv_percentile view = "100.0")).
Proof.
  intros Hf.
  rewrite (get_points_run id db user Hf), (get_user_run id db user Hf).
  pose proof (find_some _ _ Hf) as [Hin _].
  pose proof (usersAbove_bounds db user Hin) as Hb.
  set (above := usersAbove (User.points user) db) in *.
  set (total := count (fun _ => true) (users db)) in *.
  eexists _, _. split; [reflexivity|]. split; [reflexivity|].
  cbn [UserViews.pv_rank UserViews.pv_totalUsers UserViews.pv_percentile
       Stats.us_rank].
  split; [reflexivity|]. split; [lia|].
  intros Ht.
  destruct (percentile_checked above total Hb Ht)
    as (q & Hq & Hneg & Hten & Hclose & Htop).
  assert (Hshown : UserViews.percentile above total
                   = print_fixed1 (round_fixed1 q)).
  { unfold UserViews.percentile, toFixed1.
    unfold percentile_number in Hq. rewrite Hq. reflexivity. }
  exists (round_fixed1 q).
  split; [exact Hshown|]. split; [exact Hneg|]. split; [exact Hten|].
  split.
  - replace (above + 1 - 1) with above by lia. exact Hclose.
  - intros Hone. rewrite Hshown.
    assert (H0 : above = 0) by lia. specialize (Htop H0).
    destruct (round_fixed1 q) as [neg ten]. cbn [negative tenths] in *.
    subst neg ten. reflexivity.
Qed.

Lemma points_view_rank_and_percentile_witness :
  exists view stats shown,
    UserViews.get_points "A" Sample.db = (Json 200 view, Sample.db)
    /\ Stats.get_user "A" Sample.db = (Json 200 stats, Sample.db)
    /\ UserViews.pv_rank view = Stats.us_rank stats
    /\ UserViews.pv_percentile view = print_fixed1 shown
    /\ UserViews.pv_percentile view = "100.0".
Proof.
  destruct (points_view_rank_and_percentile "A" Sample.db Sample.A eq_refl)
    as (view & stats & Hv & Hs & Hrank & _ & Hpct).
  rewrite (get_points_run "A" Sample.db Sample.A eq_refl) in Hv.
  injection Hv as <-.
  destruct Hpct as (shown & Hp & _ & _ & _ & Htop).
  { unfold checkedUsers. cbn. lia. }
  eexists _, stats, shown. split; [reflexivity|]. split; [exact Hs|].
  split; [exact Hrank|]. split; [exact Hp|]. apply Htop. reflexivity.
Defined.

(** X13.  For a user with non-negative points whose stored level is among
    the checked ones, the level progress of [GET /:id/gamification] is a
    number between 0 and 99 that the clamp to 100 leaves as it is; it is
    shown as a decimal between 0.0 and 99.0, and the points to the next level
    are between 1 and [100 * level]. *)
Theorem level_progress_by_level (id : string) (db : Db) (user : User.t) :
  find (is_user id) (users db) = Some user ->
  1 <= User.level user <= checkedLevels ->
  0 <= User.points user ->
  exists body q,
    Users.get_gamification id db = (Json 200 body, db)
    /\ exact (Users.levelProgress user) = Some q
    /\ exact (Math_min (Users.levelProgress user) (number_of_Z 100)) = Some q
    /\ (0 <= q <= inject_Z 99)%Q
    /\ Users.g_levelProgress (Users.gamification body)
       = print_fixed1 (round_fixed1 q)
    /\ negative (round_fixed1 q) = false
    /\ 0 <= tenths (round_fixed1 q) <= 990
    /\ 1 <= Users.g_pointsToNextLevel (Users.gamification body)
         <= 100 * User.level user.
Proof.
  intros Hf Hl Hp.
  rewrite (get_gamification_run id db user Hf).
  destruct (levelProgress_checked user Hp Hl)
    as (q & Hq & Hmin & Hrange & Hneg & Hten & _).
  eexists _, q. split; [reflexivity|].
  cbn [Users.g_levelProgress Users.gamification Users.g_pointsToNextLevel].
  split; [exact Hq|]. split; [exact Hmin|]. split; [exact Hrange|].
  split; [unfold toFixed1; rewrite Hmin; reflexivity|].
  split; [exact Hneg|]. split; [exact Hten|].
  pose proof (Z.rem_bound_pos (User.points user) 100 Hp ltac:(lia)) as Hr.
  unfold Users.pointsForNextLevel, Users.pointsInCurrentLevel. lia.
Qed.

Lemma level_progress_by_level_witness :
  exists body q,
    Users.get_gamification "F" Sample.progress_db
    = (Json 200 body, Sample.progress_db)
    /\ exact (Users.levelProgress Sample.F) = Some q
    /\ Users.g_levelProgress (Users.gamification body)
       = print_fixed1 (round_fixed1 q)
    /\ 0 <= tenths (round_fixed1 q) <= 990
    /\ 1 <= Users.g_pointsToNextLevel (Users.gamification body) <= 100 * 3.
Proof.
  assert (Hl : 1 <= User.level Sample.F <= checkedLevels)
    by (unfold checkedLevels; cbn; lia).
  assert (Hpts : 0 <= User.points Sample.F) by (cbn; lia).
  destruct (level_progress_by_level "F" Sample.progress_db Sample.F eq_refl
              Hl Hpts)
    as (body & q & Hrun & Hq & _ & _ & Hp & _ & Hten & Hnext).
  exists body, q.
  split; [exact Hrun|]. split; [exact Hq|]. split; [exact Hp|].
  split; [exact Hten | exact Hnext].
Defined.

(** ** Ordered queries *)

Lemma insert_by_desc_perm {Row} (key : Row -> Z) (r : Row) (sorted : list Row) :
  Permutation (r :: sorted) (insert_by_desc key r sorted).
Proof.
  induction sorted as [|x rest IH]; cbn [insert_by_desc]; [reflexivity|].
  destruct (key x <=? key r); [reflexivity|].
  rewrite perm_swap. apply perm_skip, IH.
Qed.

Lemma orderBy_desc_perm {Row} (key : Row -> Z) (rows : list Row) :
  Permutation rows (orderBy_desc key rows).
Proof.
  induction rows as [|r rows IH]; cbn [orderBy_desc]; [constructor|].
  rewrite <- insert_by_desc_perm. apply perm_skip, IH.
Qed.

Lemma orderBy_desc_in {Row} (key : Row -> Z) (rows : list Row) (r : Row) :
  In r (orderBy_desc key rows) <-> In r rows.
Proof.
  split; apply Permutation_in;
    [apply Permutation_sym|]; apply orderBy_desc_perm.
Qed.

Lemma insert_by_desc_sorted {Row} (key : Row -> Z) (r : Row)
    (sorted : list Row) :
  StronglySorted (keyGe key) sorted ->
  StronglySorted (keyGe key) (insert_by_desc key r sorted).
Proof.
  induction 1 as [|x rest Hs IH Hall]; cbn [insert_by_desc].
  - repeat constructor.
  - destruct (Z.leb_spec (key x) (key r)) as [Hle|Hgt].
    + constructor; [constructor; assumption|].
      constructor; [exact Hle|].
      eapply List.Forall_impl; [|exact Hall]. unfold keyGe. intros w Hw. lia.
    + constructor; [exact IH|].
      apply List.Forall_forall. intros w Hw.
      apply (Permutation_in _ (Permutation_sym (insert_by_desc_perm key r rest)))
        in Hw.
      destruct Hw as [<- | Hw]; [unfold keyGe; lia|].
      exact (proj1 (List.Forall_forall _ _) Hall w Hw).
Qed.

Lemma orderBy_desc_sorted {Row} (key : Row -> Z) (rows : list Row) :
  StronglySorted (keyGe key) (orderBy_desc key rows).
Proof.
  induction rows as [|r rows IH]; cbn [orderBy_desc]; [constructor|].
  apply insert_by_desc_sorted, IH.
Qed.

(** ** The badge list of a user *)

Lemma get_badges_run (id : string) (db : Db) (user : User.t) :
  find (is_user id) (users db) = Some user ->
  let mine :=
    orderBy_desc UserBadge.unlockedAt
      (List.filter (fun ub => String.eqb (UserBadge.userId ub) id)
                   (userBadges db)) in
  UserViews.get_badges id db
  = (Json 200
       (UserViews.mkBadgesReply
          (Z.of_nat (List.length mine))
          (Z.of_nat (List.length (badges db)))
          (List.map
             (fun badge =>
                UserViews.mkBadgeView (Badge.id badge) (Badge.name badge)
                  (Badge.description badge) (Badge.icon badge)
                  (Badge.points badge)
                  (List.existsb (String.eqb (Badge.id badge))
                                (List.map UserBadge.badgeId mine))
                  (option_map UserBadge.unlockedAt
                     (List.find
                        (fun ub =>
                           String.eqb (UserBadge.badgeId ub) (Badge.id badge))
                        mine)))
             (badges db))),
     db).
Proof.
  intros Hf. cbv zeta.
  unfold UserViews.get_badges, UserViews.get_badges_body,
    UserViews.userBadge_findMany, UserViews.badge_findMany.
  unfold_handler. rewrite Hf. reflexivity.
Qed.

Lemma mine_in (id badgeId : string) (db : Db) :
  (exists ub,
     In ub (orderBy_desc UserBadge.unlockedAt
              (List.filter (fun ub => String.eqb (UserBadge.userId ub) id)
                           (userBadges db)))
     /\ String.eqb (UserBadge.badgeId ub) badgeId = true)
  <-> pairUnlocked id badgeId db.
Proof.
  unfold pairUnlocked. split.
  - intros (ub & Hin & Hb). apply orderBy_desc_in, List.filter_In in Hin.
    destruct Hin as [Hin Hu]. apply String.eqb_eq in Hu, Hb. eauto.
  - intros (ub & Hin & Hu & Hb). exists ub. split.
    + apply orderBy_desc_in, List.filter_In. split; [exact Hin|].
      apply String.eqb_eq, Hu.
    + apply String.eqb_eq, Hb.
Qed.

(** X14.  [GET /:id/badges] lists every badge of the store once, in storage
    order; a badge is flagged [unlocked] exactly when [user_badges] has a row
    for this user and that badge, and exactly then carries an [unlockedAt];
    [unlocked] counts the user's rows and [total] the badges. *)
Theorem badge_list_flags (id : string) (db : Db) (user : User.t) :
  find (is_user id) (users db) = Some user ->
  exists body,
    UserViews.get_badges id db = (Json 200 body, db)
    /\ List.map UserViews.bv_id (UserViews.br_badges body)
       = List.map Badge.id (badges db)
    /\ UserViews.br_total body = Z.of_nat (List.length (badges db))
    /\ UserViews.br_unlocked body
       = count (fun ub => String.eqb (UserBadge.userId ub) id) (userBadges db)
    /\ forall view,
         In view (UserViews.br_badges body) ->
         (UserViews.bv_unlocked view = true
          <-> pairUnlocked id (UserViews.bv_id view) db)
         /\ (UserViews.bv_unlocked view = true
             <-> exists t, UserViews.bv_unlockedAt view = Some t).
Proof.
  intros Hf. rewrite (get_badges_run id db user Hf). cbv zeta.
  eexists. split; [reflexivity|].
  cbn [UserViews.br_badges UserViews.br_total UserViews.br_unlocked].
  split; [rewrite List.map_map; reflexivity|].
  split; [reflexivity|].
  split.
  { unfold count. f_equal. symmetry. apply Permutation_length,
      orderBy_desc_perm. }
  intros view Hin. apply List.in_map_iff in Hin.
  destruct Hin as (badge & <- & _).
  cbn [UserViews.bv_unlocked UserViews.bv_id UserViews.bv_unlockedAt].
  rewrite <- mine_in.
  set (mine := orderBy_desc _ _).
  assert (Hflag : List.existsb (String.eqb (Badge.id badge))
                    (List.map UserBadge.badgeId mine) = true
                  <-> exists ub, In ub mine
                        /\ String.eqb (UserBadge.badgeId ub) (Badge.id badge)
                           = true).
  { rewrite List.existsb_exists. split.
    - intros (b & Hb & E). apply List.in_map_iff in Hb.
      destruct Hb as (ub & <- & Hub). exists ub. split; [exact Hub|].
      rewrite String.eqb_sym. exact E.
    - intros (ub & Hub & E). exists (UserBadge.badgeId ub).
      split; [apply List.in_map, Hub | rewrite String.eqb_sym; exact E]. }
  split; [exact Hflag|].
  rewrite Hflag, <- find_some_iff. split.
  - intros (ub & ->). eexists. reflexivity.
  - intros (t & Ht). destruct (find _ mine) as [ub|]; [eauto | discriminate].
Qed.

Lemma badge_list_flags_witness :
  exists body,
    UserViews.get_badges "A" Sample.db = (Json 200 body, Sample.db)
    /\ List.map UserViews.bv_id (UserViews.br_badges body) = ["badge-1"]
    /\ UserViews.br_unlocked body = 0.
Proof.
  destruct (badge_list_flags "A" Sample.db Sample.A eq_refl)
    as (body & Hrun & Hids & _ & Hcount & _).
  exists body. split; [exact Hrun|]. split; [exact Hids | exact Hcount].
Defined.

(** X15.  Unlock, then list: after a badge unlock that succeeds at instant
    [now], [GET /:id/badges] shows that badge unlocked with
    [unlockedAt = now], and its [unlocked] count is one more than the number
    of rows the user had. *)
Theorem unlocked_badge_is_listed (now : Z) (id badgeId : string) (db : Db)
    (user : User.t) (badge : Badge.t) :
  badgeId <> EmptyString ->
  find (is_user id) (users db) = Some user ->
  find (is_badge badgeId) (badges db) = Some badge ->
  ~ pairUnlocked id badgeId db ->
  exists body view,
    UserViews.get_badges id (snd (Users.post_badges now id (Some badgeId) db))
    = (Json 200 body, snd (Users.post_badges now id (Some badgeId) db))
    /\ In view (UserViews.br_badges body)
    /\ UserViews.bv_id view = badgeId
    /\ UserViews.bv_unlocked view = true
    /\ UserViews.bv_unlockedAt view = Some now
    /\ UserViews.br_unlocked body
       = count (fun ub => String.eqb (UserBadge.userId ub) id) (userBadges db)
         + 1.
Proof.
  intros Hne Hu Hb Hfresh.
  pose proof Hfresh as Hnone. apply not_pairUnlocked_find in Hnone.
  rewrite (post_badges_fresh now id badgeId db user badge Hne Hu Hb Hnone).
  cbn [snd].
  set (db' := mkDb _ _ _ _).
  assert (Hu' : find (is_user id) (users db')
                = Some (User.increment_points (Badge.points badge) user))
    by (apply find_update_same; [intros u; reflexivity | exact Hu]).
  rewrite (get_badges_run id db' _ Hu'). cbv zeta.
  pose proof (find_some _ _ Hb) as [Hbin Hbid].
  unfold is_badge in Hbid. apply String.eqb_eq in Hbid.
  eexists. eexists. split; [reflexivity|].
  cbn [UserViews.br_badges UserViews.br_unlocked].
  split; [apply List.in_map; exact Hbin|].
  cbn [UserViews.bv_id UserViews.bv_unlocked UserViews.bv_unlockedAt].
  set (new := UserBadge.mk id badgeId now).
  set (mine := orderBy_desc UserBadge.unlockedAt
                 (List.filter (fun ub => String.eqb (UserBadge.userId ub) id)
                              (userBadges db'))).
  assert (Hnew : In new mine).
  { apply orderBy_desc_in, List.filter_In. split.
    - subst db'. cbn [userBadges]. apply List.in_or_app. right. left.
      reflexivity.
    - apply String.eqb_refl. }
  assert (Honly : forall ub, In ub mine ->
                    String.eqb (UserBadge.badgeId ub) (Badge.id badge) = true ->
                    ub = new).
  { intros ub Hin E. apply orderBy_desc_in, List.filter_In in Hin.
    destruct Hin as [Hin Hmine]. subst db'. cbn [userBadges] in Hin.
    apply List.in_app_or in Hin. destruct Hin as [Hold | [<- | []]];
      [|reflexivity].
    exfalso. apply Hfresh. exists ub. apply String.eqb_eq in Hmine, E.
    split; [exact Hold|]. split; [exact Hmine | congruence]. }
  split; [exact Hbid|].
  split.
  { apply List.existsb_exists. exists badgeId. split.
    - apply List.in_map_iff. exists new. split; [reflexivity | exact Hnew].
    - rewrite Hbid. apply String.eqb_refl. }
  split.
  { destruct (find (fun ub => String.eqb (UserBadge.badgeId ub) (Badge.id badge))
                   mine) as [ub|] eqn:Hfind.
    - apply find_some in Hfind. destruct Hfind as [Hin E].
      rewrite (Honly ub Hin E). reflexivity.
    - pose proof (find_none _ _ Hfind new Hnew) as E. cbn in E.
      rewrite Hbid, String.eqb_refl in E. discriminate. }
  unfold count. subst mine.
  rewrite <- (Permutation_length (orderBy_desc_perm UserBadge.unlockedAt _)).
  subst db'. cbn [userBadges]. rewrite List.filter_app, List.length_app.
  cbn [List.filter UserBadge.userId]. rewrite String.eqb_refl.
  cbn [List.length]. lia.
Qed.

Lemma unlocked_badge_is_listed_witness :
  exists body view,
    UserViews.get_badges "A"
      (snd (Users.post_badges 5 "A" (Some "badge-1") Sample.db))
    = (Json 200 body, snd (Users.post_badges 5 "A" (Some "badge-1") Sample.db))
    /\ In view (UserViews.br_badges body)
    /\ UserViews.bv_id view = "badge-1"
    /\ UserViews.bv_unlocked view = true
    /\ UserViews.bv_unlockedAt view = Some 5
    /\ UserViews.br_unlocked body = 0 + 1.
Proof.
  assert (Hne : "badge-1" <> EmptyString) by discriminate.
  apply (unlocked_badge_is_listed 5 "A" "badge-1" Sample.db Sample.A
           Sample.primeiroReporte Hne eq_refl eq_refl).
  intros (ub & Hin & _). destruct Hin.
Defined.

(** ** Leaderboards and pages of the ranking *)

Lemma map_mapi {A B C} (g : B -> C) (f : A -> Z -> B) (from : Z)
    (rows : list A) :
  List.map g (Ranking.mapi f from rows)
  = Ranking.mapi (fun row index => g (f row index)) from rows.
Proof.
  revert from. induction rows as [|row rows IH]; intros from;
    cbn [Ranking.mapi List.map]; [reflexivity|].
  rewrite IH. reflexivity.
Qed.

Lemma mapi_ext {A B} (f g : A -> Z -> B) (from : Z) (rows : list A) :
  (forall row index, f row index = g row index) ->
  Ranking.mapi f from rows = Ranking.mapi g from rows.
Proof.
  intros H. revert from. induction rows as [|row rows IH]; intros from;
    cbn [Ranking.mapi]; [reflexivity|].
  rewrite H, IH. reflexivity.
Qed.

Lemma mapi_length {A B} (f : A -> Z -> B) (from : Z) (rows : list A) :
  List.length (Ranking.mapi f from rows) = List.length rows.
Proof.
  revert from. induction rows as [|row rows IH]; intros from;
    cbn [Ranking.mapi List.length]; [reflexivity|].
  rewrite IH. reflexivity.
Qed.

(** The rows of the first [take] places of the ranking. *)
Lemma get_top_run (limit : option nat) (db : Db) :
  let take := match limit with Some n => n | None => 10%nat end in
  Leaderboards.get_top limit db
  = (Json 200
       (Ranking.mapi
          (fun (row : User.t * Z) index =>
             Leaderboards.mkTopEntry (index + 1) (User.id (fst row))
               (User.name (fst row)) (User.points (fst row)) (snd row)
               (Leaderboards.medal index))
          0
          (List.map (withContributionCount db)
             (List.firstn take (Ranking.orderBy_points_desc (users db))))),
     db).
Proof.
  cbv zeta. unfold Leaderboards.get_top, Leaderboards.get_top_body,
    Ranking.user_findMany_orderBy_points_desc.
  unfold_handler. cbn [Z.ltb Z.compare Z.to_nat List.skipn]. do 2 f_equal.
  apply mapi_ext. intros [user c] index. reflexivity.
Qed.

Lemma get_leaderboard_run (limit : option nat) (db : Db) :
  let take := match limit with Some n => n | None => 10%nat end in
  Leaderboards.get_leaderboard limit db
  = (Json 200
       (Ranking.mapi
          (fun (row : User.t * Z) index =>
             Leaderboards.mkLeaderboardEntry (index + 1) (User.id (fst row))
               (User.name (fst row)) (User.points (fst row)) (snd row))
          0
          (List.map (withContributionCount db)
             (List.firstn take (Ranking.orderBy_points_desc (users db))))),
     db).
Proof.
  cbv zeta. unfold Leaderboards.get_leaderboard,
    Leaderboards.get_leaderboard_body,
    Ranking.user_findMany_orderBy_points_desc.
  unfold_handler. cbn [Z.ltb Z.compare Z.to_nat List.skipn]. do 2 f_equal.
  apply mapi_ext. intros [user c] index. reflexivity.
Qed.

(** X16.  [GET /ranking/top] and [GET /stats/leaderboard] with a limit list
    the users of the first page of [GET /ranking] with that limit: the same
    ids, names, points and contribution counts at the same ranks, whatever the
    ranking's [type]. *)
Theorem leaderboards_are_the_first_page (startOfMonth : Z -> Z) (now : Z)
    (type : option string) (n : nat) (db : Db) :
  exists body top board,
    Ranking.get_ranking startOfMonth now type n 1 db = (Json 200 body, db)
    /\ Leaderboards.get_top (Some n) db = (Json 200 top, db)
    /\ Leaderboards.get_leaderboard (Some n) db = (Json 200 board, db)
    /\ List.map (fun e => (Ranking.rank e, Ranking.id e, Ranking.name e,
                           Ranking.points e, Ranking.contributionCount e))
                (Ranking.ranking body)
       = List.map (fun e => (Leaderboards.t_rank e, Leaderboards.t_id e,
                             Leaderboards.t_name e, Leaderboards.t_points e,
                             Leaderboards.t_contributions e))
                  top
    /\ List.map (fun e => (Leaderboards.t_rank e, Leaderboards.t_id e,
                           Leaderboards.t_name e, Leaderboards.t_points e,
                           Leaderboards.t_contributions e))
                top
       = List.map (fun e => (Leaderboards.l_rank e, Leaderboards.l_id e,
                             Leaderboards.l_name e, Leaderboards.l_points e,
                             Leaderboards.l_contributions e))
                  board.
Proof.
  assert (Hskip : 0 <= (1 - 1) * Z.of_nat n) by lia.
  rewrite (get_ranking_run startOfMonth now type n 1 db Hskip).
  rewrite (get_top_run (Some n) db), (get_leaderboard_run (Some n) db).
  cbv zeta. eexists _, _, _.
  split; [reflexivity|]. split; [reflexivity|]. split; [reflexivity|].
  cbn [Ranking.ranking].
  replace ((1 - 1) * Z.of_nat n) with 0 by lia.
  cbn [Z.to_nat List.skipn]. rewrite !map_mapi. split.
  - apply mapi_ext. intros row index. cbn.
    replace (0 + index + 1) with (index + 1) by lia. reflexivity.
  - apply mapi_ext. intros row index. reflexivity.
Qed.

Lemma medal_of_rank (index : Z) :
  0 <= index ->
  (Leaderboards.medal index = Some "🥇" <-> index + 1 = 1)
  /\ (Leaderboards.medal index = Some "🥈" <-> index + 1 = 2)
  /\ (Leaderboards.medal index = Some "🥉" <-> index + 1 = 3)
  /\ (Leaderboards.medal index = None <-> 4 <= index + 1).
Proof.
  intros Hi. unfold Leaderboards.medal.
  destruct (Z.eqb_spec index 0) as [->|H0].
  { repeat split; intros; try discriminate; try lia; reflexivity. }
  destruct (Z.eqb_spec index 1) as [->|H1].
  { repeat split; intros; try discriminate; try lia; reflexivity. }
  destruct (Z.eqb_spec index 2) as [->|H2].
  { repeat split; intros; try discriminate; try lia; reflexivity. }
  repeat split; intros; try discriminate; try lia; reflexivity.
Qed.

Lemma mapi_nth {A B} (f : A -> Z -> B) (from : Z) (rows : list A) (i : nat) :
  List.nth_error (Ranking.mapi f from rows) i
  = option_map (fun row => f row (from + Z.of_nat i)) (List.nth_error rows i).
Proof.
  revert from i. induction rows as [|row rows IH]; intros from [|i];
    cbn [Ranking.mapi List.nth_error option_map]; try reflexivity.
  - rewrite Z.add_0_r. reflexivity.
  - rewrite IH. destruct (List.nth_error rows i); cbn [option_map];
      [|reflexivity].
    do 2 f_equal. lia.
Qed.

(** X17.  In the reply of [GET /ranking/top] the entries are at ranks 1, 2,
    3, ... without gaps, there are as many as the limit allows and users
    exist, and the medals go to the ranks: gold to rank 1, silver to rank 2,
    bronze to rank 3, none from rank 4 on.  Without a limit the top 10 are
    listed. *)
Theorem top_ranks_and_medals (limit : option nat) (db : Db) :
  exists top,
    Leaderboards.get_top limit db = (Json 200 top, db)
    /\ List.length top
       = Nat.min (match limit with Some n => n | None => 10%nat end)
                 (List.length (users db))
    /\ (forall i e, List.nth_error top i = Some e ->
                    Leaderboards.t_rank e = Z.of_nat i + 1)
    /\ forall e, In e top ->
         (Leaderboards.t_badge e = Some "🥇" <-> Leaderboards.t_rank e = 1)
         /\ (Leaderboards.t_badge e = Some "🥈" <-> Leaderboards.t_rank e = 2)
         /\ (Leaderboards.t_badge e = Some "🥉" <-> Leaderboards.t_rank e = 3)
         /\ (Leaderboards.t_badge e = None <-> 4 <= Leaderboards.t_rank e).
Proof.
  rewrite (get_top_run limit db). cbv zeta. eexists. split; [reflexivity|].
  split.
  { rewrite mapi_length, List.length_map, List.length_firstn.
    rewrite <- (Permutation_length (orderBy_points_desc_perm (users db))).
    reflexivity. }
  split.
  - intros i e Hnth. rewrite mapi_nth in Hnth.
    destruct (List.nth_error _ i) as [row|]; [|discriminate].
    cbn [option_map] in Hnth. injection Hnth as <-. cbn. lia.
  - intros e Hin. apply in_mapi in Hin. destruct Hin as (i & row & _ & ->).
    cbn [Leaderboards.t_badge Leaderboards.t_rank].
    apply medal_of_rank. lia.
Qed.

Lemma top_ranks_and_medals_witness :
  exists top e,
    Leaderboards.get_top None Sample.db = (Json 200 top, Sample.db)
    /\ List.nth_error top 1 = Some e
    /\ Leaderboards.t_rank e = 2
    /\ Leaderboards.t_badge e = Some "🥈".
Proof.
  destruct (top_ranks_and_medals None Sample.db)
    as (top & Hrun & _ & Hranks & Hmedals).
  rewrite (get_top_run None Sample.db) in Hrun. injection Hrun as <-.
  eexists _, _. split; [reflexivity|]. split; [reflexivity|].
  split; [exact (Hranks 1%nat _ eq_refl)|].
  apply Hmedals; [right; left; reflexivity | reflexivity].
Defined.

Lemma count_all {Row} (rows : list Row) :
  count (fun _ => true) rows = Z.of_nat (List.length rows).
Proof.
  unfold count. f_equal. induction rows as [|r rows IH]; cbn; congruence.
Qed.

Lemma ceil_div_bounds (total take : Z) :
  0 < take ->
  exists pages,
    Ranking.Math_ceil_div total take = Some pages
    /\ (pages - 1) * take < total <= pages * take.
Proof.
  intros Ht. unfold Ranking.Math_ceil_div.
  destruct (Z.eqb_spec take 0); [lia|].
  eexists. split; [reflexivity|].
  pose proof (Z.div_mod (- total) take ltac:(lia)).
  pose proof (Z.mod_pos_bound (- total) take Ht).
  nia.
Qed.

(** X18.  Pages of [GET /ranking] for a page number from 1 and a positive
    limit: [totalPages] is the least number of pages of that size that hold
    all users; a page holds [limit] entries as long as users are left, the
    rest on the last page, and nothing past it; the ranks on a page run
    without gaps from [(page - 1) * limit + 1]. *)
Theorem ranking_pages (startOfMonth : Z -> Z) (now : Z) (type : option string)
    (limit : nat) (page : Z) (db : Db) :
  1 <= page -> (0 < limit)%nat ->
  let total := Z.of_nat (List.length (users db)) in
  let skip := (page - 1) * Z.of_nat limit in
  exists body pages,
    Ranking.get_ranking startOfMonth now type limit page db
    = (Json 200 body, db)
    /\ Ranking.total (Ranking.pagination body) = total
    /\ Ranking.totalPages (Ranking.pagination body) = Some pages
    /\ (pages - 1) * Z.of_nat limit < total <= pages * Z.of_nat limit
    /\ Z.of_nat (List.length (Ranking.ranking body))
       = Z.min (Z.of_nat limit) (Z.max 0 (total - skip))
    /\ (pages < page -> Ranking.ranking body = [])
    /\ (forall i e, List.nth_error (Ranking.ranking body) i = Some e ->
                    Ranking.rank e = skip + Z.of_nat i + 1).
Proof.
  intros Hpage Hlimit. cbv zeta.
  assert (Hskip : 0 <= (page - 1) * Z.of_nat limit) by nia.
  rewrite (get_ranking_run startOfMonth now type limit page db Hskip).
  cbv zeta.
  destruct (ceil_div_bounds (Z.of_nat (List.length (users db)))
              (Z.of_nat limit) ltac:(lia)) as (pages & Hpages & Hbounds).
  eexists _, pages. split; [reflexivity|].
  cbn [Ranking.pagination Ranking.total Ranking.totalPages Ranking.ranking].
  rewrite count_all.
  split; [reflexivity|]. split; [exact Hpages|]. split; [exact Hbounds|].
  assert (Hlen : Z.of_nat
                   (List.length
                      (Ranking.mapi (entryOf ((page - 1) * Z.of_nat limit)) 0
                         (List.map (withContributionCount db)
                            (List.firstn limit
                               (List.skipn
                                  (Z.to_nat ((page - 1) * Z.of_nat limit))
                                  (Ranking.orderBy_points_desc (users db)))))))
                 = Z.min (Z.of_nat limit)
                     (Z.max 0 (Z.of_nat (List.length (users db))
                               - (page - 1) * Z.of_nat limit))).
  { rewrite mapi_length, List.length_map, List.length_firstn,
      List.length_skipn.
    rewrite <- (Permutation_length (orderBy_points_desc_perm (users db))).
    lia. }
  split; [exact Hlen|].
  split.
  - intros Hpast.
    destruct (Ranking.mapi _ 0 _) as [|e es]; [reflexivity|].
    cbn [List.length] in Hlen. nia.
  - intros i e Hnth. rewrite mapi_nth in Hnth.
    destruct (List.nth_error _ i) as [row|]; [|discriminate].
    cbn [option_map] in Hnth. injection Hnth as <-. cbn. lia.
Qed.

Lemma ranking_pages_witness :
  exists body pages,
    Ranking.get_ranking (fun t => t) 0 None 2 2 Sample.db
    = (Json 200 body, Sample.db)
    /\ Ranking.totalPages (Ranking.pagination body) = Some pages
    /\ (pages - 1) * 2 < 3 <= pages * 2
    /\ Z.of_nat (List.length (Ranking.ranking body)) = 1.
Proof.
  destruct (ranking_pages (fun t => t) 0 None 2 2 Sample.db
              ltac:(lia) ltac:(lia))
    as (body & pages & Hrun & _ & Hpages & Hbounds & Hlen & _).
  exists body, pages. split; [exact Hrun|]. split; [exact Hpages|].
  split; [exact Hbounds | exact Hlen].
Defined.

(** ** The contribution list of the caller *)

Lemma aggregate_is_ledger (userId : string) (db : Db) :
  Contributions.or_zero
    (match List.filter (fun c => String.eqb (Contribution.userId c) userId)
                       (contributions db) with
     | [] => None
     | rows => Some (List.fold_right
                       (fun c acc => Contribution.points c + acc) 0 rows)
     end)
  = ledgerPoints userId db.
Proof.
  unfold ledgerPoints.
  assert (H : List.fold_right (fun c acc => Contribution.points c + acc) 0
                (List.filter
                   (fun c => String.eqb (Contribution.userId c) userId)
                   (contributions db))
              = List.fold_right
                  (fun c acc =>
                     if String.eqb (Contribution.userId c) userId
                     then Contribution.points c + acc else acc)
                  0 (contributions db)).
  { induction (contributions db) as [|c rows IH]; cbn [List.filter List.fold_right];
      [reflexivity|].
    destruct (String.eqb (Contribution.userId c) userId);
      cbn [List.fold_right]; rewrite IH; reflexivity. }
  rewrite <- H.
  destruct (List.filter _ (contributions db)); reflexivity.
Qed.

(** X19.  [GET /contributions] lists at most [limit] contributions, all of
    them rows of the caller and, when a non-empty [type] is given, of that
    type, newest first; [total] is the number listed.  [totalPoints] is the
    sum over all contributions of the caller, whatever the limit and the type
    filter: it is not the sum of the rows listed. *)
Theorem contribution_list (userId : string) (limit : nat) (type : option string)
    (db : Db) :
  exists body,
    Contributions.get_contributions userId limit type db = (Json 200 body, db)
    /\ (List.length (Contributions.lr_contributions body) <= limit)%nat
    /\ Contributions.lr_total body
       = Z.of_nat (List.length (Contributions.lr_contributions body))
    /\ (forall c, In c (Contributions.lr_contributions body) ->
          In c (contributions db)
          /\ Contribution.userId c = userId
          /\ forall ty, type = Some ty -> ty <> EmptyString ->
                        Contribution.type c = ty)
    /\ StronglySorted (keyGe Contribution.createdAt)
         (Contributions.lr_contributions body)
    /\ Contributions.lr_totalPoints body = ledgerPoints userId db.
Proof.
  unfold Contributions.get_contributions,
    Contributions.get_contributions_body, Contributions.aggregate_sum_points.
  unfold_handler. eexists. split; [reflexivity|].
  cbn [Contributions.lr_contributions Contributions.lr_total
       Contributions.lr_totalPoints].
  split; [apply List.firstn_le_length|].
  split; [reflexivity|].
  split.
  { intros c Hin. apply in_firstn, orderBy_desc_in, List.filter_In in Hin.
    destruct Hin as [Hin Hm]. unfold Contributions.matches in Hm.
    apply Bool.andb_true_iff in Hm. destruct Hm as [Hu Hty].
    split; [exact Hin|]. split; [apply String.eqb_eq, Hu|].
    intros ty -> Hne. destruct ty as [|a s]; [contradiction|].
    apply String.eqb_eq, Hty. }
  split; [apply strongly_sorted_firstn, orderBy_desc_sorted|].
  apply aggregate_is_ledger.
Qed.

Lemma contribution_list_witness :
  exists body c,
    Contributions.get_contributions "Q" 5 (Some "issue_reported")
      Sample.month_db
    = (Json 200 body, Sample.month_db)
    /\ In c (Contributions.lr_contributions body)
    /\ Contribution.userId c = "Q"
    /\ Contribution.type c = "issue_reported"
    /\ Contributions.lr_totalPoints body = 50.
Proof.
  destruct (contribution_list "Q" 5 (Some "issue_reported") Sample.month_db)
    as (body & Hrun & _ & _ & Hrows & _ & Htotal).
  cbv in Hrun. injection Hrun as <-.
  eexists _, _. split; [reflexivity|].
  assert (Hin : In (Contribution.mk "Q" "issue_reported" 50
                      "Reportou ocorrência" 700)
                   (Contributions.lr_contributions
                      (Contributions.mkListReply
                         [Contribution.mk "Q" "issue_reported" 50
                            "Reportou ocorrência" 700] 1 50)))
    by (left; reflexivity).
  split; [exact Hin|].
  destruct (Hrows _ Hin) as (_ & Huser & Htype).
  split; [exact Huser|].
  split; [apply (Htype "issue_reported" eq_refl); discriminate | exact Htotal].
Defined.

(** ** Authentication *)

Lemma split_on_spaceless (s : string) :
  spaceless s = true -> Auth.split_on " "%char s = [s].
Proof.
  induction s as [|c s IH]; cbn [spaceless Auth.split_on]; [reflexivity|].
  intros H. apply Bool.andb_true_iff in H. destruct H as [Hc Hs].
  apply Bool.negb_true_iff in Hc. rewrite Hc, (IH Hs). reflexivity.
Qed.

Lemma split_on_field (a b : string) :
  spaceless a = true ->
  Auth.split_on " "%char (a ++ String " "%char b)
  = a :: Auth.split_on " "%char b.
Proof.
  induction a as [|c a IH]; cbn [spaceless Auth.split_on String.append].
  - intros _. reflexivity.
  - intros H. apply Bool.andb_true_iff in H. destruct H as [Hc Ha].
    apply Bool.negb_true_iff in Hc. rewrite Hc, (IH Ha). reflexivity.
Qed.

Lemma split_on_nonempty (sep : ascii) (s : string) :
  exists field fields, Auth.split_on sep s = field :: fields.
Proof.
  induction s as [|c s (field & fields & IH)]; cbn [Auth.split_on]; [eauto|].
  destruct (Ascii.eqb c sep); [eauto|]. rewrite IH. eauto.
Qed.

Lemma authenticate_bearer (verify : string -> string -> option string)
    (token rest : string) (JWT_SECRET : option string) (db : Db) :
  List.nth_error (Auth.split_on " "%char (token ++ rest)) 0 = Some token ->
  Auth.authenticate verify (Some ("Bearer " ++ token ++ rest)) JWT_SECRET db
  = token_outcome verify token JWT_SECRET db.
Proof.
  intros Hfield. unfold Auth.authenticate.
  change ("Bearer " ++ token ++ rest)%string
    with (String "B" (String "e" (String "a" (String "r" (String "e"
           (String "r" (String " " (token ++ rest)))))))).
  cbn [String.prefix negb].
  repeat match goal with
         | |- context [ascii_dec ?a ?b] =>
             destruct (ascii_dec a b) as [_|Hne]; [|exfalso; apply Hne; reflexivity]
         end.
  cbn [String.prefix negb].
  change (String "B" (String "e" (String "a" (String "r" (String "e"
            (String "r" (String " " (token ++ rest))))))))
    with ("Bearer" ++ String " "%char (token ++ rest))%string.
  rewrite split_on_field by reflexivity.
  cbn [List.nth_error] in *. rewrite Hfield.
  replace (String.prefix EmptyString (token ++ rest)) with true
    by (destruct (token ++ rest)%string; reflexivity).
  reflexivity.
Qed.

Lemma append_empty_r (s : string) : (s ++ EmptyString)%string = s.
Proof.
  induction s as [|c s IH]; cbn [String.append]; [reflexivity|].
  rewrite IH. reflexivity.
Qed.

Lemma authenticate_plain_token (verify : string -> string -> option string)
    (token : string) (JWT_SECRET : option string) (db : Db) :
  spaceless token = true ->
  Auth.authenticate verify (Some ("Bearer " ++ token)) JWT_SECRET db
  = token_outcome verify token JWT_SECRET db.
Proof.
  intros Hs.
  rewrite <- (authenticate_bearer verify token EmptyString JWT_SECRET db).
  - rewrite append_empty_r. reflexivity.
  - rewrite append_empty_r, (split_on_spaceless token Hs). reflexivity.
Qed.

(** X20.  [authenticate] takes as token the text between the first and the
    second space of the header: a header ["Bearer <token>"] is decided by the
    token alone, anything after a further space is ignored, and a second
    space right after ["Bearer "] makes the token empty.  A header that does
    not start with ["Bearer "] is refused as missing.  Every refusal is a
    401, and an authenticated user is a row of the store. *)
Theorem authenticate_reads_the_second_field
    (verify : string -> string -> option string) (JWT_SECRET : option string)
    (db : Db) :
  (forall token, spaceless token = true ->
     Auth.authenticate verify (Some ("Bearer " ++ token)) JWT_SECRET db
     = token_outcome verify token JWT_SECRET db)
  /\ (forall token junk, spaceless token = true ->
        Auth.authenticate verify (Some ("Bearer " ++ token ++ " " ++ junk))
                          JWT_SECRET db
        = token_outcome verify token JWT_SECRET db)
  /\ (forall header, String.prefix "Bearer " header = false ->
        Auth.authenticate verify (Some header) JWT_SECRET db
        = Auth.Rejected 401 "Token não fornecido")
  /\ (forall authorization,
        match Auth.authenticate verify authorization JWT_SECRET db with
        | Auth.Rejected status _ => status = 401
        | Auth.Authenticated user => In user (users db)
        end).
Proof.
  split; [|split; [|split]].
  - intros token Hs. apply authenticate_plain_token, Hs.
  - intros token junk Hs.
    apply (authenticate_bearer verify token (" " ++ junk) JWT_SECRET db).
    change (token ++ " " ++ junk)%string
      with (token ++ String " "%char junk)%string.
    rewrite (split_on_field token junk Hs). reflexivity.
  - intros header Hp. unfold Auth.authenticate.
    destruct header as [|c s]; [reflexivity|]. rewrite Hp. reflexivity.
  - intros authorization. unfold Auth.authenticate.
    destruct authorization as [[|c s]|]; try reflexivity.
    destruct (String.prefix "Bearer " (String c s)); cbn [negb];
      [|reflexivity].
    destruct (List.nth_error _ 1) as [token|]; [|reflexivity].
    destruct (verify token (Auth.secret JWT_SECRET)) as [userId|];
      [|reflexivity].
    destruct (find (is_user userId) (users db)) as [user|] eqn:Hf;
      [|reflexivity].
    apply find_some in Hf. exact (proj1 Hf).
Qed.

Lemma authenticate_reads_the_second_field_witness :
  Auth.authenticate sample_verify (Some "Bearer token-A") None Sample.db
  = Auth.Authenticated Sample.A
  /\ Auth.authenticate sample_verify (Some "Bearer token-A trailing words")
       None Sample.db
     = Auth.Authenticated Sample.A
  /\ Auth.authenticate sample_verify (Some "Token token-A") None Sample.db
     = Auth.Rejected 401 "Token não fornecido".
Proof.
  destruct (authenticate_reads_the_second_field sample_verify None Sample.db)
    as (Hplain & Hjunk & Hprefix & _).
  split; [|split].
  - exact (Hplain "token-A" eq_refl).
  - exact (Hjunk "token-A" "trailing words" eq_refl).
  - exact (Hprefix "Token token-A" eq_refl).
Defined.



(** ** Votes *)

Lemma delete_first_appended (p : Issues.Vote -> bool) (rows : list Issues.Vote)
    (v : Issues.Vote) :
  find p rows = None -> p v = true ->
  Issues.delete_first p (rows ++ [v]) = rows.
Proof.
  induction rows as [|x rows IH]; cbn [find Issues.delete_first List.app];
    intros Hn Hv.
  - rewrite Hv. reflexivity.
  - destruct (p x); [discriminate|]. rewrite (IH Hn Hv). reflexivity.
Qed.

Lemma is_vote_refl (issueId userId type : string) :
  Issues.is_vote issueId userId type (Issues.mkVote issueId userId type) = true.
Proof.
  unfold Issues.is_vote. cbn. rewrite !String.eqb_refl. reflexivity.
Qed.

Lemma post_vote_confirm (now : Z) (userId id : string) (s : Issues.Store)
    (issue : Issues.Issue) (user : User.t) :
  find (Issues.is_issue id) (Issues.issues s) = Some issue ->
  find (is_user userId) (users (Issues.core s)) = Some user ->
  find (Issues.is_vote id userId "confirm") (Issues.votes s) = None ->
  Issues.post_vote now userId id (Some "confirm") s
  = (Json 200 (Issues.mkVoteReply "Voto registrado!" true),
     Issues.mkStore
       (mkDb (update (is_user userId) (User.increment_points 5)
                     (users (Issues.core s)))
             (badges (Issues.core s)) (userBadges (Issues.core s))
             (contributions (Issues.core s)
              ++ [Contribution.mk userId "issue_confirmed" 5
                    ("Confirmou ocorrência: " ++ Issues.issue_title issue)%string
                    now]))
       (Issues.issues s)
       (Issues.votes s ++ [Issues.mkVote id userId "confirm"])).
Proof.
  intros Hi Hu Hv. unfold Issues.post_vote. cbn [String.eqb Ascii.eqb Bool.eqb
    orb negb]. rewrite Hi, Hv. unfold Issues.award_confirm. unfold_handler.
  rewrite Hu. reflexivity.
Qed.

Lemma post_vote_remove (now : Z) (userId id type : string) (s : Issues.Store)
    (issue : Issues.Issue) (v : Issues.Vote) :
  type = "upvote" \/ type = "confirm" ->
  find (Issues.is_issue id) (Issues.issues s) = Some issue ->
  find (Issues.is_vote id userId type) (Issues.votes s) = Some v ->
  Issues.post_vote now userId id (Some type) s
  = (Json 200 (Issues.mkVoteReply "Voto removido" false),
     Issues.mkStore (Issues.core s) (Issues.issues s)
       (Issues.delete_first (Issues.is_vote id userId type) (Issues.votes s))).
Proof.
  intros Hty Hi Hv. unfold Issues.post_vote.
  destruct Hty as [-> | ->];
    cbn [String.eqb Ascii.eqb Bool.eqb orb negb]; rewrite Hi, Hv; reflexivity.
Qed.

(** X22.  Confirming, withdrawing and confirming again pays twice: a first
    confirmation of an issue books 5 points and a ledger row; the same
    request again removes the vote and takes nothing back; a third request
    is a first confirmation once more, so the user ends with 10 points more,
    two [issue_confirmed] ledger rows and one vote. *)
Theorem confirm_toggle_pays_again (t1 t2 t3 : Z) (userId id : string)
    (s : Issues.Store) (issue : Issues.Issue) (user : User.t) :
  find (Issues.is_issue id) (Issues.issues s) = Some issue ->
  find (is_user userId) (users (Issues.core s)) = Some user ->
  find (Issues.is_vote id userId "confirm") (Issues.votes s) = None ->
  let confirm := fun now => Issues.post_vote now userId id (Some "confirm") in
  let s1 := snd (confirm t1 s) in
  let s2 := snd (confirm t2 s1) in
  let s3 := snd (confirm t3 s2) in
  let row := fun now =>
    Contribution.mk userId "issue_confirmed" 5
      ("Confirmou ocorrência: " ++ Issues.issue_title issue)%string now in
  fst (confirm t1 s) = Json 200 (Issues.mkVoteReply "Voto registrado!" true)
  /\ fst (confirm t2 s1) = Json 200 (Issues.mkVoteReply "Voto removido" false)
  /\ fst (confirm t3 s2) = Json 200 (Issues.mkVoteReply "Voto registrado!" true)
  /\ pointsOf userId (Issues.core s1) = Some (User.points user + 5)
  /\ Issues.core s2 = Issues.core s1
  /\ Issues.votes s2 = Issues.votes s
  /\ pointsOf userId (Issues.core s3) = Some (User.points user + 10)
  /\ contributions (Issues.core s3)
     = (contributions (Issues.core s) ++ [row t1; row t3])%list
  /\ Issues.votes s3
     = (Issues.votes s ++ [Issues.mkVote id userId "confirm"])%list.
Proof.
  intros Hi Hu Hv. cbv beta zeta.
  rewrite (post_vote_confirm t1 userId id s issue user Hi Hu Hv). cbn [fst snd].
  set (s1 := Issues.mkStore _ _ _).
  assert (Hv1 : find (Issues.is_vote id userId "confirm") (Issues.votes s1)
                = Some (Issues.mkVote id userId "confirm")).
  { subst s1. cbn [Issues.votes]. apply find_app_last; [exact Hv|].
    apply is_vote_refl. }
  rewrite (post_vote_remove t2 userId id "confirm" s1 issue _
             (or_intror eq_refl) Hi Hv1). cbn [fst snd].
  set (s2 := Issues.mkStore _ _ _).
  assert (Hvotes2 : Issues.votes s2 = Issues.votes s).
  { subst s2 s1. cbn [Issues.votes].
    apply delete_first_appended; [exact Hv | apply is_vote_refl]. }
  assert (Hu1 : find (is_user userId) (users (Issues.core s2))
                = Some (User.increment_points 5 user)).
  { subst s2 s1. cbn [Issues.core users].
    apply find_update_same; [intros u; reflexivity | exact Hu]. }
  assert (Hv2 : find (Issues.is_vote id userId "confirm") (Issues.votes s2)
                = None) by (rewrite Hvotes2; exact Hv).
  rewrite (post_vote_confirm t3 userId id s2 issue _ Hi Hu1 Hv2).
  cbn [fst snd Issues.core Issues.votes contributions users].
  split; [reflexivity|]. split; [reflexivity|]. split; [reflexivity|].
  unfold pointsOf.
  split.
  { subst s1. cbn [Issues.core users].
    erewrite find_update_same; [reflexivity | intros u; reflexivity | exact Hu]. }
  split; [reflexivity|]. split; [exact Hvotes2|].
  split.
  { cbn [users]. erewrite find_update_same; [|intros u; reflexivity | exact Hu1].
    cbn. f_equal. lia. }
  split.
  - subst s2 s1. cbn [Issues.core contributions].
    rewrite <- List.app_assoc. reflexivity.
  - rewrite Hvotes2. reflexivity.
Qed.

Lemma confirm_toggle_pays_again_witness :
  pointsOf "A"
    (Issues.core
       (snd (Issues.post_vote 3 "A" "issue-1" (Some "confirm")
               (snd (Issues.post_vote 2 "A" "issue-1" (Some "confirm")
                       (snd (Issues.post_vote 1 "A" "issue-1" (Some "confirm")
                               sample_store)))))))
  = Some (450 + 10)
  /\ Issues.votes
       (snd (Issues.post_vote 3 "A" "issue-1" (Some "confirm")
               (snd (Issues.post_vote 2 "A" "issue-1" (Some "confirm")
                       (snd (Issues.post_vote 1 "A" "issue-1" (Some "confirm")
                               sample_store))))))
     = [Issues.mkVote "issue-1" "A" "confirm"].
Proof.
  destruct (confirm_toggle_pays_again 1 2 3 "A" "issue-1" sample_store
              (Issues.mkIssue "issue-1" "Queimada") Sample.A
              eq_refl eq_refl eq_refl)
    as (_ & _ & _ & _ & _ & _ & Hpoints & _ & Hvotes).
  split; [exact Hpoints | exact Hvotes].
Defined.

(** X23.  Only a first confirmation pays: whatever the request, the vote
    route leaves users, badges and ledger as they were unless the vote is a
    ['confirm'] on an existing issue that the user had not confirmed; an
    upvote, a withdrawal and a refused request book nothing.  A refused
    request (400 or 404) leaves the votes untouched as well. *)
Theorem votes_pay_only_first_confirmations (now : Z) (userId id : string)
    (type : option string) (s : Issues.Store) :
  (Issues.core (snd (Issues.post_vote now userId id type s)) = Issues.core s
   \/ (type = Some "confirm"
       /\ (exists issue,
             find (Issues.is_issue id) (Issues.issues s) = Some issue)
       /\ find (Issues.is_vote id userId "confirm") (Issues.votes s) = None))
  /\ (forall status error s',
        Issues.post_vote now userId id type s = (Error status error, s') ->
        status <> 500 -> s' = s).
Proof.
  unfold Issues.post_vote.
  destruct type as [ty|]; [|split; [left; reflexivity|]].
  2:{ intros status error s' H _. injection H as _ _ <-. reflexivity. }
  destruct (String.eqb ty "upvote" || String.eqb ty "confirm") eqn:Hty;
    cbn [negb].
  2:{ split; [left; reflexivity|].
      intros status error s' H _. injection H as _ _ <-. reflexivity. }
  destruct (find (Issues.is_issue id) (Issues.issues s)) as [issue|] eqn:Hi.
  2:{ split; [left; reflexivity|].
      intros status error s' H _. injection H as _ _ <-. reflexivity. }
  destruct (find (Issues.is_vote id userId ty) (Issues.votes s)) as [v|] eqn:Hv.
  { split; [left; reflexivity | intros status error s' H; discriminate]. }
  destruct (String.eqb_spec ty "confirm") as [->|Hne].
  - split; [right; eauto|].
    intros status error s' H Hs.
    destruct (Issues.award_confirm now userId issue (Issues.core s))
      as [[r| |u] db']; try discriminate.
    injection H as <- _ _. congruence.
  - split; [left; reflexivity | intros status error s' H; discriminate].
Qed.

Lemma votes_pay_only_first_confirmations_witness :
  Issues.post_vote 1 "A" "no-such-issue" (Some "confirm") sample_store
  = (Error 404 "Ocorrência não encontrada", sample_store)
  /\ sample_store = sample_store.
Proof.
  split; [reflexivity|].
  exact (proj2 (votes_pay_only_first_confirmations 1 "A" "no-such-issue"
                  (Some "confirm") sample_store)
               404 "Ocorrência não encontrada" sample_store eq_refl
               ltac:(discriminate)).
Defined.
